(** * AgentBrowser: the learning memory store and the task executor

    A shallow embedding of [src/memory/store.ts] (class [SiteMemoryStore]),
    [src/runtime/executor.ts] (class [TaskExecutor]) and of
    [SemanticAnalyzer.buildModel] and [SemanticAnalyzer.fallbackModel],
    followed by the properties the specification states about them and
    by further properties of the same code: the upkeep of the page cache,
    the site profiles, the digest, the saved sessions and the statistics,
    and the paths of [executeAction], [fillForm] and [extract].

    Conventions of the embedding.
    - A SQLite table is the list of its rows in rowid (insertion) order; an
      [INSERT .. ON CONFLICT .. DO UPDATE] rewrites the conflicting row in
      place and otherwise appends.
    - [Date.now()] is an explicit argument [now] of the store's methods and
      is read from the world by the executor.
    - Integer columns are unbounded [Z]; a [REAL] ratio of two integer
      columns is the exact rational (the two agree on order and on the test
      against 0.5 for rows with fewer than 2^26 attempts).
    - An [async] method is a function from the executor's state to an
      outcome ([Returned] or [Thrown]) and the state it leaves behind. *)

From Stdlib Require Import ZArith QArith Lia List String Ascii Bool Sorted.
From stdpp Require Import base option list strings gmap.

Set Warnings "-register-all".

Open Scope string_scope.
Open Scope Z_scope.

(* ================================================================== *)
(** * Part I. The model *)
(* ================================================================== *)

(** ** Values of type [unknown]: what [JSON.parse] produces *)

(** A number is carried as the text [Number.prototype.toString] gives it;
    the code never computes with one.  An object is the list of its
    entries in [Object.entries] order (keys pairwise distinct). *)
Inductive JSON : Type :=
  | JNull
  | JBool (b : bool)
  | JNumber (text : string)
  | JString (s : string)
  | JArray (items : list JSON)
  | JObject (entries : list (string * JSON)).

(** [obj[key]]: [None] is [undefined]. *)
Fixpoint property {A : Type} (key : string) (entries : list (string * A)) : option A :=
  match entries with
  | [] => None
  | (k, v) :: rest => if String.eqb k key then Some v else property key rest
  end.

(** [obj.key ?? dflt]: the default replaces [undefined] and [null]. *)
Definition nullish (v : option JSON) (dflt : JSON) : JSON :=
  match v with
  | None | Some JNull => dflt
  | Some x => x
  end.

(** [Object.keys(v).length]. *)
Definition Object_keys_length (v : JSON) : nat :=
  match v with
  | JObject entries => length entries
  | JArray items => length items
  | JString s => String.length s
  | _ => 0%nat
  end.

(** [String(v)] for a parsed value. *)
Fixpoint String_of (v : JSON) : string :=
  match v with
  | JNull => "null"
  | JBool true => "true"
  | JBool false => "false"
  | JNumber text => text
  | JString s => s
  | JArray items =>
      let item x := match x with JNull => "" | _ => String_of x end in
      (fix join (l : list JSON) : string :=
         match l with
         | [] => ""
         | [x] => item x
         | x :: rest => item x +:+ "," +:+ join rest
         end) items
  | JObject _ => "[object Object]"
  end.

(** ** [src/types.ts] *)

Inductive ActionType : Type :=
  | click | fill | form | select | navigate | scroll | custom.

Record ActionInternal : Type := {
  type : ActionType;
  selector : option string;
  field_map : option (list (string * string));
  submit_selector : option string
}.

(** [type === 'navigate']. *)
Definition is_navigate (t : ActionType) : bool :=
  match t with navigate => true | _ => false end.

Record ParameterDefinition : Type := {
  param_name : string;
  param_type : string;
  param_description : string;
  required : bool
}.

Record ActionDefinition : Type := {
  name : string;
  description : string;
  parameters : list ParameterDefinition;
  returns : string;
  _internal : option ActionInternal
}.

Record NavigationLink : Type := {
  label : string;
  link_url : string;
  link_type : string
}.

Record FormField : Type := {
  field_name : string;
  field_label : string;
  field_type : string;
  field_required : bool;
  field_selector : string
}.

Record FormDefinition : Type := {
  form_name : string;
  purpose : string;
  fields : list FormField;
  submit_action : string
}.

(** [page_type] is a string at run time: [buildModel] casts without
    checking, and the executor only compares and prints it. *)
Record SemanticPageModel : Type := {
  url : string;
  page_type : string;
  title : string;
  task_status : string;
  key_data : list (string * JSON);
  available_actions : list ActionDefinition;
  warnings : list string;
  navigation : list NavigationLink;
  forms : list FormDefinition;
  timestamp : Z
}.

Record PageTypeChange : Type := {
  from : string;
  to : string
}.

Record StateChange : Type := {
  navigated_to : option string;
  page_type_changed : option PageTypeChange;
  form_submitted : option bool;
  auth_state_changed : option bool;
  summary : string
}.

Record ActionResult : Type := {
  success : bool;
  state_change : StateChange;
  error : option string;
  next_available_actions : list string
}.

Record AgentTask : Type := {
  id : option string;
  goal : string;
  task_url : string
}.

Record TaskOutput : Type := {
  out_page_state : SemanticPageModel;
  out_key_data : list (string * JSON)
}.

Record TaskResult : Type := {
  task_id : string;
  task_success : bool;
  output : option TaskOutput;
  steps_taken : Z;
  task_error : option string
}.

Record SessionHistoryEntry : Type := {
  h_timestamp : Z;
  h_action : string;
  h_url : string;
  result_summary : string
}.

(** [AgentSession]; its [id] is [session_id] here, [AgentTask] has the
    name already. *)
Record AgentSession : Type := {
  session_id : string;
  created_at : Z;
  last_active : Z;
  origin_url : option string;
  auth_domains : list string;
  storage_state : option JSON;
  history : list SessionHistoryEntry;
  branched_from : option string
}.

(** JavaScript truthiness of an optional string: defined and not empty. *)
Definition truthy (s : option string) : option string :=
  match s with
  | Some "" | None => None
  | Some x => Some x
  end.

(** ** The platform's [URL] class, as far as the code reads it *)

Record URLRecord : Type := {
  hostname : string;
  pathname : string
}.

(** The WHATWG URL parser behind [new URL(input)] (no base URL), on the
    part of its input language marked out by [Parsed] and [Failure]; the
    parser answers [Unmodelled] where the standard does work this model
    leaves out: percent-encoding and decoding, IDNA, IPv4 and IPv6
    literals, backslashes, and the [file:] scheme.  A string is the
    sequence of its code units, one [ascii] each. *)
Module URL.

Inductive verdict : Type :=
  | Parsed (u : URLRecord) (opaque_path : bool)
  | Failure
  | Unmodelled.

Definition code (c : ascii) : nat := nat_of_ascii c.

Definition is_c0_control_or_space (c : ascii) : bool := (code c <=? 32)%nat.

Definition is_tab_or_newline (c : ascii) : bool :=
  (code c =? 9)%nat || (code c =? 10)%nat || (code c =? 13)%nat.

Definition is_upper (c : ascii) : bool := (65 <=? code c)%nat && (code c <=? 90)%nat.
Definition is_lower (c : ascii) : bool := (97 <=? code c)%nat && (code c <=? 122)%nat.
Definition is_digit (c : ascii) : bool := (48 <=? code c)%nat && (code c <=? 57)%nat.
Definition is_alpha (c : ascii) : bool := is_upper c || is_lower c.
Definition is_alnum (c : ascii) : bool := is_alpha c || is_digit c.

Definition to_lower (c : ascii) : ascii :=
  if is_upper c then ascii_of_nat (code c + 32) else c.

Fixpoint all_chars (p : ascii -> bool) (s : string) : bool :=
  match s with
  | "" => true
  | String c rest => p c && all_chars p rest
  end.

Fixpoint map_chars (f : ascii -> ascii) (s : string) : string :=
  match s with
  | "" => ""
  | String c rest => String (f c) (map_chars f rest)
  end.

Fixpoint trim_start (s : string) : string :=
  match s with
  | "" => ""
  | String c rest => if is_c0_control_or_space c then trim_start rest else s
  end.

Fixpoint trim_end (s : string) : string :=
  match s with
  | "" => ""
  | String c rest =>
      match trim_end rest with
      | "" => if is_c0_control_or_space c then "" else String c ""
      | kept => String c kept
      end
  end.

Fixpoint remove_tab_newline (s : string) : string :=
  match s with
  | "" => ""
  | String c rest =>
      if is_tab_or_newline c then remove_tab_newline rest
      else String c (remove_tab_newline rest)
  end.

Definition preprocess (input : string) : string :=
  remove_tab_newline (trim_end (trim_start input)).

Definition is_scheme_char (c : ascii) : bool :=
  is_alnum c || Ascii.eqb c "+" || Ascii.eqb c "-" || Ascii.eqb c ".".

(** Scheme state: the lower-cased scheme and what follows its colon. *)
Fixpoint scheme_state (buffer s : string) : option (string * string) :=
  match s with
  | "" => None
  | String c rest =>
      if Ascii.eqb c ":" then Some (buffer, rest)
      else if is_scheme_char c
           then scheme_state (buffer +:+ String (to_lower c) "") rest
           else None
  end.

(** Scheme start state. *)
Definition scheme_start_state (s : string) : option (string * string) :=
  match s with
  | "" => None
  | String c rest =>
      if is_alpha c then scheme_state (String (to_lower c) "") rest else None
  end.

Definition is_special (scheme : string) : bool :=
  existsb (String.eqb scheme) ["ftp"; "file"; "http"; "https"; "ws"; "wss"].

(** Characters no state of the parser rewrites, outside a host. *)
Definition is_plain (c : ascii) : bool :=
  is_alnum c
  || existsb (Ascii.eqb c)
       ["-"; "."; "_"; "~"; "!"; "$"; "&"; "'"; "("; ")"; "*"; "+"; ","; ";"; "=";
        ":"; "@"; "/"; "?"; "#"]%char.

Definition is_host_char (c : ascii) : bool :=
  is_alnum c || Ascii.eqb c "-" || Ascii.eqb c "." || Ascii.eqb c "_".

(** The longest prefix without a character of [stop], and the rest. *)
Fixpoint break (stop : ascii -> bool) (s : string) : string * string :=
  match s with
  | "" => ("", "")
  | String c rest =>
      if stop c then ("", s)
      else let (a, b) := break stop rest in (String c a, b)
  end.

Fixpoint skip_slashes (s : string) : string :=
  match s with
  | String "/" rest => skip_slashes rest
  | _ => s
  end.

Definition ends_authority (c : ascii) : bool :=
  Ascii.eqb c "/" || Ascii.eqb c "?" || Ascii.eqb c "#".

Definition ends_path (c : ascii) : bool := Ascii.eqb c "?" || Ascii.eqb c "#".

(** What follows the last ["@"], and whether there was one. *)
Fixpoint after_last_at (s : string) : string * bool :=
  match s with
  | "" => ("", false)
  | String c rest =>
      let (tail, seen) := after_last_at rest in
      if seen then (tail, true)
      else if Ascii.eqb c "@" then (rest, true)
      else (s, false)
  end.

(** Splitting on a separator; the result is never empty. *)
Fixpoint split_on (sep : ascii) (s : string) : list string :=
  match s with
  | "" => [""]
  | String c rest =>
      if Ascii.eqb c sep then "" :: split_on sep rest
      else match split_on sep rest with
           | first :: others => String c first :: others
           | [] => [String c ""]
           end
  end.

(** Path state, one buffer at a time; [last] holds when the buffer was
    closed by the end of the path rather than by a slash. *)
Fixpoint path_state (path : list string) (segments : list string) : list string :=
  match segments with
  | [] => path
  | buffer :: more =>
      let last := match more with [] => true | _ => false end in
      let path' :=
        if String.eqb buffer ".." then
          if last then (removelast path ++ [""])%list else removelast path
        else if String.eqb buffer "." then
          if last then (path ++ [""])%list else path
        else (path ++ [buffer])%list in
      path_state path' more
  end.

(** The URL path serializer of the [pathname] getter. *)
Fixpoint serialize_path (path : list string) : string :=
  match path with
  | [] => ""
  | segment :: more => "/" +:+ segment +:+ serialize_path more
  end.

Definition parse_path (s : string) : string :=
  serialize_path (path_state [] (split_on "/" (fst (break ends_path s)))).

Fixpoint decimal (acc : N) (s : string) : N :=
  match s with
  | "" => acc
  | String c rest => decimal (acc * 10 + N.of_nat (code c - 48)) rest
  end.

Definition port_ok (port : string) : bool :=
  all_chars is_digit port && (decimal 0 port <=? 65535)%N.

Definition starts_with_digit (s : string) : bool :=
  match s with String c _ => is_digit c | "" => false end.

Definition is_punycode_label (s : string) : bool :=
  match s with
  | String a (String b (String c (String d _))) =>
      Ascii.eqb (to_lower a) "x" && Ascii.eqb (to_lower b) "n"
      && Ascii.eqb c "-" && Ascii.eqb d "-"
  | _ => false
  end.

(** The label the "ends in a number" check of the host parser looks at. *)
Definition last_label (host : string) : string :=
  let parts := split_on "." host in
  let parts := match List.last parts "x" with
               | "" => match parts with [_] => parts | _ => removelast parts end
               | _ => parts
               end in
  List.last parts "".

(** Hosts on which the host parser only lower-cases (domains) or does
    nothing (opaque hosts). *)
Definition host_modelled (special : bool) (host : string) : bool :=
  all_chars is_host_char host
  && (negb special
      || (negb (starts_with_digit (last_label host))
          && negb (existsb is_punycode_label (split_on "." host)))).

(** Authority, host and port states, then the path. *)
Definition authority_state (special : bool) (s : string) : verdict :=
  let (authority, rest) := break ends_authority s in
  let (hostport, at_seen) := after_last_at authority in
  if at_seen && String.eqb hostport "" then Failure
  else
    let (host, port) := break (Ascii.eqb ":") hostport in
    if String.eqb host "" && (special || negb (String.eqb port "")) then Failure
    else if negb (host_modelled special host) then Unmodelled
    else if negb (port_ok (match port with String _ digits => digits | "" => "" end))
    then Failure
    else
      let host := if special then map_chars to_lower host else host in
      let path :=
        match rest with
        | String "/" after => parse_path after
        | _ => if special then parse_path "" else ""
        end in
      Parsed {| hostname := host; pathname := path |} false.

Definition parse (input : string) : verdict :=
  match scheme_start_state (preprocess input) with
  | None => Failure
  | Some (scheme, rest) =>
      if negb (all_chars is_plain rest) then Unmodelled
      else if String.eqb scheme "file" then Unmodelled
      else if is_special scheme then authority_state true (skip_slashes rest)
      else
        match rest with
        | String "/" (String "/" after) => authority_state false after
        | String "/" after =>
            Parsed {| hostname := ""; pathname := parse_path after |} false
        | _ =>
            Parsed {| hostname := ""; pathname := fst (break ends_path rest) |} true
        end
  end.

(** [new URL(input)], with [None] for a thrown [TypeError]. *)
Definition new_URL (input : string) : option URLRecord :=
  match parse input with
  | Parsed u _ => Some u
  | _ => None
  end.

Definition modelled (input : string) : bool :=
  match parse input with
  | Unmodelled => false
  | _ => true
  end.

Definition has_opaque_path (input : string) : bool :=
  match parse input with
  | Parsed _ true => true
  | _ => false
  end.

End URL.

(** ** [src/memory/store.ts] *)

Module SiteMemoryStore.

Definition CACHE_TTL_MS : Z := 1000 * 60 * 30.

Record knowledge_row : Type := {
  k_domain : string;
  k_data : string;
  k_last_updated : Z;
  visit_count : Z
}.

Record cache_row : Type := {
  url_pattern : string;
  c_domain : string;
  model_json : string;
  hit_count : Z;
  c_last_updated : Z
}.

Record selector_row : Type := {
  s_domain : string;
  action_name : string;
  s_selector : string;
  success_count : Z;
  fail_count : Z;
  last_used : Z
}.

Record profile_row : Type := {
  p_domain : string;
  page_types : list string;
  notes : list string;
  p_last_updated : Z
}.

(** The database: one list per table ([sessions] is not touched by the
    operations modelled here). *)
Record db : Type := {
  site_knowledge : list knowledge_row;
  page_model_cache : list cache_row;
  selector_library : list selector_row;
  site_profiles : list profile_row
}.

Definition empty_db : db :=
  {| site_knowledge := []; page_model_cache := [];
     selector_library := []; site_profiles := [] |}.

(** *** Selector library *)

Definition same_key (domain actionName sel : string) (r : selector_row) : bool :=
  String.eqb (s_domain r) domain && String.eqb (action_name r) actionName
  && String.eqb (s_selector r) sel.

(** [INSERT .. ON CONFLICT(domain, action_name, selector) DO UPDATE SET
    success_count = success_count + ?, fail_count = fail_count + ?,
    last_used = ?]. *)
Fixpoint upsert_selector (domain actionName sel : string) (ds df now : Z)
    (rows : list selector_row) : list selector_row :=
  match rows with
  | [] =>
      [ {| s_domain := domain; action_name := actionName; s_selector := sel;
           success_count := ds; fail_count := df; last_used := now |} ]
  | r :: rest =>
      if same_key domain actionName sel r
      then {| s_domain := s_domain r; action_name := action_name r;
              s_selector := s_selector r;
              success_count := success_count r + ds;
              fail_count := fail_count r + df;
              last_used := now |} :: rest
      else r :: upsert_selector domain actionName sel ds df now rest
  end.

Definition recordSelectorOutcome (domain actionName sel : string)
    (ok : bool) (now : Z) (d : db) : db :=
  if String.eqb sel "" then d
  else
    {| site_knowledge := site_knowledge d;
       page_model_cache := page_model_cache d;
       selector_library :=
         upsert_selector domain actionName sel
           (if ok then 1 else 0) (if ok then 0 else 1) now (selector_library d);
       site_profiles := site_profiles d |}.

Definition attempts (r : selector_row) : Z := success_count r + fail_count r.

(** [CAST(success_count AS REAL) / (success_count + fail_count)]. *)
Definition rate (r : selector_row) : Q :=
  (inject_Z (success_count r) / inject_Z (attempts r))%Q.

(** [WHERE domain = ? AND action_name = ? AND success_count + fail_count >= 2]. *)
Definition eligible (domain actionName : string) (r : selector_row) : bool :=
  String.eqb (s_domain r) domain && String.eqb (action_name r) actionName
  && (2 <=? attempts r).

(** [ORDER BY rate DESC, attempts DESC]: [a] sorts strictly before [b]. *)
Definition outranks (a b : selector_row) : bool :=
  match (rate a ?= rate b)%Q with
  | Gt => true
  | Eq => attempts b <? attempts a
  | Lt => false
  end.

(** [LIMIT 1] of the ordered rows; among rows the ordering does not
    separate, the one with the smallest rowid. *)
Fixpoint first_ranked (rows : list selector_row) : option selector_row :=
  match rows with
  | [] => None
  | r :: rest =>
      match first_ranked rest with
      | Some b => if outranks b r then Some b else Some r
      | None => Some r
      end
  end.

Definition getBestSelector (domain actionName : string) (d : db) : option string :=
  match first_ranked (List.filter (eligible domain actionName) (selector_library d)) with
  | None => None
  | Some row =>
      match (rate row ?= 1 # 2)%Q with
      | Lt => None
      | _ => Some (s_selector row)
      end
  end.

(** The table's [UNIQUE(domain, action_name, selector)] constraint. *)
Definition key_of (r : selector_row) : string * string * string :=
  (s_domain r, action_name r, s_selector r).

Definition unique_keys (rows : list selector_row) : Prop :=
  List.NoDup (List.map key_of rows).

(** *** URL keys, page model cache, site profiles, visit counts

    [new_URL] is the platform's [new URL(url)]: [None] when it throws.
    [JSON_stringify] and [JSON_parse] are the platform's codec at type
    [SemanticPageModel]. *)

(** [s.replace(/\/$/, '')]. *)
Fixpoint strip_trailing_slash (s : string) : string :=
  match s with
  | "" => ""
  | String c rest =>
      match rest with
      | "" => if Ascii.eqb c "/" then "" else s
      | _ => String c (strip_trailing_slash rest)
      end
  end.

(** [s || dflt] on strings. *)
Definition or_else (s dflt : string) : string :=
  match s with "" => dflt | _ => s end.

Section Store.

Context (new_URL : string -> option URLRecord).
Context (JSON_stringify : SemanticPageModel -> string).
Context (JSON_parse : string -> SemanticPageModel).

Definition normalizeUrl (url : string) : string :=
  match new_URL url with
  | Some u =>
      let path := or_else (strip_trailing_slash (pathname u)) "/" in
      hostname u +:+ path
  | None => url
  end.

Definition getDomain (url : string) : string :=
  match new_URL url with
  | Some u => hostname u
  | None => url
  end.

Definition with_cache (d : db) (rows : list cache_row) : db :=
  {| site_knowledge := site_knowledge d; page_model_cache := rows;
     selector_library := selector_library d; site_profiles := site_profiles d |}.

Definition has_pattern (pattern : string) (r : cache_row) : bool :=
  String.eqb (url_pattern r) pattern.

(** [UPDATE page_model_cache SET hit_count = hit_count + 1 WHERE url_pattern = ?]. *)
Definition bump_hits (pattern : string) (r : cache_row) : cache_row :=
  if has_pattern pattern r
  then {| url_pattern := url_pattern r; c_domain := c_domain r;
          model_json := model_json r; hit_count := hit_count r + 1;
          c_last_updated := c_last_updated r |}
  else r.

Definition getCachedModel (url : string) (now : Z) (d : db)
    : option SemanticPageModel * db :=
  let pattern := normalizeUrl url in
  match List.find (has_pattern pattern) (page_model_cache d) with
  | None => (None, d)
  | Some row =>
      if CACHE_TTL_MS <? now - c_last_updated row then (None, d)
      else (Some (JSON_parse (model_json row)),
            with_cache d (List.map (bump_hits pattern) (page_model_cache d)))
  end.

(** [INSERT .. ON CONFLICT(url_pattern) DO UPDATE SET model_json =
    excluded.model_json, last_updated = excluded.last_updated]. *)
Fixpoint upsert_cache (pattern domain json : string) (now : Z)
    (rows : list cache_row) : list cache_row :=
  match rows with
  | [] =>
      [ {| url_pattern := pattern; c_domain := domain; model_json := json;
           hit_count := 0; c_last_updated := now |} ]
  | r :: rest =>
      if has_pattern pattern r
      then {| url_pattern := url_pattern r; c_domain := c_domain r;
              model_json := json; hit_count := hit_count r;
              c_last_updated := now |} :: rest
      else r :: upsert_cache pattern domain json now rest
  end.

Definition cacheModel (url : string) (model : SemanticPageModel) (now : Z) (d : db) : db :=
  let pattern := normalizeUrl url in
  let domain := getDomain url in
  with_cache d (upsert_cache pattern domain (JSON_stringify model) now (page_model_cache d)).

Definition invalidateCache (domain : string) (d : db) : db :=
  with_cache d
    (List.filter (fun r => negb (String.eqb (c_domain r) domain)) (page_model_cache d)).

(** [arr.includes(x)] on strings. *)
Definition includes (l : list string) (x : string) : bool :=
  existsb (String.eqb x) l.

Fixpoint upsert_profile (domain : string) (pageTypes notes' : list string) (now : Z)
    (rows : list profile_row) : list profile_row :=
  let fresh := {| p_domain := domain; page_types := pageTypes; notes := notes';
                  p_last_updated := now |} in
  match rows with
  | [] => [fresh]
  | r :: rest =>
      if String.eqb (p_domain r) domain then fresh :: rest
      else r :: upsert_profile domain pageTypes notes' now rest
  end.

Definition updateSiteProfile (domain pageType : string) (note : option string)
    (now : Z) (d : db) : db :=
  let existing := List.find (fun r => String.eqb (p_domain r) domain) (site_profiles d) in
  let pageTypes := match existing with Some r => page_types r | None => [] end in
  let notes0 := match existing with Some r => notes r | None => [] end in
  let pageTypes := if includes pageTypes pageType then pageTypes
                   else (pageTypes ++ [pageType])%list in
  let notes1 :=
    match truthy note with
    | Some n =>
        if includes notes0 n then notes0
        else
          let pushed := (notes0 ++ [n])%list in
          if (20 <? length pushed)%nat then tl pushed else pushed
    | None => notes0
    end in
  {| site_knowledge := site_knowledge d; page_model_cache := page_model_cache d;
     selector_library := selector_library d;
     site_profiles := upsert_profile domain pageTypes notes1 now (site_profiles d) |}.

Fixpoint upsert_visit (domain : string) (now : Z) (rows : list knowledge_row)
    : list knowledge_row :=
  match rows with
  | [] => [ {| k_domain := domain; k_data := "{}"; k_last_updated := now;
               visit_count := 1 |} ]
  | r :: rest =>
      if String.eqb (k_domain r) domain
      then {| k_domain := k_domain r; k_data := k_data r; k_last_updated := now;
              visit_count := visit_count r + 1 |} :: rest
      else r :: upsert_visit domain now rest
  end.

Definition incrementVisitCount (domain : string) (now : Z) (d : db) : db :=
  {| site_knowledge := upsert_visit domain now (site_knowledge d);
     page_model_cache := page_model_cache d;
     selector_library := selector_library d; site_profiles := site_profiles d |}.

(** The columns a read decides on. *)
Definition written (r : cache_row) : string * Z := (model_json r, c_last_updated r).

(** A run of cache reads, each with its URL and the clock at the call. *)
Definition readAll (reads : list (string * Z)) (d : db) : db :=
  fold_left (fun acc r => snd (getCachedModel (fst r) (snd r) acc)) reads d.

End Store.

(** [a] does not sort after [b]: the order of [ORDER BY rate DESC,
    attempts DESC], read from the bottom. *)
Definition ranks_below (a b : selector_row) : Prop :=
  (rate a < rate b)%Q \/ ((rate a == rate b)%Q /\ attempts a <= attempts b).

(** A run of [recordSelectorOutcome] calls on one key, each with its
    outcome and the clock at the call. *)
Definition recordOutcomes (domain actionName sel : string)
    (outcomes : list (bool * Z)) (d : db) : db :=
  fold_left (fun acc o => recordSelectorOutcome domain actionName sel (fst o) (snd o) acc)
    outcomes d.

(** *** Reading one row *)

Definition unique_patterns (rows : list cache_row) : Prop :=
  List.NoDup (List.map url_pattern rows).

Definition profile_of (domain : string) (d : db) : option profile_row :=
  List.find (fun r => String.eqb (p_domain r) domain) (site_profiles d).

(** The [visit_count] column of a domain, zero without a row. *)
Definition visits_of (domain : string) (d : db) : Z :=
  match List.find (fun r => String.eqb (k_domain r) domain) (site_knowledge d) with
  | Some r => visit_count r
  | None => 0
  end.

Definition hits_of (pattern : string) (d : db) : option Z :=
  option_map hit_count (List.find (has_pattern pattern) (page_model_cache d)).

(** The page types and the notes on file for a domain. *)
Definition types_of (domain : string) (d : db) : list string :=
  match profile_of domain d with Some r => page_types r | None => [] end.

Definition notes_of (domain : string) (d : db) : list string :=
  match profile_of domain d with Some r => notes r | None => [] end.

(** What [updateSiteProfile] keeps of a profile: at most twenty notes,
    none twice, no page type twice; and of the table: one row a domain. *)
Definition profile_ok (r : profile_row) : Prop :=
  (length (notes r) <= 20)%nat /\ List.NoDup (notes r) /\ List.NoDup (page_types r).

Definition profiles_ok (rows : list profile_row) : Prop :=
  Forall profile_ok rows /\ List.NoDup (List.map p_domain rows).

(** *** Sessions

    The [sessions] table stands beside the database record: none of the
    other statements reads it. *)

Record session_row : Type := {
  sess_id : string;
  sess_data : string;
  sess_created_at : Z;
  sess_last_active : Z
}.

Section Sessions.

Context (stringify_session : AgentSession -> string).
Context (parse_session : string -> AgentSession).

(** [INSERT .. ON CONFLICT(id) DO UPDATE SET data = excluded.data,
    last_active = excluded.last_active]. *)
Fixpoint upsert_session (i data : string) (created active : Z)
    (rows : list session_row) : list session_row :=
  match rows with
  | [] => [ {| sess_id := i; sess_data := data; sess_created_at := created;
               sess_last_active := active |} ]
  | r :: rest =>
      if String.eqb (sess_id r) i
      then {| sess_id := sess_id r; sess_data := data;
              sess_created_at := sess_created_at r;
              sess_last_active := active |} :: rest
      else r :: upsert_session i data created active rest
  end.

Definition saveSession (session : AgentSession) (rows : list session_row)
    : list session_row :=
  upsert_session (session_id session) (stringify_session session)
    (created_at session) (last_active session) rows.

Definition getSession (i : string) (rows : list session_row) : option AgentSession :=
  match List.find (fun r => String.eqb (sess_id r) i) rows with
  | Some row => Some (parse_session (sess_data row))
  | None => None
  end.

Definition deleteSession (i : string) (rows : list session_row) : list session_row :=
  List.filter (fun r => negb (String.eqb (sess_id r) i)) rows.

(** [ORDER BY last_active DESC]: a row goes in front of the first row
    that was active strictly earlier, so rows active at the same time stay
    in rowid order. *)
Fixpoint place_by_last_active (r : session_row) (ordered : list session_row)
    : list session_row :=
  match ordered with
  | [] => [r]
  | x :: rest =>
      if sess_last_active x <? sess_last_active r then r :: ordered
      else x :: place_by_last_active r rest
  end.

Definition order_by_last_active_desc (rows : list session_row) : list session_row :=
  fold_left (fun ordered r => place_by_last_active r ordered) rows [].

Definition listSessions (rows : list session_row) : list AgentSession :=
  List.map (fun r => parse_session (sess_data r)) (order_by_last_active_desc rows).

End Sessions.

(** The row of a session id, and tables sorted by [last_active], latest
    first. *)
Definition has_id (i : string) (r : session_row) : bool := String.eqb (sess_id r) i.

Definition latest_first : list session_row -> Prop :=
  StronglySorted (fun a b => sess_last_active b <= sess_last_active a).

(** *** Statistics *)

Record Stats : Type := {
  stat_domains : nat;
  stat_sessions : nat;
  stat_actions : nat;
  stat_cached_pages : nat;
  stat_known_selectors : nat
}.

Definition getStats (d : db) (sessions : list session_row) : Stats :=
  {| stat_domains := length (site_knowledge d);
     stat_sessions := length sessions;
     stat_actions := length (selector_library d);
     stat_cached_pages := length (page_model_cache d);
     stat_known_selectors :=
       length (List.filter (fun r => 2 <=? attempts r) (selector_library d)) |}.

(** *** The context digest

    [knownSelectors] is [Object.entries(this.getKnownSelectors(domain))],
    a query on the selector library alone; [visit_count_in] reads
    [JSON.parse(data).visit_count ?? 0] off a stored [data] text;
    [show_number] prints a number inside a template string. *)

Section Digest.

Context (knownSelectors : list selector_row -> string -> list (string * string)).
Context (visit_count_in : string -> Z).
Context (show_number : Z -> string).

(** [this.getSiteKnowledge(domain)?.visit_count ?? 0]. *)
Definition known_visits (domain : string) (d : db) : Z :=
  match List.find (fun r => String.eqb (k_domain r) domain) (site_knowledge d) with
  | Some row => visit_count_in (k_data row)
  | None => 0
  end.

Definition digest_lines (domain : string) (d : db) : list string :=
  let profile := profile_of domain d in
  let known := knownSelectors (selector_library d) domain in
  let visitCount := known_visits domain d in
  ((if 0 <? visitCount
    then ["This domain has been visited " +:+ show_number visitCount +:+ " times."]
    else [])
   ++ match profile with
      | Some row =>
          (if (0 <? length (page_types row))%nat
           then ["Known page types on this domain: " +:+ String.concat ", " (page_types row)]
           else [])
          ++ (if (0 <? length (notes row))%nat
              then ["Site notes: " +:+ String.concat "; " (notes row)]
              else [])
      | None => []
      end
   ++ (if (0 <? length known)%nat
       then "Proven CSS selectors for this domain (use these for _internal fields):"
            :: List.map (fun e => "  - " +:+ fst e +:+ ": " +:+ snd e) known
       else []))%list.

Definition buildLLMContext (domain : string) (d : db) : option string :=
  let profile := profile_of domain d in
  let known := knownSelectors (selector_library d) domain in
  let visitCount := known_visits domain d in
  if match profile with None => true | Some _ => false end
     && (visitCount =? 0) && (length known =? 0)%nat
  then None
  else
    match digest_lines domain d with
    | [] => None
    | lines => Some (String.concat (String (ascii_of_nat 10) "") lines)
    end.

End Digest.

End SiteMemoryStore.

(** ** The executor's collaborators

    An operation of a collaborator takes the world to an outcome and a
    new world; [Thrown] carries the [message] of the rejected promise's
    [Error]. *)

Inductive outcome (A : Type) : Type :=
  | Returned (a : A)
  | Thrown (message : string).
Arguments Returned {A} a.
Arguments Thrown {A} message.

(** [src/engine/browser.ts], the page driver. *)
Module BrowserEngine.
Record t (W : Type) : Type := {
  createSession : W -> outcome string * W;
  destroySession : string -> W -> outcome unit * W;
  navigate : string -> string -> W -> outcome unit * W;
  getCurrentUrl : string -> W -> outcome string * W;
  getPageHTML : string -> W -> outcome string * W;
  getAccessibilityTree : string -> W -> outcome string * W;
  click : string -> string -> W -> outcome unit * W;
  fill : string -> string -> string -> W -> outcome unit * W;
  checkForCaptcha : string -> W -> outcome bool * W
}.
Arguments createSession {W}.
Arguments destroySession {W}.
Arguments navigate {W}.
Arguments getCurrentUrl {W}.
Arguments getPageHTML {W}.
Arguments getAccessibilityTree {W}.
Arguments click {W}.
Arguments fill {W}.
Arguments checkForCaptcha {W}.
End BrowserEngine.

(** [src/semantic/analyzer.ts], the translator. *)
Module SemanticAnalyzer.

Record t (W : Type) : Type := {
  analyze : string -> string -> string -> option string -> W
            -> outcome SemanticPageModel * W
}.
Arguments analyze {W}.

(** What [buildModel] returns before any cast is believed: every field
    taken from the translator's output is whatever JSON value was there. *)
Record built : Type := {
  b_url : string;
  b_page_type : JSON;
  b_title : JSON;
  b_task_status : JSON;
  b_key_data : JSON;
  b_available_actions : JSON;
  b_warnings : JSON;
  b_navigation : JSON;
  b_forms : JSON;
  b_timestamp : Z
}.

(** [parsed.key] where [parsed] is not [null]: [undefined] on anything
    that is not an object with that key. *)
Definition member (key : string) (parsed : JSON) : option JSON :=
  match parsed with
  | JObject entries => property key entries
  | _ => None
  end.

(** Reading a property of [null] throws; [analyze] catches it. *)
Definition buildModel (url : string) (parsed : JSON) (now : Z) : outcome built :=
  match parsed with
  | JNull => Thrown "Cannot read properties of null (reading 'page_type')"
  | _ =>
      Returned
        {| b_url := url;
           b_page_type := nullish (member "page_type" parsed) (JString "unknown");
           b_title := nullish (member "title" parsed) (JString "");
           b_task_status := nullish (member "task_status" parsed) (JString "");
           b_key_data := nullish (member "key_data" parsed) (JObject []);
           b_available_actions := nullish (member "available_actions" parsed) (JArray []);
           b_warnings := nullish (member "warnings" parsed) (JArray []);
           b_navigation := nullish (member "navigation" parsed) (JArray []);
           b_forms := nullish (member "forms" parsed) (JArray []);
           b_timestamp := now |}
  end.

(** [fallbackModel]: what [analyze] returns when the translator's answer
    is not text or cannot be parsed.  Its one action carries no hint. *)
Definition fallbackModel (url : string) (now : Z) : SemanticPageModel :=
  {| url := url;
     page_type := "unknown";
     title := "";
     task_status := "page loaded, analysis failed";
     key_data := [];
     available_actions :=
       [ {| name := "extract_raw";
            description := "Extract raw text content from the page";
            parameters := [];
            returns := "Raw text content of the page";
            _internal := None |} ];
     warnings := ["semantic analysis failed — falling back to raw extraction"];
     navigation := [];
     forms := [];
     timestamp := now |}.

End SemanticAnalyzer.

(** The JavaScript runtime: the clock, [randomUUID()], and the passing of
    time during [setTimeout]. *)
Module Runtime.
Record t (W : Type) : Type := {
  Date_now : W -> Z;
  randomUUID : W -> string * W;
  setTimeout : Z -> W -> W
}.
Arguments Date_now {W}.
Arguments randomUUID {W}.
Arguments setTimeout {W}.
End Runtime.

(** ** [src/runtime/executor.ts] *)

Module TaskExecutor.
Import SiteMemoryStore.

(** Session life-cycle calls made on the driver, oldest first. *)
Inductive lifecycle : Type :=
  | Created (sessionId : string)
  | Destroyed (sessionId : string).

Section Executor.

Context {W : Type}.
Context (engine : BrowserEngine.t W).
Context (analyzer : SemanticAnalyzer.t W).
Context (runtime : Runtime.t W).
Context (new_URL : string -> option URLRecord).
Context (JSON_stringify : SemanticPageModel -> string).
Context (JSON_parse : string -> SemanticPageModel).

(** [SiteMemoryStore.buildLLMContext]: a digest read from the database and
    handed to the translator.  It writes nothing; its text is left open
    (it rests on a [GROUP BY] whose chosen row SQLite does not fix). *)
Context (buildLLMContext : db -> string -> option string).

Record state : Type := {
  world : W;
  memory : db;
  pageModels : gmap string SemanticPageModel;
  sessions : list lifecycle
}.

Definition M (A : Type) : Type := state -> outcome A * state.

Definition ret {A : Type} (a : A) : M A := fun s => (Returned a, s).

Definition throw {A : Type} (message : string) : M A := fun s => (Thrown message, s).

Definition bind {A B : Type} (m : M A) (k : A -> M B) : M B :=
  fun s =>
    match m s with
    | (Returned a, s') => k a s'
    | (Thrown message, s') => (Thrown message, s')
    end.

(** [try { body } catch (err) { handler(err.message) }]. *)
Definition try_catch {A : Type} (body : M A) (handler : string -> M A) : M A :=
  fun s =>
    match body s with
    | (Returned a, s') => (Returned a, s')
    | (Thrown message, s') => handler message s'
    end.

(** [try { body } finally { finalizer }]: a finalizer that throws
    replaces the body's completion. *)
Definition try_finally {A : Type} (body : M A) (finalizer : M unit) : M A :=
  fun s =>
    match body s with
    | (completion, s') =>
        match finalizer s' with
        | (Returned _, s'') => (completion, s'')
        | (Thrown message, s'') => (Thrown message, s'')
        end
    end.

Definition with_world (s : state) (w : W) : state :=
  {| world := w; memory := memory s; pageModels := pageModels s;
     sessions := sessions s |}.

Definition with_memory (s : state) (d : db) : state :=
  {| world := world s; memory := d; pageModels := pageModels s;
     sessions := sessions s |}.

(** [await this.engine.op(..)]. *)
Definition call {A : Type} (op : W -> outcome A * W) : M A :=
  fun s => let (r, w) := op (world s) in (r, with_world s w).

(** [this.memory.query(..)]. *)
Definition read {A : Type} (query : db -> A) : M A :=
  fun s => (Returned (query (memory s)), s).

(** [this.memory.statement(..)], stamped with [Date.now()]. *)
Definition write (statement : Z -> db -> db) : M unit :=
  fun s =>
    (Returned tt, with_memory s (statement (Runtime.Date_now runtime (world s)) (memory s))).

(** [Date.now()]. *)
Definition Date_now : M Z :=
  fun s => (Returned (Runtime.Date_now runtime (world s)), s).

(** [await new Promise((r) => setTimeout(r, ms))]. *)
Definition sleep (ms : Z) : M unit :=
  fun s => (Returned tt, with_world s (Runtime.setTimeout runtime ms (world s))).

(** [this.memory.getCachedModel(url)]. *)
Definition lookup_cache (url : string) : M (option SemanticPageModel) :=
  fun s =>
    let (cached, d) :=
      getCachedModel new_URL JSON_parse url (Runtime.Date_now runtime (world s)) (memory s) in
    (Returned cached, with_memory s d).

Definition pageModels_set (sessionId : string) (model : SemanticPageModel) : M unit :=
  fun s =>
    (Returned tt,
     {| world := world s; memory := memory s;
        pageModels := <[sessionId := model]> (pageModels s);
        sessions := sessions s |}).

Definition log (e : lifecycle) : M unit :=
  fun s =>
    (Returned tt,
     {| world := world s; memory := memory s; pageModels := pageModels s;
        sessions := (sessions s ++ [e])%list |}).

Definition getDomain (url : string) : string :=
  match new_URL url with
  | Some u => hostname u
  | None => url
  end.

Definition buildCaptchaModel (url : string) (now : Z) : SemanticPageModel :=
  {| url := url;
     page_type := "captcha";
     title := "CAPTCHA Challenge";
     task_status := "blocked by CAPTCHA";
     key_data := [];
     available_actions := [];
     warnings := ["CAPTCHA detected — automated interaction blocked"];
     navigation := [];
     forms := [];
     timestamp := now |}.

Definition action_names (model : SemanticPageModel) : list string :=
  List.map name (available_actions model).

Definition errorResult (message : string) (currentModel : SemanticPageModel) : ActionResult :=
  {| success := false;
     state_change :=
       {| navigated_to := None; page_type_changed := None; form_submitted := None;
          auth_state_changed := None; summary := message |};
     error := Some message;
     next_available_actions := action_names currentModel |}.

Definition buildSummary (urlBefore urlAfter : string)
    (before after : SemanticPageModel) : string :=
  if negb (String.eqb urlBefore urlAfter) then
    "Navigated from " +:+ page_type before +:+ " to " +:+ page_type after +:+ ". "
      +:+ task_status after
  else if negb (String.eqb (page_type before) (page_type after)) then
    "Page changed from " +:+ page_type before +:+ " to " +:+ page_type after
  else "Action completed. Page: " +:+ task_status after.

Definition buildStateChange (urlBefore urlAfter : string)
    (modelBefore modelAfter : SemanticPageModel) : StateChange :=
  let navigated := negb (String.eqb urlBefore urlAfter) in
  let typeChanged := negb (String.eqb (page_type modelBefore) (page_type modelAfter)) in
  {| navigated_to := if navigated then Some urlAfter else None;
     page_type_changed :=
       if typeChanged
       then Some {| from := page_type modelBefore; to := page_type modelAfter |}
       else None;
     auth_state_changed :=
       Some (String.eqb (page_type modelBefore) "login"
             && negb (String.eqb (page_type modelAfter) "login"));
     form_submitted := Some ((0 <? length (forms modelBefore))%nat && navigated);
     summary := buildSummary urlBefore urlAfter modelBefore modelAfter |}.

Definition refreshModel (sessionId : string) : M SemanticPageModel :=
  bind (call (BrowserEngine.getCurrentUrl engine sessionId)) (fun url =>
  bind (call (BrowserEngine.checkForCaptcha engine sessionId)) (fun captcha =>
  if captcha
  then bind Date_now (fun now => ret (buildCaptchaModel url now))
  else
    let domain := getDomain url in
    bind (lookup_cache url) (fun cached =>
    match cached with
    | Some model =>
        bind (pageModels_set sessionId model) (fun _ => ret model)
    | None =>
        bind (read (fun d => buildLLMContext d domain)) (fun siteContext =>
        bind (call (BrowserEngine.getPageHTML engine sessionId)) (fun html =>
        bind (call (BrowserEngine.getAccessibilityTree engine sessionId)) (fun accessTree =>
        bind (call (SemanticAnalyzer.analyze analyzer url html accessTree siteContext))
          (fun model =>
        bind (write (incrementVisitCount domain)) (fun _ =>
        bind (write (updateSiteProfile domain (page_type model) None)) (fun _ =>
        bind (write (cacheModel new_URL JSON_stringify url model)) (fun _ =>
        bind (pageModels_set sessionId model) (fun _ =>
        ret model))))))))
    end))).

Definition navigate (sessionId url : string) : M SemanticPageModel :=
  bind (call (BrowserEngine.navigate engine sessionId url)) (fun _ =>
  refreshModel sessionId).

Definition getPageState (sessionId : string) : M SemanticPageModel :=
  fun s =>
    match pageModels s !! sessionId with
    | Some model => (Returned model, s)
    | None => refreshModel sessionId s
    end.

(** [s.startsWith(prefix)]. *)
Definition startsWith (s prefix : string) : bool := String.prefix prefix s.

Definition recordOutcome (domain actionName sel : string) (ok : bool) : M unit :=
  write (recordSelectorOutcome domain actionName sel ok).

Fixpoint fill_fields (sessionId : string) (entries : list (string * string))
    (params : list (string * JSON)) : M unit :=
  match entries with
  | [] => ret tt
  | (paramName, sel) :: rest =>
      match property paramName params, truthy (Some sel) with
      | Some value, Some sel' =>
          bind (call (BrowserEngine.fill engine sessionId sel' (String_of value)))
            (fun _ => fill_fields sessionId rest params)
      | _, _ => fill_fields sessionId rest params
      end
  end.

(** Strategy 2 of [performAction]. *)
Definition clickRemembered (sessionId : string) (action : ActionDefinition)
    (domain : string) : M unit :=
  bind (read (getBestSelector domain (name action))) (fun remembered =>
  match truthy remembered with
  | Some sel => call (BrowserEngine.click engine sessionId sel)
  | None =>
      throw ("Cannot execute '" +:+ name action +:+ "' — no selector available. "
             +:+ "This action needs to be executed at least once with explicit selectors to learn from.")
  end).

Definition is_fill_or_form (t : ActionType) : bool :=
  match t with fill | form => true | _ => false end.

Definition performAction (sessionId : string) (action : ActionDefinition)
    (params : list (string * JSON)) (domain : string) : M unit :=
  match _internal action with
  | Some internal =>
      let third :=
        match is_navigate (type internal), truthy (selector internal) with
        | true, Some sel =>
            if startsWith sel "http://" || startsWith sel "https://"
            then call (BrowserEngine.navigate engine sessionId sel)
            else call (BrowserEngine.click engine sessionId sel)
        | _, _ => clickRemembered sessionId action domain
        end in
      let second :=
        match is_fill_or_form (type internal), field_map internal with
        | true, Some entries =>
            bind (fill_fields sessionId entries params) (fun _ =>
            match truthy (submit_selector internal) with
            | Some submit => call (BrowserEngine.click engine sessionId submit)
            | None => third
            end)
        | _, _ => third
        end in
      match type internal, truthy (selector internal) with
      | click, Some sel => call (BrowserEngine.click engine sessionId sel)
      | _, _ => second
      end
  | None => clickRemembered sessionId action domain
  end.

Fixpoint learnFields (domain actionName : string) (entries : list (string * string))
    (ok : bool) : M unit :=
  match entries with
  | [] => ret tt
  | (paramName, sel) :: rest =>
      bind (match truthy (Some sel) with
            | Some sel' => recordOutcome domain (actionName +:+ "." +:+ paramName) sel' ok
            | None => ret tt
            end) (fun _ => learnFields domain actionName rest ok)
  end.

Definition learnFromAction (domain actionName : string) (action : ActionDefinition)
    (ok : bool) : M unit :=
  match _internal action with
  | None => ret tt
  | Some internal =>
      bind (match truthy (selector internal) with
            | Some sel => recordOutcome domain actionName sel ok
            | None => ret tt
            end) (fun _ =>
      bind (match field_map internal with
            | Some entries => learnFields domain actionName entries ok
            | None => ret tt
            end) (fun _ =>
      match truthy (submit_selector internal) with
      | Some submit => recordOutcome domain (actionName +:+ ".submit") submit ok
      | None => ret tt
      end))
  end.

(** The [try] block of [executeAction]. *)
Definition attempt (sessionId actionName : string) (action : ActionDefinition)
    (params : list (string * JSON)) (model : SemanticPageModel)
    (urlBefore domain : string) : M ActionResult :=
  bind (performAction sessionId action params domain) (fun _ =>
  bind (sleep 500) (fun _ =>
  bind (call (BrowserEngine.checkForCaptcha engine sessionId)) (fun captcha =>
  if captcha then ret (errorResult "CAPTCHA appeared after action." model)
  else
    bind (call (BrowserEngine.getCurrentUrl engine sessionId)) (fun urlAfter =>
    bind (if negb (String.eqb urlAfter urlBefore)
          then write (fun _ => invalidateCache domain)
          else ret tt) (fun _ =>
    bind (refreshModel sessionId) (fun newModel =>
    bind (learnFromAction domain actionName action true) (fun _ =>
    bind (write (updateSiteProfile domain (page_type newModel)
                   (Some ("action '" +:+ actionName +:+ "' on " +:+ page_type model
                          +:+ " leads to " +:+ page_type newModel)))) (fun _ =>
    ret {| success := true;
           state_change := buildStateChange urlBefore urlAfter model newModel;
           error := None;
           next_available_actions := action_names newModel |})))))))).

Definition executeAction (sessionId actionName : string)
    (params : list (string * JSON)) : M ActionResult :=
  bind (getPageState sessionId) (fun model =>
  match List.find (fun a => String.eqb (name a) actionName) (available_actions model) with
  | None =>
      ret (errorResult
             ("Action '" +:+ actionName +:+ "' not available. Available: "
              +:+ String.concat ", " (action_names model))
             model)
  | Some action =>
      bind (call (BrowserEngine.getCurrentUrl engine sessionId)) (fun urlBefore =>
      let domain := getDomain urlBefore in
      try_catch
        (attempt sessionId actionName action params model urlBefore domain)
        (fun message =>
           bind (learnFromAction domain actionName action false) (fun _ =>
           ret (errorResult
                  ("Action '" +:+ actionName +:+ "' failed: " +:+ message)
                  model))))
  end).

Definition randomUUID : M string :=
  fun s => let (u, w) := Runtime.randomUUID runtime (world s) in
           (Returned u, with_world s w).

(** [task.id ?? randomUUID()]. *)
Definition task_id_or_random (task : AgentTask) : M string :=
  match id task with
  | Some i => ret i
  | None => randomUUID
  end.

Definition runTask (task : AgentTask) : M TaskResult :=
  bind (call (BrowserEngine.createSession engine)) (fun sessionId =>
  bind (log (Created sessionId)) (fun _ =>
  try_finally
    (try_catch
       (bind (navigate sessionId (task_url task)) (fun model =>
        bind (task_id_or_random task) (fun i =>
        ret {| task_id := i;
               task_success := true;
               output := Some {| out_page_state := model; out_key_data := key_data model |};
               steps_taken := 1;
               task_error := None |})))
       (fun message =>
        bind (task_id_or_random task) (fun i =>
        ret {| task_id := i;
               task_success := false;
               output := None;
               steps_taken := 0;
               task_error := Some message |})))
    (bind (log (Destroyed sessionId)) (fun _ =>
     call (BrowserEngine.destroySession engine sessionId))))).

(** The promises of [tasks.map((task) => this.runTask(task))], each run to
    its settlement, in input order. *)
Fixpoint settle (tasks : list AgentTask) (s : state) : list (outcome TaskResult) * state :=
  match tasks with
  | [] => ([], s)
  | task :: rest =>
      let (o, s') := runTask task s in
      let (os, s'') := settle rest s' in
      (o :: os, s'')
  end.

(** [Promise.all]: the values in input order, or the first rejection. *)
Fixpoint Promise_all {A : Type} (settled : list (outcome A)) : outcome (list A) :=
  match settled with
  | [] => Returned []
  | Thrown message :: _ => Thrown message
  | Returned a :: rest =>
      match Promise_all rest with
      | Returned values => Returned (a :: values)
      | Thrown message => Thrown message
      end
  end.

Definition runParallel (tasks : list AgentTask) : M (list TaskResult) :=
  fun s => let (settled, s') := settle tasks s in (Promise_all settled, s').

(** *** [fillForm] and [extract]

    [toLowerCase] is the platform's [String.prototype.toLowerCase]. *)

Context (toLowerCase : string -> string).

(** An [ActionResult] with its optional [data], which only [fillForm]
    sets, to [{ errors }]. *)
Record FormResult : Type := {
  form_result : ActionResult;
  form_errors : option (list string)
}.

(** [a.toLowerCase() === b.toLowerCase()]. *)
Definition same_name (a b : string) : bool := String.eqb (toLowerCase a) (toLowerCase b).

Definition find_field (form : FormDefinition) (fieldName : string) : option FormField :=
  List.find (fun f => same_name (field_name f) fieldName
                      || same_name (field_label f) fieldName) (fields form).

(** [field.selector || this.memory.getBestSelector(domain, ..)], tested
    for truthiness. *)
Definition field_selector_or_remembered (domain fieldName : string) (field : FormField)
    : M (option string) :=
  match truthy (Some (field_selector field)) with
  | Some sel => ret (Some sel)
  | None =>
      bind (read (getBestSelector domain ("fill_" +:+ fieldName))) (fun remembered =>
      ret (truthy remembered))
  end.

(** One pass through the loop's [try] statement: the array of errors
    as it is afterwards. *)
Definition fill_field (sessionId domain fieldName sel value : string)
    (errors : list string) : M (list string) :=
  try_catch
    (bind (call (BrowserEngine.fill engine sessionId sel value)) (fun _ =>
     bind (recordOutcome domain ("fill_" +:+ fieldName) sel true) (fun _ =>
     ret errors)))
    (fun _ =>
     bind (recordOutcome domain ("fill_" +:+ fieldName) sel false) (fun _ =>
     ret (errors ++ ["Could not fill '" +:+ fieldName +:+ "'"])%list)).

(** The loop over [Object.entries(data)]; [errors] is the array built so
    far. *)
Fixpoint fill_form_fields (sessionId domain : string) (form : FormDefinition)
    (entries : list (string * string)) (errors : list string) : M (list string) :=
  match entries with
  | [] => ret errors
  | (fieldName, value) :: rest =>
      match find_field form fieldName with
      | None =>
          fill_form_fields sessionId domain form rest
            (errors ++ ["Field '" +:+ fieldName +:+ "' not found"])%list
      | Some field =>
          bind (field_selector_or_remembered domain fieldName field) (fun chosen =>
          match chosen with
          | None =>
              fill_form_fields sessionId domain form rest
                (errors ++ ["No selector for '" +:+ fieldName +:+ "'"])%list
          | Some sel =>
              bind (fill_field sessionId domain fieldName sel value errors) (fun errors' =>
              fill_form_fields sessionId domain form rest errors')
          end)
      end
  end.

Definition fillForm (sessionId formName : string) (data : list (string * string))
    : M FormResult :=
  bind (getPageState sessionId) (fun model =>
  match List.find (fun f => same_name (form_name f) formName) (forms model) with
  | None =>
      ret {| form_result :=
               errorResult
                 ("Form '" +:+ formName +:+ "' not found. Available: "
                  +:+ String.concat ", " (List.map form_name (forms model)))
                 model;
             form_errors := None |}
  | Some found =>
      bind (call (BrowserEngine.getCurrentUrl engine sessionId)) (fun urlBefore =>
      let domain := getDomain urlBefore in
      bind (fill_form_fields sessionId domain found data []) (fun errors =>
      bind (refreshModel sessionId) (fun newModel =>
      bind (call (BrowserEngine.getCurrentUrl engine sessionId)) (fun urlAfter =>
      ret {| form_result :=
               {| success := (length errors =? 0)%nat;
                  state_change := buildStateChange urlBefore urlAfter model newModel;
                  error := None;
                  next_available_actions := action_names newModel |};
             form_errors := if (0 <? length errors)%nat then Some errors else None |}))))
  end).

(** [s.includes(sub)]. *)
Definition includes_text (s sub : string) : bool :=
  match String.index 0 sub s with
  | Some _ => true
  | None => false
  end.

(** [s.split(' ')]. *)
Fixpoint split_on_space (s : string) : list string :=
  match s with
  | "" => [""]
  | String c rest =>
      if Ascii.eqb c " " then "" :: split_on_space rest
      else match split_on_space rest with
           | w :: ws => String c w :: ws
           | [] => [String c ""]
           end
  end.

(** The two predicates [extract] searches [key_data] with. *)
Definition similar_key (key k : string) : bool :=
  includes_text (toLowerCase k) (toLowerCase key)
  || includes_text (toLowerCase key) (toLowerCase k).

Definition described_by (description k : string) : bool :=
  existsb (fun w => (3 <? String.length w)%nat && includes_text (toLowerCase k) w)
    (split_on_space (toLowerCase description)).

Definition extract_value (facts : list (string * JSON)) (key description : string) : JSON :=
  match List.find (fun e => similar_key key (fst e)) facts with
  | Some found => snd found
  | None =>
      match List.find (fun e => described_by description (fst e)) facts with
      | Some byDesc => snd byDesc
      | None => JNull
      end
  end.

(** [obj[key] = v] on an object created by [{}]: the entry is replaced in
    place or appended; an assignment to ["__proto__"] goes to the
    inherited setter and adds no entry. *)
Fixpoint assign {A : Type} (key : string) (v : A) (entries : list (string * A))
    : list (string * A) :=
  match entries with
  | [] => [(key, v)]
  | (k, x) :: rest =>
      if String.eqb k key then (k, v) :: rest else (k, x) :: assign key v rest
  end.

Definition set_property {A : Type} (key : string) (v : A) (entries : list (string * A))
    : list (string * A) :=
  if String.eqb key "__proto__" then entries else assign key v entries.

(** The loop over [Object.entries(schema)], from the empty object;
    [schema] is the list of the entries of an object, its keys pairwise
    distinct. *)
Definition extract_entries (facts : list (string * JSON)) (schema : list (string * string))
    : list (string * JSON) :=
  fold_left (fun result e => set_property (fst e) (extract_value facts (fst e) (snd e)) result)
    schema [].

Definition extract (sessionId : string) (schema : list (string * string))
    : M (list (string * JSON)) :=
  bind (getPageState sessionId) (fun model =>
  ret (extract_entries (key_data model) schema)).

(** [m] takes every state to one that [R] relates to it. *)
Definition preserves {A : Type} (R : state -> state -> Prop) (m : M A) : Prop :=
  forall s r s', m s = (r, s') -> R s s'.

Definition same_selectors (s s' : state) : Prop :=
  selector_library (memory s') = selector_library (memory s).

Definition same_memory (s s' : state) : Prop :=
  memory s' = memory s /\ pageModels s' = pageModels s /\ sessions s' = sessions s.

Definition same_sessions (s s' : state) : Prop := sessions s' = sessions s.

(** Nothing but the driver's world and the selector library differs. *)
Definition only_selectors (s s' : state) : Prop :=
  site_profiles (memory s') = site_profiles (memory s)
  /\ page_model_cache (memory s') = page_model_cache (memory s)
  /\ site_knowledge (memory s') = site_knowledge (memory s)
  /\ pageModels s' = pageModels s
  /\ sessions s' = sessions s.

End Executor.

(** The (qualifier, selector) keys a hint carries, in the order
    [learnFromAction] visits them; empty selectors are left out. *)
Definition hint_selectors (actionName : string) (action : ActionDefinition)
    : list (string * string) :=
  match _internal action with
  | None => []
  | Some internal =>
      (match truthy (selector internal) with
       | Some sel => [(actionName, sel)]
       | None => []
       end
       ++ match field_map internal with
          | Some entries =>
              List.map (fun e => (actionName +:+ "." +:+ fst e, snd e))
                (List.filter (fun e => negb (String.eqb (snd e) "")) entries)
          | None => []
          end
       ++ match truthy (submit_selector internal) with
          | Some submit => [(actionName +:+ ".submit", submit)]
          | None => []
          end)%list
  end.

(** The counters of a key: zero for a key with no record. *)
Definition counters (domain actionName sel : string) (d : db) : Z * Z :=
  match List.find (same_key domain actionName sel) (selector_library d) with
  | Some r => (success_count r, fail_count r)
  | None => (0, 0)
  end.

(** How often a key is listed among the targets of a learning step. *)
Definition occurrences (actionName sel : string) (targets : list (string * string)) : nat :=
  length (List.filter (fun t => String.eqb (fst t) actionName && String.eqb (snd t) sel)
            targets).

(** One [recordSelectorOutcome] per target, all at the same clock. *)
Definition recordAll (domain : string) (ok : bool) (now : Z)
    (targets : list (string * string)) (d : db) : db :=
  fold_left (fun acc t => recordSelectorOutcome domain (fst t) (snd t) ok now acc) targets d.

(** What a task's result says, against the task and the way its
    navigation ended. *)
Definition result_of (task : AgentTask) (i : string) (nav : outcome SemanticPageModel)
    : TaskResult :=
  match nav with
  | Returned model =>
      {| task_id := i; task_success := true;
         output := Some {| out_page_state := model; out_key_data := key_data model |};
         steps_taken := 1; task_error := None |}
  | Thrown message =>
      {| task_id := i; task_success := false; output := None;
         steps_taken := 0; task_error := Some message |}
  end.

Definition reports (task : AgentTask) (r : TaskResult) : Prop :=
  (forall i, id task = Some i -> task_id r = i)
  /\ ((task_success r = true /\ steps_taken r = 1 /\ task_error r = None
       /\ exists model, output r =
             Some {| out_page_state := model; out_key_data := key_data model |})
      \/ (task_success r = false /\ steps_taken r = 0 /\ output r = None
          /\ exists message, task_error r = Some message)).

End TaskExecutor.

(** ** Sample data used by the examples *)

Module Samples.
Import SiteMemoryStore.

Definition two_selectors : db :=
  {| site_knowledge := []; page_model_cache := [];
     selector_library :=
       [ {| s_domain := "x.com"; action_name := "login"; s_selector := "#a";
            success_count := 3; fail_count := 1; last_used := 10 |};
         {| s_domain := "x.com"; action_name := "login"; s_selector := "#b";
            success_count := 1; fail_count := 0; last_used := 11 |} ];
     site_profiles := [] |}.

(** A driver, translator and runtime small enough to run: the world is the
    number of sessions created so far and the address shown. *)
Record toy_world : Type := {
  created : nat;
  location : string
}.

Record toy_config : Type := {
  create_fails_at : option nat;
  unreachable : string;
  dead_selector : string;
  challenge : string
}.

Definition digit (n : nat) : string := String (ascii_of_nat (48 + n)) "".

Definition toy_engine (cfg : toy_config) : BrowserEngine.t toy_world :=
  {| BrowserEngine.createSession := fun w =>
       let w' := {| created := S (created w); location := location w |} in
       if decide (create_fails_at cfg = Some (created w))
       then (Thrown "browser.newContext: Target closed", w')
       else (Returned ("session-" +:+ digit (created w)), w');
     BrowserEngine.destroySession := fun _ w => (Returned tt, w);
     BrowserEngine.navigate := fun _ url w =>
       if String.eqb url (unreachable cfg)
       then (Thrown "net::ERR_NAME_NOT_RESOLVED", w)
       else (Returned tt, {| created := created w; location := url |});
     BrowserEngine.getCurrentUrl := fun _ w => (Returned (location w), w);
     BrowserEngine.getPageHTML := fun _ w => (Returned "<html></html>", w);
     BrowserEngine.getAccessibilityTree := fun _ w => (Returned "[]", w);
     BrowserEngine.click := fun _ sel w =>
       if String.eqb sel (dead_selector cfg)
       then (Thrown "Timeout 10000ms exceeded", w)
       else (Returned tt, w);
     BrowserEngine.fill := fun _ sel _ w =>
       if String.eqb sel (dead_selector cfg)
       then (Thrown "Timeout 10000ms exceeded", w)
       else (Returned tt, w);
     BrowserEngine.checkForCaptcha := fun _ w =>
       (Returned (String.eqb (location w) (challenge cfg)), w) |}.

Definition login_page (u : string) : SemanticPageModel :=
  {| url := u;
     page_type := "login";
     title := "";
     task_status := "awaiting login";
     key_data := [("site", JString "test")];
     available_actions :=
       [ {| name := "authenticate"; description := "Log in with credentials";
            parameters := []; returns := "Authenticated session state";
            _internal :=
              Some {| type := form; selector := None;
                      field_map := Some [("email", "#email"); ("password", "#password")];
                      submit_selector := Some "#submit" |} |};
         {| name := "open_menu"; description := "Open the menu";
            parameters := []; returns := "The menu"; _internal := None |} ];
     warnings := [];
     navigation := [];
     forms := [];
     timestamp := 0 |}.

Definition toy_analyzer : SemanticAnalyzer.t toy_world :=
  {| SemanticAnalyzer.analyze := fun u _ _ _ w => (Returned (login_page u), w) |}.

Definition toy_runtime : Runtime.t toy_world :=
  {| Runtime.Date_now := fun _ => 1000;
     Runtime.randomUUID := fun w => ("00000000-0000-4000-8000-000000000000", w);
     Runtime.setTimeout := fun _ w => w |}.

(** A codec for the pages of the toy translator: a page is stored as its
    address. *)
Definition toy_stringify (m : SemanticPageModel) : string := url m.
Definition toy_parse (text : string) : SemanticPageModel := login_page text.

Definition calm : toy_config :=
  {| create_fails_at := None; unreachable := "https://down.example/";
     dead_selector := "#submit"; challenge := "https://x.com/challenge" |}.

Definition exhausted : toy_config :=
  {| create_fails_at := Some 1%nat; unreachable := "https://down.example/";
     dead_selector := "#submit"; challenge := "https://x.com/challenge" |}.

Definition three_tasks : list AgentTask :=
  [ {| id := Some "a"; goal := "analyze page"; task_url := "https://x.com/a" |};
    {| id := Some "b"; goal := "analyze page"; task_url := "https://down.example/" |};
    {| id := Some "c"; goal := "analyze page"; task_url := "https://x.com/c" |} ].

Definition fresh : TaskExecutor.state :=
  {| TaskExecutor.world := {| created := 0; location := "about:blank" |};
     TaskExecutor.memory := empty_db;
     TaskExecutor.pageModels := ∅;
     TaskExecutor.sessions := [] |}.

(** A session that had a page and now faces a challenge. *)
Definition blocked : TaskExecutor.state :=
  {| TaskExecutor.world := {| created := 1; location := "https://x.com/challenge" |};
     TaskExecutor.memory := empty_db;
     TaskExecutor.pageModels := {[ "session-0" := login_page "https://x.com/login" ]};
     TaskExecutor.sessions := [TaskExecutor.Created "session-0"] |}.

(** A session on the login page, with a selector learned for the action
    that has no hint. *)
Definition learned : TaskExecutor.state :=
  {| TaskExecutor.world := {| created := 1; location := "https://x.com/login" |};
     TaskExecutor.memory :=
       {| site_knowledge := []; page_model_cache := [];
          selector_library :=
            [ {| s_domain := "x.com"; action_name := "open_menu"; s_selector := "#menu";
                 success_count := 2; fail_count := 0; last_used := 10 |} ];
          site_profiles := [] |};
     TaskExecutor.pageModels := {[ "session-0" := login_page "https://x.com/login" ]};
     TaskExecutor.sessions := [TaskExecutor.Created "session-0"] |}.

(** Eleven key facts, one more than the translator was asked for. *)
Definition eleven_facts : JSON :=
  JObject
    [ ("page_type", JString "product");
      ("key_data",
       JObject (List.map (fun k => (k, JNumber "1"))
                  ["a"; "b"; "c"; "d"; "e"; "f"; "g"; "h"; "i"; "j"; "k"])) ].

(** Actions whose hints the executor treats in different ways. *)
Definition go_home : ActionDefinition :=
  {| name := "go_home"; description := "Go to the home page";
     parameters := []; returns := "The home page";
     _internal :=
       Some {| type := navigate; selector := Some "https://x.com/home";
               field_map := None; submit_selector := None |} |}.

Definition go_challenge : ActionDefinition :=
  {| name := "go_challenge"; description := "Open the protected area";
     parameters := []; returns := "The protected area";
     _internal :=
       Some {| type := navigate; selector := Some "https://x.com/challenge";
               field_map := None; submit_selector := None |} |}.

Definition pick_plan : ActionDefinition :=
  {| name := "pick_plan"; description := "Choose a plan";
     parameters := []; returns := "The chosen plan";
     _internal :=
       Some {| type := select; selector := Some "#plan";
               field_map := None; submit_selector := None |} |}.

Definition enter_details : ActionDefinition :=
  {| name := "enter_details"; description := "Type the account details";
     parameters := []; returns := "The filled form";
     _internal :=
       Some {| type := fill; selector := None;
               field_map := Some [("email", "#email")];
               submit_selector := None |} |}.

(** A form whose last field came without a selector. *)
Definition signup_form : FormDefinition :=
  {| form_name := "Signup"; purpose := "Create an account";
     fields :=
       [ {| field_name := "Email"; field_label := "Your email";
            field_type := "email"; field_required := true;
            field_selector := "#email" |};
         {| field_name := "Password"; field_label := "Choose a password";
            field_type := "password"; field_required := true;
            field_selector := "#password" |};
         {| field_name := "Coupon"; field_label := "Coupon code";
            field_type := "text"; field_required := false;
            field_selector := "" |} ];
     submit_action := "enter_details" |}.

(** A page with this form and these actions. *)
Definition signup_page (u : string) : SemanticPageModel :=
  {| url := u;
     page_type := "signup";
     title := "Join";
     task_status := "awaiting details";
     key_data := [("Plan price", JString "$9"); ("seats", JNumber "3")];
     available_actions := [go_home; go_challenge; pick_plan; enter_details];
     warnings := [];
     navigation := [];
     forms := [signup_form];
     timestamp := 0 |}.

(** A driver on which the password field cannot be filled. *)
Definition brittle : toy_config :=
  {| create_fails_at := None; unreachable := "https://down.example/";
     dead_selector := "#password"; challenge := "https://x.com/challenge" |}.

(** A session on the signup page, nothing learned yet. *)
Definition browsing : TaskExecutor.state :=
  {| TaskExecutor.world := {| created := 1; location := "https://x.com/signup" |};
     TaskExecutor.memory := empty_db;
     TaskExecutor.pageModels := {[ "session-0" := signup_page "https://x.com/signup" ]};
     TaskExecutor.sessions := [TaskExecutor.Created "session-0"] |}.

(** A session back on the login page ten milliseconds after the page was
    cached. *)
Definition revisiting : TaskExecutor.state :=
  {| TaskExecutor.world := {| created := 1; location := "https://x.com/login" |};
     TaskExecutor.memory :=
       cacheModel URL.new_URL toy_stringify "https://x.com/login"
         (login_page "https://x.com/login") 990 empty_db;
     TaskExecutor.pageModels := ∅;
     TaskExecutor.sessions := [TaskExecutor.Created "session-0"] |}.

(** A session whose page the translator could not analyse. *)
Definition degraded : TaskExecutor.state :=
  {| TaskExecutor.world := {| created := 1; location := "https://x.com/odd" |};
     TaskExecutor.memory := empty_db;
     TaskExecutor.pageModels :=
       {[ "session-0" := SemanticAnalyzer.fallbackModel "https://x.com/odd" 7 ]};
     TaskExecutor.sessions := [TaskExecutor.Created "session-0"] |}.

(** Lower case of the letters A to Z. *)
Definition toy_lower : string -> string := URL.map_chars URL.to_lower.

(** Two cached pages of two domains. *)
Definition two_pages : db :=
  cacheModel URL.new_URL toy_stringify "https://y.org/b" (login_page "https://y.org/b") 0
    (cacheModel URL.new_URL toy_stringify "https://x.com/a" (login_page "https://x.com/a") 0
       empty_db).

(** A page cached under an address without a scheme: the address does
    not parse, and the entry's domain is the address itself. *)
Definition cached_unparsed : db :=
  cacheModel URL.new_URL toy_stringify "x.com/a" (login_page "x.com/a") 0 empty_db.

(** A key with a selector that fails more often than not and one that
    works half of the time. *)
Definition old_selector : selector_row :=
  {| s_domain := "x.com"; action_name := "login"; s_selector := "#old";
     success_count := 1; fail_count := 3; last_used := 10 |}.

Definition flaky : db :=
  {| site_knowledge := []; page_model_cache := [];
     selector_library :=
       [ old_selector;
         {| s_domain := "x.com"; action_name := "login"; s_selector := "#new";
            success_count := 2; fail_count := 2; last_used := 11 |} ];
     site_profiles := [] |}.

(** A codec for sessions: a session is stored as its id. *)
Definition toy_stringify_session (session : AgentSession) : string := session_id session.
Definition toy_parse_session (text : string) : AgentSession :=
  {| session_id := text; created_at := 0; last_active := 0; origin_url := None;
     auth_domains := []; storage_state := None; history := []; branched_from := None |}.

(** The digest's readers of the stored JSON, on the two texts the
    examples store. *)
Definition toy_visit_count_in (text : string) : Z := if String.eqb text "{}" then 0 else 1.

End Samples.

(* ================================================================== *)
(** * Part II. Properties *)
(* ================================================================== *)

(** ** The selector library *)

Section SelectorLibrary.
Import SiteMemoryStore.

Lemma outranks_false (a b : selector_row) :
  outranks a b = false <-> ranks_below a b.
Proof.
  unfold outranks, ranks_below.
  destruct (rate a ?= rate b)%Q eqn:E.
  - apply Qeq_alt in E. rewrite Z.ltb_ge. split.
    + intros H. right. split; [exact E | exact H].
    + intros [H | [_ H]]; [| exact H].
      rewrite E in H. exfalso. apply (Qlt_irrefl (rate b)). exact H.
  - apply Qlt_alt in E. split; [intros _; left; exact E | reflexivity].
  - apply Qgt_alt in E. split; [discriminate |].
    intros [H | [H _]]; exfalso.
    + apply (Qlt_irrefl (rate a)). eapply Qlt_trans; eassumption.
    + rewrite H in E. apply (Qlt_irrefl (rate b)). exact E.
Qed.

Lemma outranks_true (a b : selector_row) :
  outranks a b = true -> ranks_below b a.
Proof.
  unfold outranks, ranks_below.
  destruct (rate a ?= rate b)%Q eqn:E; intros H.
  - apply Qeq_alt in E. apply Z.ltb_lt in H. right. split; [symmetry; exact E | lia].
  - discriminate.
  - apply Qgt_alt in E. left. exact E.
Qed.

Lemma ranks_below_trans (a b c : selector_row) :
  ranks_below a b -> ranks_below b c -> ranks_below a c.
Proof.
  unfold ranks_below. intros [Hab | [Hab Lab]] [Hbc | [Hbc Lbc]].
  - left. eapply Qlt_trans; eassumption.
  - left. rewrite <- Hbc. exact Hab.
  - left. rewrite Hab. exact Hbc.
  - right. split; [rewrite Hab; exact Hbc | lia].
Qed.

Lemma ranks_below_refl (a : selector_row) : ranks_below a a.
Proof. right. split; [reflexivity | lia]. Qed.

Lemma first_ranked_None (rows : list selector_row) :
  first_ranked rows = None <-> rows = [].
Proof.
  destruct rows as [| r rest]; simpl; [tauto |].
  split; [| discriminate].
  destruct (first_ranked rest) as [b |]; [destruct (outranks b r) |]; discriminate.
Qed.

Lemma first_ranked_In (rows : list selector_row) (b : selector_row) :
  first_ranked rows = Some b -> In b rows.
Proof.
  revert b. induction rows as [| r rest IH]; simpl; intros b H; [discriminate |].
  destruct (first_ranked rest) as [b' |] eqn:E.
  - destruct (outranks b' r); inversion H; subst; auto.
  - inversion H; subst; auto.
Qed.

Lemma first_ranked_top (rows : list selector_row) (b : selector_row) :
  first_ranked rows = Some b -> forall r, In r rows -> ranks_below r b.
Proof.
  revert b. induction rows as [| r0 rest IH]; simpl; intros b H r Hr; [contradiction |].
  destruct (first_ranked rest) as [b' |] eqn:E.
  - destruct (outranks b' r0) eqn:O; inversion H; subst; clear H.
    + destruct Hr as [<- | Hr]; [apply outranks_true; exact O | eauto].
    + destruct Hr as [<- | Hr]; [apply ranks_below_refl |].
      eapply ranks_below_trans; [eapply IH; eauto | apply outranks_false; exact O].
  - inversion H; subst; clear H. apply first_ranked_None in E. subst rest.
    destruct Hr as [<- | []]. apply ranks_below_refl.
Qed.

Lemma eligible_spec (domain actionName : string) (r : selector_row) :
  eligible domain actionName r = true <->
  s_domain r = domain /\ action_name r = actionName /\ 2 <= attempts r.
Proof.
  unfold eligible. rewrite !andb_true_iff, !String.eqb_eq, Z.leb_le. tauto.
Qed.

Lemma filter_eligible_In (domain actionName : string) (rows : list selector_row)
    (r : selector_row) :
  In r (List.filter (eligible domain actionName) rows) <->
  In r rows /\ s_domain r = domain /\ action_name r = actionName /\ 2 <= attempts r.
Proof. rewrite List.filter_In, eligible_spec. tauto. Qed.

Lemma unique_keys_inj (rows : list selector_row) (a b : selector_row) :
  unique_keys rows -> In a rows -> In b rows -> key_of a = key_of b -> a = b.
Proof.
  unfold unique_keys. induction rows as [| r rest IH]; simpl; [contradiction |].
  intros ND Ha Hb E. apply List.NoDup_cons_iff in ND as [Hr ND].
  destruct Ha as [-> | Ha], Hb as [-> | Hb]; auto.
  - exfalso. apply Hr. rewrite E. apply List.in_map. exact Hb.
  - exfalso. apply Hr. rewrite <- E. apply List.in_map. exact Ha.
Qed.

(** What the query of [getBestSelector] hands to its final test. *)
Lemma getBestSelector_Some (d : db) (domain actionName sel : string) :
  getBestSelector domain actionName d = Some sel <->
  exists r, first_ranked (List.filter (eligible domain actionName) (selector_library d)) = Some r
            /\ s_selector r = sel /\ (1 # 2 <= rate r)%Q.
Proof.
  unfold getBestSelector.
  destruct (first_ranked _) as [row |]; [| split; [discriminate | intros (r & H & _); discriminate]].
  destruct (rate row ?= 1 # 2)%Q eqn:E.
  - apply Qeq_alt in E. split.
    + intros [= <-]. exists row. rewrite E. repeat split. apply Qle_refl.
    + intros (r & [= <-] & <- & _). reflexivity.
  - apply Qlt_alt in E. split; [discriminate |].
    intros (r & [= <-] & _ & H). exfalso. apply (Qlt_irrefl (rate row)).
    eapply Qlt_le_trans; eassumption.
  - apply Qgt_alt in E. split.
    + intros [= <-]. exists row. repeat split. apply Qlt_le_weak. exact E.
    + intros (r & [= <-] & <- & _). reflexivity.
Qed.

Lemma getBestSelector_None (d : db) (domain actionName : string) :
  getBestSelector domain actionName d = None <->
  forall r, In r (selector_library d) -> s_domain r = domain ->
            action_name r = actionName -> 2 <= attempts r -> (rate r < 1 # 2)%Q.
Proof.
  unfold getBestSelector.
  destruct (first_ranked _) as [row |] eqn:F.
  - pose proof (first_ranked_In _ _ F) as Hin.
    pose proof (first_ranked_top _ _ F) as Htop.
    apply filter_eligible_In in Hin as (Hin & Hd & Ha & Hn).
    destruct (rate row ?= 1 # 2)%Q eqn:E.
    + apply Qeq_alt in E. split; [discriminate |]. intros H.
      specialize (H row Hin Hd Ha Hn). rewrite E in H.
      exfalso. apply (Qlt_irrefl (1 # 2)). exact H.
    + apply Qlt_alt in E. split; [| reflexivity]. intros _ r Hr Hrd Hra Hrn.
      destruct (Htop r) as [H | [H _]].
      * apply filter_eligible_In. tauto.
      * eapply Qlt_trans; eassumption.
      * rewrite H. exact E.
    + apply Qgt_alt in E. split; [discriminate |]. intros H.
      specialize (H row Hin Hd Ha Hn).
      exfalso. apply (Qlt_irrefl (rate row)). eapply Qlt_trans; eassumption.
  - apply first_ranked_None in F. split; [| reflexivity]. intros _ r Hr Hrd Hra Hrn.
    assert (In r (List.filter (eligible domain actionName) (selector_library d))) as H
      by (apply filter_eligible_In; tauto).
    rewrite F in H. destruct H.
Qed.



Lemma upsert_selector_keys (domain actionName sel : string) (ds df now : Z)
    (rows : list selector_row) :
  List.map key_of (upsert_selector domain actionName sel ds df now rows) =
  if existsb (same_key domain actionName sel) rows
  then List.map key_of rows
  else (List.map key_of rows ++ [(domain, actionName, sel)])%list.
Proof.
  induction rows as [| r rest IH]; simpl; [reflexivity |].
  destruct (same_key domain actionName sel r) eqn:E; simpl; [reflexivity |].
  rewrite IH. destruct (existsb _ rest); reflexivity.
Qed.

Lemma same_key_spec (domain actionName sel : string) (r : selector_row) :
  same_key domain actionName sel r = true <-> key_of r = (domain, actionName, sel).
Proof.
  unfold same_key, key_of. rewrite !andb_true_iff, !String.eqb_eq.
  split; [intros [[-> ->] ->]; reflexivity | intros [= -> -> ->]; auto].
Qed.

Lemma same_key_refl (domain actionName sel : string) (n m t : Z) :
  same_key domain actionName sel
    {| s_domain := domain; action_name := actionName; s_selector := sel;
       success_count := n; fail_count := m; last_used := t |} = true.
Proof. apply same_key_spec. reflexivity. Qed.

Lemma eligible_refl (domain actionName sel : string) (n m t : Z) :
  eligible domain actionName
    {| s_domain := domain; action_name := actionName; s_selector := sel;
       success_count := n; fail_count := m; last_used := t |} = (2 <=? n + m).
Proof. unfold eligible, attempts. simpl. rewrite !String.eqb_refl. reflexivity. Qed.

(** Every table built by [recordSelectorOutcome] satisfies the [UNIQUE]
    constraint. *)
Lemma recordSelectorOutcome_unique (domain actionName sel : string) (ok : bool)
    (now : Z) (d : db) :
  unique_keys (selector_library d) ->
  unique_keys (selector_library (recordSelectorOutcome domain actionName sel ok now d)).
Proof.
  unfold recordSelectorOutcome, unique_keys. intros U.
  destruct (String.eqb sel ""); [exact U |]. simpl.
  rewrite upsert_selector_keys.
  destruct (existsb _ _) eqn:E; [exact U |].
  apply List.NoDup_app; [exact U | |].
  - apply List.NoDup_cons; [intros [] | apply List.NoDup_nil].
  - intros k Hk Hk'. destruct Hk' as [<- | []].
    apply List.in_map_iff in Hk as (r & Hr & Hin).
    assert (existsb (same_key domain actionName sel) (selector_library d) = true) as X.
    { apply List.existsb_exists. exists r. split; [exact Hin | apply same_key_spec; exact Hr]. }
    congruence.
Qed.

Lemma recordSelectorOutcome_first (D A S : string) (ok : bool) (now : Z) (d : db) :
  S <> "" -> selector_library d = [] ->
  selector_library (recordSelectorOutcome D A S ok now d) =
  [ {| s_domain := D; action_name := A; s_selector := S;
       success_count := if ok then 1 else 0;
       fail_count := if ok then 0 else 1; last_used := now |} ].
Proof.
  intros HS E. apply String.eqb_neq in HS.
  unfold recordSelectorOutcome. rewrite HS. simpl. rewrite E. reflexivity.
Qed.

Lemma recordSelectorOutcome_again (D A S : string) (ok : bool) (now n m t : Z) (d : db) :
  S <> "" ->
  selector_library d =
    [ {| s_domain := D; action_name := A; s_selector := S;
         success_count := n; fail_count := m; last_used := t |} ] ->
  selector_library (recordSelectorOutcome D A S ok now d) =
  [ {| s_domain := D; action_name := A; s_selector := S;
       success_count := n + (if ok then 1 else 0);
       fail_count := m + (if ok then 0 else 1); last_used := now |} ].
Proof.
  intros HS E. apply String.eqb_neq in HS.
  unfold recordSelectorOutcome. rewrite HS. simpl. rewrite E. simpl.
  rewrite same_key_refl. reflexivity.
Qed.

(** C1 (as the code has it). Two successes for a non-empty selector [S] on
    an empty library make [getBestSelector] return [S]; one more success
    and two failures accumulate to 3 successes and 2 failures (rate 0.6),
    and [getBestSelector] still returns [S]. *)
Theorem selector_outcomes_accumulate (D A S : string) (t1 t2 t3 t4 t5 : Z) :
  S <> "" ->
  let d2 := recordOutcomes D A S [(true, t1); (true, t2)] empty_db in
  let d5 := recordOutcomes D A S [(true, t3); (false, t4); (false, t5)] d2 in
  getBestSelector D A d2 = Some S
  /\ selector_library d5 =
       [ {| s_domain := D; action_name := A; s_selector := S;
            success_count := 3; fail_count := 2; last_used := t5 |} ]
  /\ getBestSelector D A d5 = Some S.
Proof.
  intros HS d2 d5.
  assert (selector_library d2 =
       [ {| s_domain := D; action_name := A; s_selector := S;
            success_count := 2; fail_count := 0; last_used := t2 |} ]) as E2.
  { unfold d2, recordOutcomes. simpl.
    rewrite (recordSelectorOutcome_again D A S true t2 1 0 t1); [reflexivity | exact HS |].
    apply recordSelectorOutcome_first; [exact HS | reflexivity]. }
  assert (selector_library d5 =
       [ {| s_domain := D; action_name := A; s_selector := S;
            success_count := 3; fail_count := 2; last_used := t5 |} ]) as E5.
  { unfold d5, recordOutcomes. simpl.
    rewrite (recordSelectorOutcome_again D A S false t5 3 1 t4); [reflexivity | exact HS |].
    rewrite (recordSelectorOutcome_again D A S false t4 3 0 t3); [reflexivity | exact HS |].
    rewrite (recordSelectorOutcome_again D A S true t3 2 0 t2); [reflexivity | exact HS |].
    exact E2. }
  split; [| split; [exact E5 |]].
  - unfold getBestSelector. rewrite E2. simpl. rewrite eligible_refl. reflexivity.
  - unfold getBestSelector. rewrite E5. simpl. rewrite eligible_refl. reflexivity.
Qed.

Lemma selector_outcomes_accumulate_witness :
  "#submit" <> ""
  /\ getBestSelector "x.com" "login"
       (recordOutcomes "x.com" "login" "#submit" [(true, 3); (false, 4); (false, 5)]
          (recordOutcomes "x.com" "login" "#submit" [(true, 1); (true, 2)] empty_db))
     = Some "#submit".
Proof.
  split; [discriminate |].
  apply (selector_outcomes_accumulate "x.com" "login" "#submit" 1 2 3 4 5).
  discriminate.
Defined.

(** C1 as the specification words it fails: after two successes, one more
    success and two failures, the lookup is not absent. *)
Lemma selector_confidence_counterexample :
  let d2 := recordOutcomes "x.com" "login" "#submit" [(true, 1); (true, 2)] empty_db in
  let d5 := recordOutcomes "x.com" "login" "#submit" [(true, 3); (false, 4); (false, 5)] d2 in
  ~ (getBestSelector "x.com" "login" d2 = Some "#submit"
     /\ getBestSelector "x.com" "login" d5 = None).
Proof. intros d2 d5 [_ H]. vm_compute in H. discriminate. Qed.

End SelectorLibrary.

(** ** The page model cache *)

Section PageModelCache.
Import SiteMemoryStore.

Context (new_URL : string -> option URLRecord).
Context (JSON_stringify : SemanticPageModel -> string).
Context (JSON_parse : string -> SemanticPageModel).

Abbreviation normalizeUrl := (normalizeUrl new_URL).
Abbreviation getCachedModel := (getCachedModel new_URL JSON_parse).
Abbreviation cacheModel := (cacheModel new_URL JSON_stringify).
Abbreviation readAll := (readAll new_URL JSON_parse).

Lemma find_upsert_cache (pattern domain json : string) (now : Z) (rows : list cache_row) :
  option_map written (List.find (has_pattern pattern) (upsert_cache pattern domain json now rows))
  = Some (json, now).
Proof.
  induction rows as [| r rest IH]; simpl.
  - unfold has_pattern. simpl. rewrite String.eqb_refl. reflexivity.
  - destruct (has_pattern pattern r) eqn:E; simpl.
    + unfold has_pattern in *. simpl. rewrite E. reflexivity.
    + rewrite E. exact IH.
Qed.

Lemma has_pattern_bump (p q : string) (r : cache_row) :
  has_pattern p (bump_hits q r) = has_pattern p r.
Proof. unfold bump_hits. destruct (has_pattern q r); reflexivity. Qed.

Lemma written_bump (q : string) (r : cache_row) : written (bump_hits q r) = written r.
Proof. unfold bump_hits. destruct (has_pattern q r); reflexivity. Qed.

Lemma find_bump (p q : string) (rows : list cache_row) :
  option_map written (List.find (has_pattern p) (List.map (bump_hits q) rows))
  = option_map written (List.find (has_pattern p) rows).
Proof.
  induction rows as [| r rest IH]; simpl; [reflexivity |].
  rewrite has_pattern_bump. destruct (has_pattern p r); simpl; [| exact IH].
  rewrite written_bump. reflexivity.
Qed.

(** A read changes hit counters only: what was written, and when, stays. *)
Lemma getCachedModel_keeps_written (p url : string) (now : Z) (d : db) :
  option_map written (List.find (has_pattern p) (page_model_cache (snd (getCachedModel url now d))))
  = option_map written (List.find (has_pattern p) (page_model_cache d)).
Proof.
  unfold SiteMemoryStore.getCachedModel.
  destruct (List.find (has_pattern (normalizeUrl url)) (page_model_cache d)) as [row |];
    [| reflexivity].
  destruct (CACHE_TTL_MS <? now - c_last_updated row); [reflexivity |].
  simpl. apply find_bump.
Qed.

Lemma readAll_keeps_written (p : string) (reads : list (string * Z)) (d : db) :
  option_map written (List.find (has_pattern p) (page_model_cache (readAll reads d)))
  = option_map written (List.find (has_pattern p) (page_model_cache d)).
Proof.
  revert d. induction reads as [| r reads IH]; intros d; [reflexivity |].
  unfold SiteMemoryStore.readAll. simpl.
  fold (readAll reads (snd (getCachedModel (fst r) (snd r) d))).
  rewrite IH. apply getCachedModel_keeps_written.
Qed.

Lemma getCachedModel_result (url : string) (now : Z) (d : db) (json : string) (t0 : Z) :
  option_map written (List.find (has_pattern (normalizeUrl url)) (page_model_cache d))
    = Some (json, t0) ->
  fst (getCachedModel url now d) =
  if CACHE_TTL_MS <? now - t0 then None else Some (JSON_parse json).
Proof.
  unfold SiteMemoryStore.getCachedModel.
  destruct (List.find _ _) as [row |]; simpl; [| discriminate].
  unfold written. intros [= <- <-].
  destruct (CACHE_TTL_MS <? now - c_last_updated row); reflexivity.
Qed.


(** C10. When [new URL] rejects a string, [normalizeUrl] and both classes'
    [getDomain] return the string itself, and a model cached under it is
    filed with the string as both its pattern and its domain. *)
Theorem unparsable_url_is_its_own_key (u : string) (m : SemanticPageModel) (now : Z) :
  new_URL u = None ->
  normalizeUrl u = u
  /\ SiteMemoryStore.getDomain new_URL u = u
  /\ TaskExecutor.getDomain new_URL u = u
  /\ page_model_cache (cacheModel u m now empty_db) =
       [ {| url_pattern := u; c_domain := u; model_json := JSON_stringify m;
            hit_count := 0; c_last_updated := now |} ].
Proof.
  intros H.
  unfold SiteMemoryStore.cacheModel, SiteMemoryStore.normalizeUrl,
    SiteMemoryStore.getDomain, TaskExecutor.getDomain.
  rewrite H. repeat split.
Qed.

End PageModelCache.

(** ** URL normalization on the platform's parser *)

Section UrlNormalization.
Import URL SiteMemoryStore.

Abbreviation normalize := (SiteMemoryStore.normalizeUrl URL.new_URL).

Ltac each_char c := destruct c as [[] [] [] [] [] [] [] []]; try discriminate; try reflexivity.

Lemma host_char_facts (c : ascii) :
  is_host_char c = true ->
  is_c0_control_or_space c = false /\ is_tab_or_newline c = false
  /\ Ascii.eqb c ":" = false /\ is_host_char (to_lower c) = true.
Proof. each_char c; intros _; repeat split. Qed.

Lemma slash_facts :
  is_c0_control_or_space "/" = false /\ is_tab_or_newline "/" = false
  /\ is_scheme_char "/" = false /\ is_alpha "/" = false.
Proof. repeat split. Qed.

Lemma all_chars_lower (h : string) :
  all_chars is_host_char h = true -> all_chars is_host_char (map_chars to_lower h) = true.
Proof.
  induction h as [| c h IH]; simpl; [reflexivity |].
  intros H. apply andb_true_iff in H as [Hc Hh].
  apply host_char_facts in Hc as (_ & _ & _ & Hc). rewrite Hc. simpl. auto.
Qed.

Lemma trim_end_keeps (c : ascii) (s : string) :
  is_c0_control_or_space c = false -> trim_end (String c s) = String c (trim_end s).
Proof. intros H. simpl. destruct (trim_end s); [rewrite H |]; reflexivity. Qed.

(** A host followed by a slash passes untouched through the parser's
    trimming and filtering, up to the slash. *)
Lemma preprocess_host_slash (h y : string) :
  all_chars is_host_char h = true ->
  exists z, preprocess (h +:+ String "/" y) = h +:+ String "/" z.
Proof.
  intros H. unfold preprocess.
  assert (trim_start (h +:+ String "/" y) = h +:+ String "/" y) as ->.
  { destruct h as [| c h]; [reflexivity |]. simpl in *.
    apply andb_true_iff in H as [Hc _].
    apply host_char_facts in Hc as (-> & _). reflexivity. }
  exists (remove_tab_newline (trim_end y)).
  induction h as [| c h IH].
  - change ("" +:+ String "/" y) with (String "/" y).
    rewrite trim_end_keeps by reflexivity. reflexivity.
  - simpl in H. apply andb_true_iff in H as [Hc Hh].
    apply host_char_facts in Hc as (Hc0 & Htn & _).
    change (String c h +:+ String "/" y) with (String c (h +:+ String "/" y)).
    rewrite trim_end_keeps by exact Hc0.
    simpl. rewrite Htn. rewrite (IH Hh). reflexivity.
Qed.

Lemma scheme_state_host_slash (buffer h z : string) :
  all_chars is_host_char h = true ->
  scheme_state buffer (h +:+ String "/" z) = None.
Proof.
  revert buffer. induction h as [| c h IH]; intros buffer H.
  - reflexivity.
  - simpl in H. apply andb_true_iff in H as [Hc Hh].
    apply host_char_facts in Hc as (_ & _ & Hcolon & _).
    simpl. rewrite Hcolon. destruct (is_scheme_char c); [apply IH; exact Hh | reflexivity].
Qed.

(** A host followed by a path is no URL: it has no scheme. *)
Lemma host_path_unparsable (h y : string) :
  all_chars is_host_char h = true -> parse (h +:+ String "/" y) = Failure.
Proof.
  intros H. unfold parse.
  destruct (preprocess_host_slash h y H) as [z ->].
  destruct h as [| c h]; [reflexivity |].
  simpl in H. apply andb_true_iff in H as [_ Hh].
  change (String c h +:+ String "/" z) with (String c (h +:+ String "/" z)).
  unfold scheme_start_state.
  destruct (is_alpha c); [| reflexivity].
  rewrite scheme_state_host_slash by exact Hh. reflexivity.
Qed.

Lemma serialize_path_shape (path : list string) :
  serialize_path path = "" \/ exists x, serialize_path path = String "/" x.
Proof. destruct path as [| seg more]; [left | right; eexists]; reflexivity. Qed.

Lemma normal_path_shape (path : string) :
  path = "" \/ (exists x, path = String "/" x) ->
  exists y, or_else (strip_trailing_slash path) "/" = String "/" y.
Proof.
  intros [-> | [x ->]]; [exists ""; reflexivity |].
  destruct x as [| c x]; [exists ""; reflexivity |].
  simpl. eexists. reflexivity.
Qed.

Lemma authority_state_shape (special : bool) (s : string) (u : URLRecord) (o : bool) :
  authority_state special s = Parsed u o ->
  o = false /\ all_chars is_host_char (hostname u) = true
  /\ (pathname u = "" \/ exists x, pathname u = String "/" x).
Proof.
  unfold authority_state.
  destruct (break ends_authority s) as [authority rest].
  destruct (after_last_at authority) as [hostport at_seen].
  destruct (at_seen && String.eqb hostport ""); [discriminate |].
  destruct (break (Ascii.eqb ":") hostport) as [host port].
  destruct (String.eqb host "" && _); [discriminate |].
  destruct (host_modelled special host) eqn:M; [| discriminate]. simpl.
  destruct (port_ok _); [| discriminate]. simpl.
  intros [= <- <-]. split; [reflexivity |]. simpl.
  unfold host_modelled in M. apply andb_true_iff in M as [M _].
  split.
  - destruct special; [apply all_chars_lower |]; exact M.
  - destruct rest as [| c after].
    + destruct special; [apply serialize_path_shape | left; reflexivity].
    + destruct c as [[] [] [] [] [] [] [] []];
        try (destruct special; [apply serialize_path_shape | left; reflexivity]).
      apply serialize_path_shape.
Qed.

Lemma parse_shape (input : string) (u : URLRecord) :
  parse input = Parsed u false ->
  all_chars is_host_char (hostname u) = true
  /\ (pathname u = "" \/ exists x, pathname u = String "/" x).
Proof.
  unfold parse.
  destruct (scheme_start_state (preprocess input)) as [[scheme rest] |]; [| discriminate].
  destruct (all_chars is_plain rest); [| discriminate]. simpl.
  destruct (String.eqb scheme "file"); [discriminate |].
  destruct (is_special scheme).
  - intros H. apply authority_state_shape in H. tauto.
  - destruct rest as [| c rest]; [discriminate |].
    destruct (Ascii.eqb c "/") eqn:E.
    + apply Ascii.eqb_eq in E. subst c.
      destruct rest as [| c' after].
      * intros [= <-]. simpl. split; [reflexivity | apply serialize_path_shape].
      * destruct (Ascii.eqb c' "/") eqn:E'.
        -- apply Ascii.eqb_eq in E'. subst c'.
           intros H. apply authority_state_shape in H. tauto.
        -- assert (parse_tail : forall v, match c' with
                     | "/"%char => authority_state false after
                     | _ => v end = v).
           { intros v. each_char c'. }
           rewrite parse_tail.
           intros [= <-]. simpl. split; [reflexivity | apply serialize_path_shape].
    + intros H. exfalso. revert E H. each_char c.
Qed.




(** The hypothesis of [unparsable_url_is_its_own_key] on the platform's
    parser: a string with no scheme. *)
Lemma unparsable_url_is_its_own_key_witness :
  new_URL "not a url" = None
  /\ normalize "not a url" = "not a url"
  /\ SiteMemoryStore.getDomain new_URL "not a url" = "not a url".
Proof.
  split; [reflexivity |].
  destruct (unparsable_url_is_its_own_key new_URL (fun m => url m) "not a url"
              {| url := "not a url"; page_type := "unknown"; title := "";
                 task_status := ""; key_data := []; available_actions := [];
                 warnings := []; navigation := []; forms := []; timestamp := 0 |} 0)
    as (H1 & H2 & _ & _); [reflexivity |].
  split; [exact H1 | exact H2].
Defined.

End UrlNormalization.

(** ** The task executor *)

Section ExecutorFacts.
Import SiteMemoryStore TaskExecutor.

Context {W : Type}.
Context (engine : BrowserEngine.t W).
Context (analyzer : SemanticAnalyzer.t W).
Context (runtime : Runtime.t W).
Context (new_URL : string -> option URLRecord).
Context (JSON_stringify : SemanticPageModel -> string).
Context (JSON_parse : string -> SemanticPageModel).
Context (buildLLMContext : db -> string -> option string).

Abbreviation refreshModel :=
  (TaskExecutor.refreshModel engine analyzer runtime new_URL JSON_stringify JSON_parse
     buildLLMContext).
Abbreviation getPageState :=
  (TaskExecutor.getPageState engine analyzer runtime new_URL JSON_stringify JSON_parse
     buildLLMContext).
Abbreviation navigate :=
  (TaskExecutor.navigate engine analyzer runtime new_URL JSON_stringify JSON_parse
     buildLLMContext).
Abbreviation attempt :=
  (TaskExecutor.attempt engine analyzer runtime new_URL JSON_stringify JSON_parse
     buildLLMContext).
Abbreviation executeAction :=
  (TaskExecutor.executeAction engine analyzer runtime new_URL JSON_stringify JSON_parse
     buildLLMContext).
Abbreviation runTask :=
  (TaskExecutor.runTask engine analyzer runtime new_URL JSON_stringify JSON_parse
     buildLLMContext).
Abbreviation settle :=
  (TaskExecutor.settle engine analyzer runtime new_URL JSON_stringify JSON_parse
     buildLLMContext).
Abbreviation runParallel :=
  (TaskExecutor.runParallel engine analyzer runtime new_URL JSON_stringify JSON_parse
     buildLLMContext).
Abbreviation performAction := (TaskExecutor.performAction engine).
Abbreviation learnFromAction := (TaskExecutor.learnFromAction runtime).
Abbreviation getDomain := (TaskExecutor.getDomain new_URL).

(** *** Frame rules *)

Section Frame.

Context (R : @state W -> @state W -> Prop) `{!PreOrder R}.

Lemma preserves_ret {A : Type} (a : A) : preserves R (ret a).
Proof. intros s r s' [= _ <-]. reflexivity. Qed.

Lemma preserves_throw {A : Type} (message : string) : preserves R (@throw W A message).
Proof. intros s r s' [= _ <-]. reflexivity. Qed.

Lemma preserves_bind {A B : Type} (m : M A) (k : A -> M B) :
  preserves R m -> (forall a, preserves R (k a)) -> preserves R (bind m k).
Proof.
  intros Hm Hk s r s'. unfold bind.
  destruct (m s) as [[a | message] s1] eqn:E; intros H.
  - transitivity s1; [eapply Hm | eapply Hk]; eassumption.
  - inversion H; subst. eapply Hm. eassumption.
Qed.

Lemma preserves_try_catch {A : Type} (body : M A) (handler : string -> M A) :
  preserves R body -> (forall message, preserves R (handler message)) ->
  preserves R (try_catch body handler).
Proof.
  intros Hb Hh s r s'. unfold try_catch.
  destruct (body s) as [[a | message] s1] eqn:E; intros H.
  - inversion H; subst. eapply Hb. eassumption.
  - transitivity s1; [eapply Hb | eapply Hh]; eassumption.
Qed.

Lemma preserves_try_finally {A : Type} (body : M A) (finalizer : M unit) :
  preserves R body -> preserves R finalizer -> preserves R (try_finally body finalizer).
Proof.
  intros Hb Hf s r s'. unfold try_finally.
  destruct (body s) as [completion s1] eqn:E.
  destruct (finalizer s1) as [[u | message] s2] eqn:F; intros H; inversion H; subst;
    (transitivity s1; [eapply Hb | eapply Hf]; eassumption).
Qed.

Lemma preserves_call {A : Type} (op : W -> outcome A * W) :
  (forall s w, R s (with_world s w)) -> preserves R (call op).
Proof.
  intros HR s r s'. unfold call. destruct (op (world s)) as [o w].
  intros [= _ <-]. apply HR.
Qed.

Lemma preserves_read {A : Type} (query : db -> A) : preserves R (read query).
Proof. intros s r s' [= _ <-]. reflexivity. Qed.

Lemma preserves_write (statement : Z -> db -> db) :
  (forall s now, R s (with_memory s (statement now (memory s)))) ->
  preserves R (write runtime statement).
Proof. intros HR s r s' [= _ <-]. apply HR. Qed.

Lemma preserves_Date_now : preserves R (Date_now runtime).
Proof. intros s r s' [= _ <-]. reflexivity. Qed.

Lemma preserves_sleep (ms : Z) :
  (forall s w, R s (with_world s w)) -> preserves R (sleep runtime ms).
Proof. intros HR s r s' [= _ <-]. apply HR. Qed.

Lemma preserves_randomUUID :
  (forall s w, R s (with_world s w)) -> preserves R (randomUUID runtime).
Proof.
  intros HR s r s'. unfold randomUUID.
  destruct (Runtime.randomUUID runtime (world s)) as [u w]. intros [= _ <-]. apply HR.
Qed.

Lemma preserves_lookup_cache (u : string) :
  (forall s d, selector_library d = selector_library (memory s) ->
               site_profiles d = site_profiles (memory s) ->
               site_knowledge d = site_knowledge (memory s) ->
               R s (with_memory s d)) ->
  preserves R (lookup_cache runtime new_URL JSON_parse u).
Proof.
  intros HR s r s'. unfold lookup_cache, getCachedModel.
  destruct (List.find _ _) as [row |].
  - destruct (CACHE_TTL_MS <? _); intros [= _ <-]; apply HR; reflexivity.
  - intros [= _ <-]. apply HR; reflexivity.
Qed.

Lemma preserves_pageModels_set (sessionId : string) (model : SemanticPageModel) :
  (forall s, R s {| world := world s; memory := memory s;
                    pageModels := <[sessionId := model]> (pageModels s);
                    sessions := sessions s |}) ->
  preserves R (pageModels_set sessionId model).
Proof. intros HR s r s' [= _ <-]. apply HR. Qed.

Lemma preserves_log (e : lifecycle) :
  (forall s, R s {| world := world s; memory := memory s; pageModels := pageModels s;
                    sessions := (sessions s ++ [e])%list |}) ->
  preserves R (log e).
Proof. intros HR s r s' [= _ <-]. apply HR. Qed.

Lemma preserves_fill_fields (sessionId : string) (entries : list (string * string))
    (params : list (string * JSON)) :
  (forall s w, R s (with_world s w)) ->
  preserves R (fill_fields engine sessionId entries params).
Proof.
  intros HR. induction entries as [| [paramName sel] rest IH]; simpl.
  - apply preserves_ret.
  - destruct (property paramName params) as [value |]; [| exact IH].
    destruct sel as [| c sel]; [exact IH |].
    apply preserves_bind; [apply preserves_call; exact HR | intros _; exact IH].
Qed.

End Frame.

#[local] Instance same_selectors_preorder : PreOrder (@same_selectors W).
Proof.
  split; [intros s; reflexivity |].
  intros a b c Hab Hbc. unfold same_selectors in *. congruence.
Qed.

#[local] Instance same_memory_preorder : PreOrder (@same_memory W).
Proof.
  split; [intros s; repeat split |].
  intros a b c (? & ? & ?) (? & ? & ?). unfold same_memory. repeat split; congruence.
Qed.

#[local] Instance same_sessions_preorder : PreOrder (@same_sessions W).
Proof.
  split; [intros s; reflexivity |].
  intros a b c Hab Hbc. unfold same_sessions in *. congruence.
Qed.

Ltac side := intros; hnf; simpl; repeat split; auto.

(** Rules that rest on [R] being a preorder leave that as a goal. *)
Ltac frame :=
  repeat first
    [ apply preserves_ret; [typeclasses eauto]
    | apply preserves_throw; [typeclasses eauto]
    | apply preserves_read; [typeclasses eauto]
    | apply preserves_Date_now; [typeclasses eauto]
    | apply preserves_bind; [typeclasses eauto | | intros ?]
    | apply preserves_try_catch; [typeclasses eauto | | intros ?]
    | apply preserves_try_finally; [typeclasses eauto | | ]
    | apply preserves_call; [side]
    | apply preserves_sleep; [side]
    | apply preserves_randomUUID; [side]
    | apply preserves_write; [side]
    | apply preserves_lookup_cache; [side]
    | apply preserves_pageModels_set; [side]
    | apply preserves_fill_fields; [typeclasses eauto | side]
    | match goal with
      | |- preserves _ (if ?b then _ else _) => destruct b
      | |- preserves _ (match ?x with _ => _ end) => destruct x
      end ].

(** *** The refresh pipeline *)

Lemma refreshModel_same_selectors (sessionId : string) :
  preserves same_selectors (refreshModel sessionId).
Proof. unfold TaskExecutor.refreshModel. frame. Qed.

Lemma refreshModel_same_sessions (sessionId : string) :
  preserves same_sessions (refreshModel sessionId).
Proof. unfold TaskExecutor.refreshModel. frame. Qed.

Lemma getPageState_same_selectors (sessionId : string) :
  preserves same_selectors (getPageState sessionId).
Proof.
  intros s r s'. unfold TaskExecutor.getPageState.
  destruct (pageModels s !! sessionId); [intros [= _ <-]; reflexivity |].
  apply refreshModel_same_selectors.
Qed.

(** C8. Executing an action that carries no hint leaves the selector
    library as it was, whatever the outcome; with a learned selector for
    it, what is executed is a click on that selector. *)
Theorem unhinted_action_records_nothing (sessionId actionName : string)
    (params : list (string * JSON)) (s s1 s' : state) (model : SemanticPageModel)
    (action : ActionDefinition) (r : outcome ActionResult) :
  getPageState sessionId s = (Returned model, s1) ->
  List.find (fun a => String.eqb (name a) actionName) (available_actions model)
    = Some action ->
  _internal action = None ->
  executeAction sessionId actionName params s = (r, s') ->
  selector_library (memory s') = selector_library (memory s)
  /\ (forall domain s0 remembered,
        truthy (getBestSelector domain (name action) (memory s0)) = Some remembered ->
        performAction sessionId action params domain s0
        = call (BrowserEngine.click engine sessionId remembered) s0).
Proof.
  intros Hstate Hfind Hint Hrun. split.
  - transitivity (selector_library (memory s1)).
    + unfold TaskExecutor.executeAction in Hrun. unfold bind at 1 in Hrun.
      rewrite Hstate, Hfind in Hrun. revert Hrun.
      unfold TaskExecutor.attempt, TaskExecutor.performAction,
        TaskExecutor.learnFromAction.
      rewrite Hint.
      match goal with
      | |- ?m s1 = _ -> _ => assert (preserves same_selectors m) as P by frame
      end.
      apply P.
    + apply (getPageState_same_selectors sessionId s _ _ Hstate).
  - intros domain s0 remembered Hr.
    unfold TaskExecutor.performAction, TaskExecutor.clickRemembered, bind, read.
    rewrite Hint, Hr. reflexivity.
Qed.

(** *** Learning from an action *)

Lemma counters_upsert (domain q sel q' sel' : string) (ds df now : Z)
    (rows : list selector_row) (d d' : db) :
  selector_library d = rows ->
  selector_library d' = upsert_selector domain q' sel' ds df now rows ->
  counters domain q sel d' =
  if String.eqb q' q && String.eqb sel' sel
  then (fst (counters domain q sel d) + ds, snd (counters domain q sel d) + df)
  else counters domain q sel d.
Proof.
  unfold counters. intros -> ->.
  induction rows as [| r rest IH]; simpl.
  - unfold same_key at 1. simpl. rewrite String.eqb_refl. simpl.
    destruct (String.eqb q' q && String.eqb sel' sel); reflexivity.
  - destruct (same_key domain q' sel' r) eqn:K'; simpl.
    + apply same_key_spec in K'.
      assert (same_key domain q sel
                {| s_domain := s_domain r; action_name := action_name r;
                   s_selector := s_selector r; success_count := success_count r + ds;
                   fail_count := fail_count r + df; last_used := now |}
              = same_key domain q sel r) as -> by reflexivity.
      destruct (same_key domain q sel r) eqn:K.
      * apply same_key_spec in K. rewrite K in K'. injection K' as -> ->.
        rewrite !String.eqb_refl. reflexivity.
      * destruct (String.eqb q' q && String.eqb sel' sel) eqn:E; [| reflexivity].
        apply andb_true_iff in E as [E1 E2].
        apply String.eqb_eq in E1, E2. subst q' sel'.
        apply same_key_spec in K'. congruence.
    + destruct (same_key domain q sel r) eqn:K; [| exact IH].
      destruct (String.eqb q' q && String.eqb sel' sel) eqn:E; [| reflexivity].
      apply andb_true_iff in E as [E1 E2].
      apply String.eqb_eq in E1, E2. subst q' sel'. congruence.
Qed.

Lemma counters_recordSelectorOutcome (domain q sel q' sel' : string) (now : Z) (d : db) :
  sel' <> "" ->
  counters domain q sel (recordSelectorOutcome domain q' sel' false now d) =
  if String.eqb q' q && String.eqb sel' sel
  then (fst (counters domain q sel d), snd (counters domain q sel d) + 1)
  else counters domain q sel d.
Proof.
  intros H. apply String.eqb_neq in H.
  rewrite (counters_upsert domain q sel q' sel' 0 1 now (selector_library d) d).
  - rewrite Z.add_0_r. reflexivity.
  - reflexivity.
  - unfold recordSelectorOutcome. rewrite H. reflexivity.
Qed.

Lemma counters_recordAll (domain q sel : string) (now : Z)
    (targets : list (string * string)) (d : db) :
  Forall (fun t => snd t <> "") targets ->
  counters domain q sel (recordAll domain false now targets d) =
  (fst (counters domain q sel d),
   snd (counters domain q sel d) + Z.of_nat (occurrences q sel targets)).
Proof.
  unfold recordAll, occurrences. revert d.
  induction targets as [| t rest IH]; intros d HF; simpl.
  - rewrite Z.add_0_r. destruct (counters domain q sel d). reflexivity.
  - apply Forall_cons in HF as [Ht HF]. rewrite (IH _ HF).
    rewrite counters_recordSelectorOutcome by exact Ht.
    destruct (String.eqb (fst t) q && String.eqb (snd t) sel); simpl; f_equal; lia.
Qed.

Lemma recordAll_frame (domain : string) (ok : bool) (now : Z)
    (targets : list (string * string)) (d : db) :
  site_profiles (recordAll domain ok now targets d) = site_profiles d
  /\ page_model_cache (recordAll domain ok now targets d) = page_model_cache d
  /\ site_knowledge (recordAll domain ok now targets d) = site_knowledge d.
Proof.
  unfold recordAll. revert d. induction targets as [| t rest IH]; intros d; simpl; [tauto |].
  destruct (IH (recordSelectorOutcome domain (fst t) (snd t) ok now d)) as (-> & -> & ->).
  unfold recordSelectorOutcome. destruct (String.eqb (snd t) ""); repeat split.
Qed.

Lemma truthy_Some (x y : string) : truthy (Some x) = Some y -> x = y /\ y <> "".
Proof. destruct x; simpl; [discriminate |]. intros [= <-]. split; [reflexivity | discriminate]. Qed.

Lemma hint_selectors_nonempty (actionName : string) (action : ActionDefinition) :
  Forall (fun t => snd t <> "") (hint_selectors actionName action).
Proof.
  unfold hint_selectors. destruct (_internal action) as [internal |]; [| constructor].
  repeat apply Forall_app_2.
  - destruct (truthy (selector internal)) as [x |] eqn:E; [| constructor].
    repeat constructor. simpl. destruct (selector internal) as [y |]; [| discriminate].
    apply truthy_Some in E. tauto.
  - destruct (field_map internal) as [entries |]; [| constructor].
    apply List.Forall_forall. intros t Ht.
    apply List.in_map_iff in Ht as (e & <- & He).
    apply List.filter_In in He as [_ He]. simpl.
    apply negb_true_iff, String.eqb_neq in He. exact He.
  - destruct (truthy (submit_selector internal)) as [x |] eqn:E; [| constructor].
    repeat constructor. simpl. destruct (submit_selector internal) as [y |]; [| discriminate].
    apply truthy_Some in E. tauto.
Qed.

Lemma recordOutcome_run (domain q sel : string) (ok : bool) (s : state) :
  recordOutcome runtime domain q sel ok s =
  (Returned tt,
   with_memory s (recordSelectorOutcome domain q sel ok
                    (Runtime.Date_now runtime (world s)) (memory s))).
Proof. reflexivity. Qed.

Lemma learnFields_run (domain actionName : string) (entries : list (string * string))
    (ok : bool) (s : state) :
  learnFields runtime domain actionName entries ok s =
  (Returned tt,
   with_memory s
     (recordAll domain ok (Runtime.Date_now runtime (world s))
        (List.map (fun e => (actionName +:+ "." +:+ fst e, snd e))
           (List.filter (fun e => negb (String.eqb (snd e) "")) entries))
        (memory s))).
Proof.
  revert s. induction entries as [| [paramName sel] rest IH]; intros s.
  - destruct s; reflexivity.
  - simpl. destruct sel as [| c sel]; simpl.
    + unfold bind, ret. rewrite IH. reflexivity.
    + unfold bind. rewrite recordOutcome_run. rewrite IH. reflexivity.
Qed.

(** [learnFromAction] is one [recordSelectorOutcome] per key the hint
    carries. *)
Lemma learnFromAction_run (domain actionName : string) (action : ActionDefinition)
    (ok : bool) (s : state) :
  learnFromAction domain actionName action ok s =
  (Returned tt,
   with_memory s
     (recordAll domain ok (Runtime.Date_now runtime (world s))
        (hint_selectors actionName action) (memory s))).
Proof.
  unfold TaskExecutor.learnFromAction, hint_selectors.
  destruct (_internal action) as [internal |]; [| destruct s; reflexivity].
  unfold recordAll. rewrite !fold_left_app. unfold bind.
  destruct (truthy (selector internal)) as [sel |];
    [rewrite recordOutcome_run | unfold ret at 1]; cbv beta iota;
    (destruct (field_map internal) as [entries |];
       [rewrite learnFields_run | unfold ret at 1]; cbv beta iota;
       (destruct (truthy (submit_selector internal)) as [submit |];
          [rewrite recordOutcome_run | unfold ret]; destruct s; reflexivity)).
Qed.

(** *** Running a sequence step by step *)

Lemma bind_returned {A B : Type} (m : @M W A) (k : A -> M B) (s s1 : state) (a : A) :
  m s = (Returned a, s1) -> bind m k s = k a s1.
Proof. intros H. unfold bind. rewrite H. reflexivity. Qed.

Lemma bind_thrown {A B : Type} (m : @M W A) (k : A -> M B) (s s1 : state)
    (message : string) :
  m s = (Thrown message, s1) -> bind m k s = (Thrown message, s1).
Proof. intros H. unfold bind. rewrite H. reflexivity. Qed.

Lemma try_catch_thrown {A : Type} (body : @M W A) (handler : string -> M A)
    (s s1 : state) (message : string) :
  body s = (Thrown message, s1) -> try_catch body handler s = handler message s1.
Proof. intros H. unfold try_catch. rewrite H. reflexivity. Qed.

Lemma try_catch_returned {A : Type} (body : @M W A) (handler : string -> M A)
    (s s1 : state) (a : A) :
  body s = (Returned a, s1) -> try_catch body handler s = (Returned a, s1).
Proof. intros H. unfold try_catch. rewrite H. reflexivity. Qed.

Lemma getCachedModel_miss (u : string) (now : Z) (d : db) :
  fst (getCachedModel new_URL JSON_parse u now d) = None ->
  getCachedModel new_URL JSON_parse u now d = (None, d).
Proof.
  unfold getCachedModel.
  destruct (List.find _ _) as [row |]; [| reflexivity].
  destruct (CACHE_TTL_MS <? _); [reflexivity | discriminate].
Qed.

(** C6 (as the code has it). [buildModel] hands on whatever [key_data]
    the translator's output carries (an empty object when it carries
    none), and a refresh that misses the cache returns, keeps and caches
    the translator's model as it came: the number of key facts is the
    translator's, not bounded by the core. *)
Theorem key_data_passes_through (sessionId : string) (s : state) (u html tree : string)
    (w1 w2 w3 w4 w5 : W) (model : SemanticPageModel) :
  BrowserEngine.getCurrentUrl engine sessionId (world s) = (Returned u, w1) ->
  BrowserEngine.checkForCaptcha engine sessionId w1 = (Returned false, w2) ->
  fst (getCachedModel new_URL JSON_parse u (Runtime.Date_now runtime w2) (memory s)) = None ->
  BrowserEngine.getPageHTML engine sessionId w2 = (Returned html, w3) ->
  BrowserEngine.getAccessibilityTree engine sessionId w3 = (Returned tree, w4) ->
  SemanticAnalyzer.analyze analyzer u html tree (buildLLMContext (memory s) (getDomain u)) w4
    = (Returned model, w5) ->
  (exists s', refreshModel sessionId s = (Returned model, s')
              /\ pageModels s' !! sessionId = Some model
              /\ option_map model_json
                   (List.find (has_pattern (normalizeUrl new_URL u))
                      (page_model_cache (memory s')))
                 = Some (JSON_stringify model))
  /\ (forall address parsed now built,
        SemanticAnalyzer.buildModel address parsed now = Returned built ->
        SemanticAnalyzer.b_key_data built
        = nullish (SemanticAnalyzer.member "key_data" parsed) (JObject [])).
Proof.
  intros H1 H2 H3 H4 H5 H6. split.
  - apply getCachedModel_miss in H3.
    eexists. split; [| split].
    + unfold TaskExecutor.refreshModel, bind, call, lookup_cache, read, write,
        pageModels_set, ret.
      rewrite H1. simpl. rewrite H2. simpl. rewrite H3. simpl.
      rewrite H4. simpl. rewrite H5. simpl. rewrite H6. simpl. reflexivity.
    + simpl. apply lookup_insert_eq.
    + simpl.
      pose proof (find_upsert_cache (normalizeUrl new_URL u)
                    (SiteMemoryStore.getDomain new_URL u) (JSON_stringify model)
                    (Runtime.Date_now runtime w5)) as F.
      match goal with
      | |- option_map _ (List.find _ ?rows) = _ =>
          match rows with
          | upsert_cache _ _ _ _ ?old => specialize (F old)
          end
      end.
      destruct (List.find _ _) as [row |]; [| discriminate].
      simpl in *. unfold written in F. congruence.
  - intros address parsed now built H.
    destruct parsed; try discriminate; inversion H; reflexivity.
Qed.

Lemma performAction_same_memory (sessionId : string) (action : ActionDefinition)
    (params : list (string * JSON)) (domain : string) :
  preserves same_memory (performAction sessionId action params domain).
Proof. unfold TaskExecutor.performAction, clickRemembered. frame. Qed.

(** C5 (as the code has it). When the low-level execution or the CAPTCHA
    re-check that follows it throws, [executeAction] returns the failure
    result built from the error's message and the pre-action model, after
    recording one failure for every key the action's hint carries; the
    attempt itself wrote nothing to the database, and the site profiles
    are left as they were: no note is appended. *)
Theorem executeAction_failure_path (sessionId actionName : string)
    (params : list (string * JSON)) (s s1 s2 s3 : state) (model : SemanticPageModel)
    (action : ActionDefinition) (urlBefore message : string) :
  getPageState sessionId s = (Returned model, s1) ->
  List.find (fun a => String.eqb (name a) actionName) (available_actions model)
    = Some action ->
  call (BrowserEngine.getCurrentUrl engine sessionId) s1 = (Returned urlBefore, s2) ->
  let domain := getDomain urlBefore in
  (performAction sessionId action params domain s2 = (Thrown message, s3)
   \/ exists settled,
        performAction sessionId action params domain s2 = (Returned tt, settled)
        /\ call (BrowserEngine.checkForCaptcha engine sessionId)
             (with_world settled (Runtime.setTimeout runtime 500 (world settled)))
           = (Thrown message, s3)) ->
  let targets := hint_selectors actionName action in
  let learnt := recordAll domain false (Runtime.Date_now runtime (world s3)) targets (memory s3) in
  executeAction sessionId actionName params s
  = (Returned (errorResult ("Action '" +:+ actionName +:+ "' failed: " +:+ message) model),
     with_memory s3 learnt)
  /\ memory s3 = memory s2
  /\ site_profiles learnt = site_profiles (memory s2)
  /\ (forall q sel,
        counters domain q sel learnt
        = (fst (counters domain q sel (memory s2)),
           snd (counters domain q sel (memory s2)) + Z.of_nat (occurrences q sel targets))).
Proof.
  intros Hstate Hfind Hurl domain Hfail targets learnt.
  assert (same_memory s2 s3) as (Hmem & _ & _).
  { destruct Hfail as [H | (settled & Hp & Hc)].
    - apply (performAction_same_memory _ _ _ _ _ _ _ H).
    - transitivity settled; [apply (performAction_same_memory _ _ _ _ _ _ _ Hp) |].
      transitivity (with_world settled (Runtime.setTimeout runtime 500 (world settled)));
        [repeat split |].
      revert Hc. apply preserves_call. side. }
  split; [| split; [exact Hmem | split]].
  - unfold TaskExecutor.executeAction.
    rewrite (bind_returned _ _ _ _ _ Hstate). rewrite Hfind.
    rewrite (bind_returned _ _ _ _ _ Hurl). fold domain.
    rewrite (try_catch_thrown _ _ s2 s3 message).
    + rewrite (bind_returned _ _ _ _ _ (learnFromAction_run _ _ _ _ _)). reflexivity.
    + unfold TaskExecutor.attempt.
      destruct Hfail as [H | (settled & Hp & Hc)].
      * apply bind_thrown. exact H.
      * rewrite (bind_returned _ _ _ _ _ Hp).
        rewrite (bind_returned _ _ settled
                   (with_world settled (Runtime.setTimeout runtime 500 (world settled)))
                   tt eq_refl).
        apply bind_thrown. exact Hc.
  - unfold learnt. rewrite <- Hmem. apply recordAll_frame.
  - intros q sel. unfold learnt. rewrite <- Hmem.
    apply counters_recordAll, hint_selectors_nonempty.
Qed.

(** *** Parallel tasks *)

Lemma navigate_same_sessions (sessionId u : string) :
  preserves same_sessions (navigate sessionId u).
Proof. unfold TaskExecutor.navigate. frame. Qed.

Lemma task_id_or_random_run (task : AgentTask) (s : state) :
  exists i s', task_id_or_random runtime task s = (Returned i, s')
               /\ sessions s' = sessions s
               /\ (forall i', id task = Some i' -> i = i').
Proof.
  unfold task_id_or_random. destruct (id task) as [i |].
  - exists i, s. repeat split. intros i' [= <-]. reflexivity.
  - unfold randomUUID. destruct (Runtime.randomUUID runtime (world s)) as [u w].
    eexists _, _. repeat split. discriminate.
Qed.

Lemma result_of_reports (task : AgentTask) (i : string) (nav : outcome SemanticPageModel) :
  (forall i', id task = Some i' -> i = i') -> reports task (result_of task i nav).
Proof.
  intros Hi. split.
  - intros i' H. destruct nav; simpl; apply Hi; exact H.
  - destruct nav as [model | message]; [left | right]; simpl; eauto 6.
Qed.

(** One task, from the session it obtained to the session's teardown. *)
Lemma runTask_run (task : AgentTask) (s s2 : state) (sessionId : string) (w1 : W)
    (nav : outcome SemanticPageModel) :
  (forall sid w, exists w', BrowserEngine.destroySession engine sid w = (Returned tt, w')) ->
  BrowserEngine.createSession engine (world s) = (Returned sessionId, w1) ->
  navigate sessionId (task_url task)
    {| world := w1; memory := memory s; pageModels := pageModels s;
       sessions := (sessions s ++ [Created sessionId])%list |} = (nav, s2) ->
  exists i s3,
    runTask task s = (Returned (result_of task i nav), s3)
    /\ (forall i', id task = Some i' -> i = i')
    /\ sessions s3 = (sessions s ++ [Created sessionId; Destroyed sessionId])%list.
Proof.
  intros Hd Hc Hn.
  pose proof (navigate_same_sessions _ _ _ _ _ Hn) as Hs2. hnf in Hs2. simpl in Hs2.
  unfold TaskExecutor.runTask.
  unfold bind at 1. unfold call at 1. rewrite Hc. cbv beta iota.
  unfold bind at 1. unfold log at 1. cbv beta iota.
  unfold try_finally, try_catch. unfold bind at 1.
  cbn [world memory pageModels sessions with_world]. rewrite Hn.
  destruct (task_id_or_random_run task s2) as (i & sb & Hi & Hsb & Hid).
  destruct (Hd sessionId (world sb)) as [w' Hw'].
  exists i. eexists. split; [| split; [exact Hid |]].
  - destruct nav as [model | message]; cbv beta iota;
      unfold bind, log, call, ret; rewrite Hi;
      cbn [world memory pageModels sessions]; rewrite Hw'; reflexivity.
  - cbn [sessions]. rewrite Hsb, Hs2, <- app_assoc. reflexivity.
Qed.

Lemma Promise_all_returned {A : Type} (values : list A) :
  Promise_all (List.map Returned values) = Returned values.
Proof. induction values as [| a rest IH]; simpl; [| rewrite IH]; reflexivity. Qed.

Lemma settle_run (tasks : list AgentTask) (s : state) :
  (forall w, exists sid w', BrowserEngine.createSession engine w = (Returned sid, w')) ->
  (forall sid w, exists w', BrowserEngine.destroySession engine sid w = (Returned tt, w')) ->
  exists results sids s',
    settle tasks s = (List.map Returned results, s')
    /\ Forall2 reports tasks results
    /\ length sids = length tasks
    /\ sessions s' =
        (sessions s ++ concat (List.map (fun sid => [Created sid; Destroyed sid]) sids))%list.
Proof.
  intros Hc Hd. revert s. induction tasks as [| task rest IH]; intros s.
  - exists [], [], s. simpl. rewrite app_nil_r. repeat split. constructor.
  - destruct (Hc (world s)) as (sid & w1 & Hsid).
    destruct (navigate sid (task_url task)
                {| world := w1; memory := memory s; pageModels := pageModels s;
                   sessions := (sessions s ++ [Created sid])%list |}) as [nav s2] eqn:Hn.
    destruct (runTask_run task s s2 sid w1 nav Hd Hsid Hn) as (i & s3 & Hrun & Hid & Hs3).
    destruct (IH s3) as (results & sids & s' & Hrest & Hrep & Hlen & Hs').
    exists (result_of task i nav :: results), (sid :: sids), s'.
    simpl. rewrite Hrun, Hrest. split; [reflexivity |].
    split; [constructor; [apply result_of_reports; exact Hid | exact Hrep] |].
    split; [rewrite Hlen; reflexivity |].
    rewrite Hs', Hs3, <- app_assoc. reflexivity.
Qed.

Lemma runTask_createSession_thrown (task : AgentTask) (s : state) (message : string)
    (w : W) :
  BrowserEngine.createSession engine (world s) = (Thrown message, w) ->
  runTask task s = (Thrown message, with_world s w).
Proof.
  intros H. unfold TaskExecutor.runTask. apply bind_thrown.
  unfold call. rewrite H. reflexivity.
Qed.

Lemma runTask_destroySession_thrown (task : AgentTask) (s s2 sb : state)
    (sessionId i message : string) (w1 w' : W) (nav : outcome SemanticPageModel) :
  BrowserEngine.createSession engine (world s) = (Returned sessionId, w1) ->
  navigate sessionId (task_url task)
    {| world := w1; memory := memory s; pageModels := pageModels s;
       sessions := (sessions s ++ [Created sessionId])%list |} = (nav, s2) ->
  task_id_or_random runtime task s2 = (Returned i, sb) ->
  BrowserEngine.destroySession engine sessionId (world sb) = (Thrown message, w') ->
  fst (runTask task s) = Thrown message.
Proof.
  intros Hc Hn Hi Hd.
  unfold TaskExecutor.runTask.
  unfold bind at 1. unfold call at 1. rewrite Hc. cbv beta iota.
  unfold bind at 1. unfold log at 1. cbv beta iota.
  unfold try_finally, try_catch. unfold bind at 1.
  cbn [world memory pageModels sessions with_world]. rewrite Hn.
  destruct nav as [model | failure]; cbv beta iota;
    unfold bind, log, call, ret; rewrite Hi;
    cbn [world memory pageModels sessions]; rewrite Hd; reflexivity.
Qed.

Lemma Promise_all_thrown {A : Type} (settled : list (outcome A)) (message : string) :
  In (Thrown message) settled -> exists first, Promise_all settled = Thrown first.
Proof.
  induction settled as [| o rest IH]; simpl; [contradiction |].
  intros [-> | H]; [eauto |].
  destruct o as [a | m]; [| eauto].
  destruct (IH H) as [first ->]. eauto.
Qed.


(** C9. When the driver reports a challenge, [refreshModel] returns the
    fixed CAPTCHA model, leaves the database and the per-session models as
    they were, and a later [getPageState] of a session that had a model
    returns that earlier model. *)
Theorem refreshModel_on_captcha (sessionId : string) (s : state) (u : string) (w1 w2 : W) :
  BrowserEngine.getCurrentUrl engine sessionId (world s) = (Returned u, w1) ->
  BrowserEngine.checkForCaptcha engine sessionId w1 = (Returned true, w2) ->
  let captcha := buildCaptchaModel u (Runtime.Date_now runtime w2) in
  let s' := with_world s w2 in
  refreshModel sessionId s = (Returned captcha, s')
  /\ page_type captcha = "captcha" /\ available_actions captcha = []
  /\ length (warnings captcha) = 1%nat
  /\ memory s' = memory s
  /\ pageModels s' = pageModels s
  /\ (forall previous, pageModels s !! sessionId = Some previous ->
        getPageState sessionId s' = (Returned previous, s')).
Proof.
  intros H1 H2 captcha s'. repeat split.
  - unfold TaskExecutor.refreshModel, bind, call. rewrite H1. simpl. rewrite H2. reflexivity.
  - intros previous Hp. unfold TaskExecutor.getPageState. simpl. rewrite Hp. reflexivity.
Qed.

End ExecutorFacts.

(** ** The executor on the sample collaborators *)

Section ExecutorExamples.
Import SiteMemoryStore TaskExecutor Samples.

Abbreviation toy_with cfg A :=
  (A toy_world (toy_engine cfg) toy_analyzer toy_runtime URL.new_URL toy_stringify
     toy_parse (fun _ _ => None)).
Abbreviation toy A := (toy_with calm A).

(** The hypotheses of [refreshModel_on_captcha] on a session that shows a
    challenge after a login page. *)
Lemma refreshModel_on_captcha_witness :
  BrowserEngine.getCurrentUrl (toy_engine calm) "session-0" (world blocked)
    = (Returned "https://x.com/challenge", world blocked)
  /\ BrowserEngine.checkForCaptcha (toy_engine calm) "session-0" (world blocked)
    = (Returned true, world blocked)
  /\ fst (toy (@TaskExecutor.refreshModel) "session-0" blocked)
    = Returned (buildCaptchaModel "https://x.com/challenge" 1000)
  /\ fst (toy (@TaskExecutor.getPageState) "session-0"
            (snd (toy (@TaskExecutor.refreshModel) "session-0" blocked)))
    = Returned (login_page "https://x.com/login").
Proof.
  split; [reflexivity |]. split; [reflexivity |].
  destruct (refreshModel_on_captcha (toy_engine calm) toy_analyzer toy_runtime
              URL.new_URL toy_stringify toy_parse (fun _ _ => None)
              "session-0" blocked "https://x.com/challenge" (world blocked) (world blocked)
              eq_refl eq_refl) as (H1 & _ & _ & _ & _ & _ & H2).
  rewrite H1. split; [reflexivity |].
  cbn [snd]. rewrite (H2 (login_page "https://x.com/login") eq_refl). reflexivity.
Defined.

(** The hypotheses of [unhinted_action_records_nothing]: [open_menu] has no
    hint and is run through the selector learned for it. *)
Lemma unhinted_action_records_nothing_witness :
  truthy (getBestSelector "x.com" "open_menu" (memory learned)) = Some "#menu"
  /\ (exists result,
        fst (toy (@TaskExecutor.executeAction) "session-0" "open_menu" [] learned)
          = Returned result /\ success result = true)
  /\ selector_library
       (memory (snd (toy (@TaskExecutor.executeAction) "session-0" "open_menu" [] learned)))
     = selector_library (memory learned).
Proof.
  split; [reflexivity |]. split; [eexists; split; reflexivity |].
  destruct (toy (@TaskExecutor.executeAction) "session-0" "open_menu" [] learned)
    as [r s'] eqn:E.
  apply (unhinted_action_records_nothing (toy_engine calm) toy_analyzer toy_runtime
           URL.new_URL toy_stringify toy_parse (fun _ _ => None)
           "session-0" "open_menu" [] learned learned s'
           (login_page "https://x.com/login")
           {| name := "open_menu"; description := "Open the menu";
              parameters := []; returns := "The menu"; _internal := None |} r);
    [reflexivity | reflexivity | reflexivity | exact E].
Defined.




(** The hypotheses of [executeAction_failure_path]: the submit button of
    the login form is dead, the click on it times out. *)
Lemma executeAction_failure_path_witness :
  let run := toy (@TaskExecutor.executeAction) "session-0" "authenticate"
               [("email", JString "a@b.c")] learned in
  TaskExecutor.performAction (toy_engine calm) "session-0"
    {| name := "authenticate"; description := "Log in with credentials";
       parameters := []; returns := "Authenticated session state";
       _internal :=
         Some {| type := form; selector := None;
                 field_map := Some [("email", "#email"); ("password", "#password")];
                 submit_selector := Some "#submit" |} |}
    [("email", JString "a@b.c")] "x.com" learned
    = (Thrown "Timeout 10000ms exceeded", learned)
  /\ fst run =
       Returned (errorResult "Action 'authenticate' failed: Timeout 10000ms exceeded"
                   (login_page "https://x.com/login"))
  /\ counters "x.com" "authenticate.submit" "#submit" (memory (snd run)) = (0, 1).
Proof.
  intros run. split; [reflexivity |].
  destruct (executeAction_failure_path (toy_engine calm) toy_analyzer toy_runtime
              URL.new_URL toy_stringify toy_parse (fun _ _ => None)
              "session-0" "authenticate" [("email", JString "a@b.c")]
              learned learned learned learned (login_page "https://x.com/login")
              {| name := "authenticate"; description := "Log in with credentials";
                 parameters := []; returns := "Authenticated session state";
                 _internal :=
                   Some {| type := form; selector := None;
                           field_map := Some [("email", "#email"); ("password", "#password")];
                           submit_selector := Some "#submit" |} |}
              "https://x.com/login" "Timeout 10000ms exceeded"
              eq_refl eq_refl eq_refl (or_introl eq_refl))
    as (Hrun & _ & _ & Hcount).
  unfold run. rewrite Hrun. split; [reflexivity |].
  cbn [snd memory with_memory]. rewrite Hcount. reflexivity.
Defined.

(** C5 as the specification words it fails on the profile note: after the
    failed attempt above the site profiles hold no note at all. *)
Lemma failure_path_appends_no_note :
  let run := toy (@TaskExecutor.executeAction) "session-0" "authenticate"
               [("email", JString "a@b.c")] learned in
  (exists result, fst run = Returned result /\ success result = false
                  /\ error result
                     = Some "Action 'authenticate' failed: Timeout 10000ms exceeded")
  /\ ~ (exists row note, In row (site_profiles (memory (snd run))) /\ In note (notes row)).
Proof.
  intros run. split; [eexists; repeat split |].
  intros (row & note & Hrow & _). vm_compute in Hrow. exact Hrow.
Qed.

(** The hypotheses of [key_data_passes_through] on a first visit of the
    login page. *)
Lemma key_data_passes_through_witness :
  fst (getCachedModel URL.new_URL toy_parse "https://x.com/login" 1000 (memory learned))
    = None
  /\ fst (toy (@TaskExecutor.refreshModel) "session-0" learned)
     = Returned (login_page "https://x.com/login").
Proof.
  split; [reflexivity |].
  destruct (key_data_passes_through (toy_engine calm) toy_analyzer toy_runtime
              URL.new_URL toy_stringify toy_parse (fun _ _ => None)
              "session-0" learned "https://x.com/login" "<html></html>" "[]"
              (world learned) (world learned) (world learned) (world learned)
              (world learned) (login_page "https://x.com/login")
              eq_refl eq_refl eq_refl eq_refl eq_refl eq_refl)
    as [(s' & H & _) _].
  rewrite H. reflexivity.
Defined.

(** C6 as the specification words it fails: a translator output with
    eleven key facts is built into a model with eleven key facts. *)
Lemma key_data_bound_not_enforced :
  exists built,
    SemanticAnalyzer.buildModel "https://x.com/p" eleven_facts 0 = Returned built
    /\ Object_keys_length (SemanticAnalyzer.b_key_data built) = 11%nat
    /\ ~ (Object_keys_length (SemanticAnalyzer.b_key_data built) <= 10)%nat.
Proof. eexists. split; [reflexivity |]. split; [reflexivity |]. simpl. lia. Qed.

End ExecutorExamples.

(** ** More of the store: cache upkeep *)

Section CacheUpkeep.
Import SiteMemoryStore.

Context (new_URL : string -> option URLRecord).
Context (JSON_stringify : SemanticPageModel -> string).
Context (JSON_parse : string -> SemanticPageModel).

Abbreviation pattern_of := (SiteMemoryStore.normalizeUrl new_URL).
Abbreviation domain_of := (SiteMemoryStore.getDomain new_URL).
Abbreviation lookup := (SiteMemoryStore.getCachedModel new_URL JSON_parse).
Abbreviation store := (SiteMemoryStore.cacheModel new_URL JSON_stringify).

Lemma find_filter_kept {A : Type} (p keep : A -> bool) (l : list A) (x : A) :
  List.find p l = Some x -> keep x = true -> List.find p (List.filter keep l) = Some x.
Proof.
  induction l as [| a l IH]; simpl; [discriminate |].
  destruct (p a) eqn:Pa.
  - intros [= ->] K. rewrite K. simpl. rewrite Pa. reflexivity.
  - intros F K. destruct (keep a); simpl; [rewrite Pa |]; auto.
Qed.

Lemma find_filter_none {A : Type} (p keep : A -> bool) (l : list A) :
  List.find p l = None -> List.find p (List.filter keep l) = None.
Proof.
  induction l as [| a l IH]; simpl; [reflexivity |].
  destruct (p a) eqn:Pa; [discriminate |].
  intros F. destruct (keep a); simpl; [rewrite Pa |]; auto.
Qed.

Lemma find_pattern_unique (pattern : string) (rows : list cache_row) (row : cache_row)
    (keep : cache_row -> bool) :
  unique_patterns rows ->
  List.find (has_pattern pattern) rows = Some row -> keep row = false ->
  List.find (has_pattern pattern) (List.filter keep rows) = None.
Proof.
  unfold unique_patterns.
  induction rows as [| a rows IH]; simpl; [discriminate |].
  intros U. apply List.NoDup_cons_iff in U as [Ha U].
  destruct (has_pattern pattern a) eqn:Pa.
  - intros [= ->] K. rewrite K.
    apply find_filter_none.
    destruct (List.find (has_pattern pattern) rows) as [b |] eqn:F; [| reflexivity].
    exfalso. apply Ha.
    apply List.find_some in F as [Hin Hb].
    unfold has_pattern in *. apply String.eqb_eq in Pa, Hb.
    rewrite Pa, <- Hb. apply List.in_map. exact Hin.
  - intros F K. destruct (keep a); simpl; [rewrite Pa |]; auto.
Qed.

Lemma lookup_fst (u : string) (now : Z) (d : db) :
  fst (lookup u now d) =
  match List.find (has_pattern (pattern_of u)) (page_model_cache d) with
  | Some row =>
      if CACHE_TTL_MS <? now - c_last_updated row then None
      else Some (JSON_parse (model_json row))
  | None => None
  end.
Proof.
  unfold SiteMemoryStore.getCachedModel.
  destruct (List.find _ _) as [row |]; [| reflexivity].
  destruct (CACHE_TTL_MS <? _); reflexivity.
Qed.

(** X1. [invalidateCache] removes the entries filed under the domain and
    no others: under the table's primary key, a URL whose entry is filed
    under the domain reads absent afterwards, and a URL whose entry is
    filed under another domain, or that has no entry, reads as before. *)
Theorem invalidateCache_by_domain (d : db) (domain u : string) (now : Z) :
  unique_patterns (page_model_cache d) ->
  let entry := List.find (has_pattern (pattern_of u)) (page_model_cache d) in
  (forall row, entry = Some row -> c_domain row = domain ->
     fst (lookup u now (invalidateCache domain d)) = None)
  /\ (forall row, entry = Some row -> c_domain row <> domain ->
     fst (lookup u now (invalidateCache domain d)) = fst (lookup u now d))
  /\ (entry = None -> fst (lookup u now (invalidateCache domain d)) = None).
Proof.
  intros U entry. rewrite !lookup_fst. unfold invalidateCache. simpl.
  fold entry. repeat split.
  - intros row E Hd.
    rewrite (find_pattern_unique _ _ row _ U E); [reflexivity |].
    rewrite Hd, String.eqb_refl. reflexivity.
  - intros row E Hd.
    rewrite (find_filter_kept _ _ _ row E); [rewrite E; reflexivity |].
    apply negb_true_iff, String.eqb_neq. exact Hd.
  - intros E. rewrite (find_filter_none _ _ _ E). reflexivity.
Qed.

Lemma find_upsert_cache_row (pattern domain json : string) (now : Z) (rows : list cache_row) :
  List.find (has_pattern pattern) (upsert_cache pattern domain json now rows) =
  Some match List.find (has_pattern pattern) rows with
       | Some r => {| url_pattern := url_pattern r; c_domain := c_domain r;
                      model_json := json; hit_count := hit_count r;
                      c_last_updated := now |}
       | None => {| url_pattern := pattern; c_domain := domain; model_json := json;
                    hit_count := 0; c_last_updated := now |}
       end.
Proof.
  induction rows as [| r rest IH]; simpl.
  - unfold has_pattern. simpl. rewrite String.eqb_refl. reflexivity.
  - destruct (has_pattern pattern r) eqn:E; simpl.
    + unfold has_pattern in *. simpl. rewrite E. reflexivity.
    + rewrite E. exact IH.
Qed.

Lemma find_upsert_cache_other (p pattern domain json : string) (now : Z)
    (rows : list cache_row) :
  p <> pattern ->
  List.find (has_pattern p) (upsert_cache pattern domain json now rows)
  = List.find (has_pattern p) rows.
Proof.
  intros Hp. induction rows as [| r rest IH]; simpl.
  - unfold has_pattern. simpl.
    destruct (String.eqb pattern p) eqn:E; [| reflexivity].
    apply String.eqb_eq in E. congruence.
  - destruct (has_pattern pattern r) eqn:E; simpl.
    + unfold has_pattern in *. simpl.
      destruct (String.eqb (url_pattern r) p) eqn:E'; [| reflexivity].
      apply String.eqb_eq in E, E'. congruence.
    + rewrite IH. reflexivity.
Qed.

Lemma upsert_cache_patterns (pattern domain json : string) (now : Z) (rows : list cache_row) :
  List.map url_pattern (upsert_cache pattern domain json now rows) =
  if existsb (has_pattern pattern) rows
  then List.map url_pattern rows
  else (List.map url_pattern rows ++ [pattern])%list.
Proof.
  induction rows as [| r rest IH]; simpl; [reflexivity |].
  destruct (has_pattern pattern r) eqn:E; simpl; [reflexivity |].
  rewrite IH. destruct (existsb _ rest); reflexivity.
Qed.

(** X2. A write through [cacheModel] never refiles an entry: when the
    pattern is already cached under a different domain, the entry keeps
    that domain, so [invalidateCache] for the URL's own domain leaves it
    in place and the model just written is still served. *)
Theorem stale_domain_survives_invalidation (d : db) (u : string) (m : SemanticPageModel)
    (t now : Z) (row : cache_row) :
  JSON_parse (JSON_stringify m) = m ->
  List.find (has_pattern (pattern_of u)) (page_model_cache d) = Some row ->
  c_domain row <> domain_of u ->
  now - t <= CACHE_TTL_MS ->
  fst (lookup u now (invalidateCache (domain_of u) (store u m t d))) = Some m.
Proof.
  intros RT E Hd Hnow. rewrite lookup_fst. unfold invalidateCache, SiteMemoryStore.cacheModel.
  simpl.
  rewrite (find_filter_kept _ _ _
             {| url_pattern := url_pattern row; c_domain := c_domain row;
                model_json := JSON_stringify m; hit_count := hit_count row;
                c_last_updated := t |}).
  - simpl. destruct (CACHE_TTL_MS <? now - t) eqn:L; [apply Z.ltb_lt in L; lia |].
    rewrite RT. reflexivity.
  - rewrite find_upsert_cache_row, E. reflexivity.
  - simpl. apply negb_true_iff, String.eqb_neq. exact Hd.
Qed.

(** X3. A fresh entry is gone after its domain is invalidated: caching a
    model for a URL that had no entry and then invalidating the URL's
    domain makes the lookup return absent. *)
Theorem fresh_entry_is_invalidated (d : db) (u : string) (m : SemanticPageModel) (t now : Z) :
  List.find (has_pattern (pattern_of u)) (page_model_cache d) = None ->
  fst (lookup u now (invalidateCache (domain_of u) (store u m t d))) = None.
Proof.
  intros E. rewrite lookup_fst. unfold invalidateCache, SiteMemoryStore.cacheModel. simpl.
  assert (forall rows, List.find (has_pattern (pattern_of u)) rows = None ->
            List.find (has_pattern (pattern_of u))
              (List.filter (fun r => negb (String.eqb (c_domain r) (domain_of u)))
                 (upsert_cache (pattern_of u) (domain_of u) (JSON_stringify m) t rows))
            = None) as H.
  { induction rows as [| r rest IH]; simpl.
    - intros _. rewrite String.eqb_refl. reflexivity.
    - destruct (has_pattern (pattern_of u) r) eqn:P; [discriminate |].
      intros F. simpl. destruct (negb _); simpl; [rewrite P |]; auto. }
  rewrite (H _ E). reflexivity.
Qed.

(** X4. The primary key of the cache is kept: writes, reads and
    invalidations take a table with pairwise distinct patterns to one. *)
Theorem cache_keeps_unique_patterns (d : db) (u : string) (m : SemanticPageModel)
    (now : Z) (domain : string) :
  unique_patterns (page_model_cache d) ->
  unique_patterns (page_model_cache (store u m now d))
  /\ unique_patterns (page_model_cache (snd (lookup u now d)))
  /\ unique_patterns (page_model_cache (invalidateCache domain d)).
Proof.
  unfold unique_patterns. intros U. repeat split.
  - unfold SiteMemoryStore.cacheModel. simpl. rewrite upsert_cache_patterns.
    destruct (existsb _ _) eqn:E; [exact U |].
    apply List.NoDup_app; [exact U | |].
    + apply List.NoDup_cons; [intros [] | apply List.NoDup_nil].
    + intros k Hk [<- | []].
      apply List.in_map_iff in Hk as (r & Hr & Hin).
      assert (existsb (has_pattern (pattern_of u)) (page_model_cache d) = true) as X.
      { apply List.existsb_exists. exists r. split; [exact Hin |].
        unfold has_pattern. apply String.eqb_eq. exact Hr. }
      congruence.
  - unfold SiteMemoryStore.getCachedModel.
    destruct (List.find _ _) as [row |]; [| exact U].
    destruct (CACHE_TTL_MS <? _); [exact U |]. simpl.
    rewrite List.map_map.
    erewrite List.map_ext; [exact U |].
    intros r. unfold bump_hits. destruct (has_pattern _ r); reflexivity.
  - unfold invalidateCache. simpl.
    induction (page_model_cache d) as [| r rows IH]; simpl; [constructor |].
    apply List.NoDup_cons_iff in U as [Hr U].
    destruct (negb _); simpl; [| auto].
    apply List.NoDup_cons; [| auto].
    intros Hin. apply Hr. apply List.in_map_iff in Hin as (x & Hx & Hin).
    apply List.filter_In in Hin as [Hin _]. rewrite <- Hx. apply List.in_map. exact Hin.
Qed.

Lemma find_bump_row (p q : string) (rows : list cache_row) :
  List.find (has_pattern p) (List.map (bump_hits q) rows)
  = option_map (bump_hits q) (List.find (has_pattern p) rows).
Proof.
  induction rows as [| r rest IH]; simpl; [reflexivity |].
  assert (has_pattern p (bump_hits q r) = has_pattern p r) as ->
    by (unfold bump_hits; destruct (has_pattern q r); reflexivity).
  destruct (has_pattern p r); [reflexivity | exact IH].
Qed.

(** X5. Hit counting: a lookup that returns a model adds one to the hit
    counter of that URL's entry and leaves every other entry's counter
    alone; a lookup that returns absent changes nothing; and overwriting
    an entry keeps the hits it had. *)
Theorem hit_counter_counts_hits (d : db) (u : string) (now : Z) :
  (forall m d', lookup u now d = (Some m, d') ->
     hits_of (pattern_of u) d' = option_map (Z.add 1) (hits_of (pattern_of u) d)
     /\ forall p, p <> pattern_of u -> hits_of p d' = hits_of p d)
  /\ (forall d', lookup u now d = (None, d') -> d' = d)
  /\ (forall m t h, hits_of (pattern_of u) d = Some h ->
        hits_of (pattern_of u) (store u m t d) = Some h).
Proof.
  repeat split.
  - revert H. unfold SiteMemoryStore.getCachedModel, hits_of.
    destruct (List.find _ _) as [row |] eqn:E; [| discriminate].
    destruct (CACHE_TTL_MS <? _); [discriminate |].
    intros [= _ <-]. simpl. rewrite find_bump_row, E. simpl.
    unfold bump_hits. rewrite (proj2 (List.find_some _ _ E)). simpl. f_equal. lia.
  - intros p Hp. revert H. unfold SiteMemoryStore.getCachedModel, hits_of.
    destruct (List.find (has_pattern (pattern_of u)) _) as [row |]; [| discriminate].
    destruct (CACHE_TTL_MS <? _); [discriminate |].
    intros [= _ <-]. simpl. rewrite find_bump_row.
    destruct (List.find (has_pattern p) _) as [r |] eqn:F; [| reflexivity].
    simpl. unfold bump_hits.
    destruct (has_pattern (pattern_of u) r) eqn:Q; [| reflexivity].
    apply List.find_some in F as [_ F]. unfold has_pattern in *.
    apply String.eqb_eq in Q, F. congruence.
  - intros d'. unfold SiteMemoryStore.getCachedModel.
    destruct (List.find _ _) as [row |]; [| intros [= <-]; reflexivity].
    destruct (CACHE_TTL_MS <? _); [intros [= <-]; reflexivity | discriminate].
  - intros m t h. unfold hits_of, SiteMemoryStore.cacheModel. simpl.
    rewrite find_upsert_cache_row.
    destruct (List.find _ _) as [row |]; [| discriminate].
    simpl. auto.
Qed.

End CacheUpkeep.

(** ** More of the store: selectors, profiles, visits *)

Section StoreUpkeep.
Import SiteMemoryStore.

Abbreviation counters := TaskExecutor.counters.

Lemma find_same_key_upsert (D q sel D' q' sel' : string) (ds df now : Z)
    (rows : list selector_row) :
  let old := List.find (same_key D q sel) rows in
  List.find (same_key D q sel) (upsert_selector D' q' sel' ds df now rows) =
  if String.eqb D' D && String.eqb q' q && String.eqb sel' sel
  then Some match old with
            | Some r => {| s_domain := s_domain r; action_name := action_name r;
                           s_selector := s_selector r;
                           success_count := success_count r + ds;
                           fail_count := fail_count r + df; last_used := now |}
            | None => {| s_domain := D'; action_name := q'; s_selector := sel';
                         success_count := ds; fail_count := df; last_used := now |}
            end
  else old.
Proof.
  simpl. induction rows as [| r rest IH]; simpl.
  - unfold same_key at 1. simpl.
    destruct (String.eqb D' D && String.eqb q' q && String.eqb sel' sel); reflexivity.
  - destruct (same_key D' q' sel' r) eqn:K'; simpl.
    + assert (same_key D q sel
                {| s_domain := s_domain r; action_name := action_name r;
                   s_selector := s_selector r; success_count := success_count r + ds;
                   fail_count := fail_count r + df; last_used := now |}
              = same_key D q sel r) as -> by reflexivity.
      apply same_key_spec in K'.
      destruct (same_key D q sel r) eqn:K.
      * apply same_key_spec in K. rewrite K in K'. injection K' as -> -> ->.
        rewrite !String.eqb_refl. reflexivity.
      * destruct (String.eqb D' D && String.eqb q' q && String.eqb sel' sel) eqn:E;
          [| reflexivity].
        apply andb_true_iff in E as [E E3]. apply andb_true_iff in E as [E1 E2].
        apply String.eqb_eq in E1, E2, E3. subst D' q' sel'.
        apply same_key_spec in K'. congruence.
    + destruct (same_key D q sel r) eqn:K; [| exact IH].
      destruct (String.eqb D' D && String.eqb q' q && String.eqb sel' sel) eqn:E;
        [| reflexivity].
      apply andb_true_iff in E as [E E3]. apply andb_true_iff in E as [E1 E2].
      apply String.eqb_eq in E1, E2, E3. subst D' q' sel'. congruence.
Qed.

(** X6. One outcome, one count: [recordSelectorOutcome] adds one to the
    success or to the failure counter of the key it names (starting a
    record at zero if there was none) and changes the counters of no
    other key; with an empty selector it changes nothing at all. *)
Theorem recordSelectorOutcome_counts (D q sel D' q' sel' : string) (ok : bool)
    (now : Z) (d : db) :
  counters D q sel (recordSelectorOutcome D' q' sel' ok now d) =
  (if String.eqb D' D && String.eqb q' q && String.eqb sel' sel
      && negb (String.eqb sel' "")
   then (fst (counters D q sel d) + (if ok then 1 else 0),
         snd (counters D q sel d) + (if ok then 0 else 1))
   else counters D q sel d)
  /\ recordSelectorOutcome D' q' "" ok now d = d.
Proof.
  split; [| reflexivity].
  unfold recordSelectorOutcome, TaskExecutor.counters.
  destruct (String.eqb sel' ""); [rewrite andb_false_r; reflexivity |].
  rewrite andb_true_r. simpl. rewrite find_same_key_upsert.
  destruct (String.eqb D' D && String.eqb q' q && String.eqb sel' sel); [| reflexivity].
  destruct (List.find _ _) as [r |]; reflexivity.
Qed.

Lemma filter_eligible_upsert (D A D' A' S' : string) (ds df now : Z)
    (rows : list selector_row) :
  (D', A') <> (D, A) ->
  List.filter (eligible D A) (upsert_selector D' A' S' ds df now rows)
  = List.filter (eligible D A) rows.
Proof.
  intros Hk.
  assert (forall r n m t, s_domain r = D' -> action_name r = A' ->
            eligible D A {| s_domain := s_domain r; action_name := action_name r;
                            s_selector := s_selector r; success_count := n;
                            fail_count := m; last_used := t |} = false) as Off.
  { intros r n m t Hd Ha. unfold eligible. simpl.
    destruct (String.eqb (s_domain r) D) eqn:E1; [| reflexivity].
    destruct (String.eqb (action_name r) A) eqn:E2; [| reflexivity].
    apply String.eqb_eq in E1, E2. exfalso. apply Hk. congruence. }
  induction rows as [| r rest IH]; simpl.
  - rewrite (Off {| s_domain := D'; action_name := A'; s_selector := S';
                    success_count := ds; fail_count := df; last_used := now |});
      reflexivity.
  - destruct (same_key D' A' S' r) eqn:K; simpl.
    + apply same_key_spec in K. injection K as Hd Ha _.
      rewrite (Off r _ _ _ Hd Ha).
      assert (eligible D A r = false) as ->; [| reflexivity].
      destruct r as [rd ra rs n m t]. simpl in *. apply (Off (Build_selector_row rd ra rs n m t)); assumption.
    + rewrite IH. reflexivity.
Qed.

(** X7. Keys do not interfere: an outcome recorded under another domain
    or another action leaves the answer of [getBestSelector] for this
    domain and action as it was. *)
Theorem getBestSelector_other_key (D A D' A' S' : string) (ok : bool) (now : Z) (d : db) :
  (D', A') <> (D, A) ->
  getBestSelector D A (recordSelectorOutcome D' A' S' ok now d) = getBestSelector D A d.
Proof.
  intros Hk. unfold getBestSelector, recordSelectorOutcome.
  destruct (String.eqb S' ""); [reflexivity |]. simpl.
  rewrite filter_eligible_upsert by exact Hk. reflexivity.
Qed.

Lemma rate_at_least_half (r : selector_row) :
  0 < attempts r -> ((1 # 2 <= rate r)%Q <-> fail_count r <= success_count r).
Proof.
  unfold rate. intros H.
  remember (attempts r) as a eqn:Ha. destruct a as [| p | p]; try lia.
  rewrite <- Qmake_Qdiv. unfold Qle. simpl. unfold attempts in Ha. lia.
Qed.

(** X8. A selector that failed more often than it succeeded is never
    returned; and when a key has a single record, [getBestSelector]
    returns its selector exactly when it has at least two attempts and
    at least as many successes as failures. *)
Theorem getBestSelector_needs_more_successes (d : db) (r : selector_row) :
  unique_keys (selector_library d) ->
  In r (selector_library d) ->
  (success_count r < fail_count r ->
   getBestSelector (s_domain r) (action_name r) d <> Some (s_selector r))
  /\ ((forall r', In r' (selector_library d) -> s_domain r' = s_domain r ->
                  action_name r' = action_name r -> r' = r) ->
      (getBestSelector (s_domain r) (action_name r) d = Some (s_selector r)
       <-> 2 <= attempts r /\ fail_count r <= success_count r)).
Proof.
  intros U Hin. split.
  - intros Hf H. apply getBestSelector_Some in H as (r0 & F & Hs & Hr).
    apply first_ranked_In, filter_eligible_In in F as (Hin0 & Hd & Ha & Hn).
    assert (r0 = r) as ->.
    { apply (unique_keys_inj _ _ _ U Hin0 Hin). unfold key_of. congruence. }
    apply rate_at_least_half in Hr; lia.
  - intros Only. split.
    + intros H. apply getBestSelector_Some in H as (r0 & F & Hs & Hr).
      apply first_ranked_In, filter_eligible_In in F as (Hin0 & Hd & Ha & Hn).
      rewrite (Only r0 Hin0 Hd Ha) in *.
      split; [exact Hn | apply rate_at_least_half in Hr; lia].
    + intros [Hn Hf].
      destruct (getBestSelector (s_domain r) (action_name r) d) as [sel |] eqn:G.
      * apply getBestSelector_Some in G as (r0 & F & Hs & _).
        apply first_ranked_In, filter_eligible_In in F as (Hin0 & Hd & Ha & _).
        rewrite (Only r0 Hin0 Hd Ha) in Hs. congruence.
      * exfalso.
        pose proof (proj1 (getBestSelector_None _ _ _) G r Hin eq_refl eq_refl Hn) as Hlt.
        assert (1 # 2 <= rate r)%Q as Hge by (apply rate_at_least_half; lia).
        apply (Qlt_irrefl (rate r)). eapply Qlt_le_trans; eassumption.
Qed.

(** *** Site profiles *)

Lemma includes_In (l : list string) (x : string) : includes l x = true <-> In x l.
Proof.
  unfold includes. rewrite List.existsb_exists. split.
  - intros (y & Hy & E). apply String.eqb_eq in E. subst. exact Hy.
  - intros H. exists x. split; [exact H | apply String.eqb_refl].
Qed.

Lemma includes_not_In (l : list string) (x : string) : includes l x = false <-> ~ In x l.
Proof. rewrite <- includes_In. destruct (includes l x); split; congruence. Qed.

Lemma profile_of_upsert (domain : string) (types notes' : list string) (now : Z)
    (rows : list profile_row) (d d' : db) :
  site_profiles d = rows ->
  site_profiles d' = upsert_profile domain types notes' now rows ->
  profile_of domain d' =
    Some {| p_domain := domain; page_types := types; notes := notes';
            p_last_updated := now |}
  /\ forall other, other <> domain -> profile_of other d' = profile_of other d.
Proof.
  unfold profile_of. intros -> ->. split.
  - induction rows as [| r rest IH]; simpl.
    + rewrite String.eqb_refl. reflexivity.
    + destruct (String.eqb (p_domain r) domain) eqn:E; simpl.
      * rewrite String.eqb_refl. reflexivity.
      * rewrite E. exact IH.
  - intros other Ho. induction rows as [| r rest IH]; simpl.
    + destruct (String.eqb domain other) eqn:E; [| reflexivity].
      apply String.eqb_eq in E. congruence.
    + destruct (String.eqb (p_domain r) domain) eqn:E; simpl.
      * apply String.eqb_eq in E.
        destruct (String.eqb domain other) eqn:E1;
          [apply String.eqb_eq in E1; congruence |].
        rewrite E, E1. reflexivity.
      * rewrite IH. reflexivity.
Qed.

(** The notes [updateSiteProfile] files, from the notes on file. *)
Lemma updateSiteProfile_profile (domain pageType : string) (note : option string)
    (now : Z) (d : db) :
  let d' := updateSiteProfile domain pageType note now d in
  types_of domain d' =
    (if includes (types_of domain d) pageType then types_of domain d
     else (types_of domain d ++ [pageType])%list)
  /\ notes_of domain d' =
    match truthy note with
    | Some n =>
        if includes (notes_of domain d) n then notes_of domain d
        else if (20 <? length (notes_of domain d ++ [n]))%nat
             then tl (notes_of domain d ++ [n])
             else (notes_of domain d ++ [n])%list
    | None => notes_of domain d
    end
  /\ forall other, other <> domain -> profile_of other d' = profile_of other d.
Proof.
  intros d'.
  destruct (profile_of_upsert domain
              (let pageTypes := types_of domain d in
               if includes pageTypes pageType then pageTypes
               else (pageTypes ++ [pageType])%list)
              (match truthy note with
               | Some n =>
                   if includes (notes_of domain d) n then notes_of domain d
                   else if (20 <? length (notes_of domain d ++ [n]))%nat
                        then tl (notes_of domain d ++ [n])
                        else (notes_of domain d ++ [n])%list
               | None => notes_of domain d
               end)
              now (site_profiles d) d d' eq_refl) as [Hp Ho].
  { unfold d', updateSiteProfile, types_of, notes_of, profile_of. simpl.
    destruct (List.find _ _); reflexivity. }
  unfold types_of at 1, notes_of at 1. rewrite Hp. simpl. repeat split. exact Ho.
Qed.

Lemma updateSiteProfile_files_type (domain pageType : string) (note : option string)
    (now : Z) (d : db) :
  In pageType (types_of domain (updateSiteProfile domain pageType note now d)).
Proof.
  destruct (updateSiteProfile_profile domain pageType note now d) as (-> & _).
  destruct (includes _ _) eqn:E; [apply includes_In; exact E |].
  apply List.in_or_app. right. left. reflexivity.
Qed.

Lemma updateSiteProfile_files_note (domain pageType : string) (note : option string)
    (now : Z) (d : db) (n : string) :
  truthy note = Some n ->
  In n (notes_of domain (updateSiteProfile domain pageType note now d)).
Proof.
  intros Hnote.
  destruct (updateSiteProfile_profile domain pageType note now d) as (_ & -> & _).
  rewrite Hnote. destruct (includes _ n) eqn:E; [apply includes_In; exact E |].
  destruct (20 <? _)%nat eqn:L.
  - apply Nat.ltb_lt in L. rewrite List.length_app in L. simpl in L.
    destruct (notes_of domain d) as [| o rest]; [simpl in L; lia |].
    simpl. apply List.in_or_app. right. left. reflexivity.
  - apply List.in_or_app. right. left. reflexivity.
Qed.

(** X9. What a profile update leaves on file: the page type is on file,
    no page type is forgotten, a non-empty note is on file, and the
    profiles of other domains are untouched.  A note not yet on file is
    appended last; when twenty notes were on file the oldest is dropped
    to make room. *)
Theorem updateSiteProfile_effect (domain pageType : string) (note : option string)
    (now : Z) (d : db) :
  let d' := updateSiteProfile domain pageType note now d in
  let old := notes_of domain d in
  In pageType (types_of domain d')
  /\ (forall t, In t (types_of domain d) -> In t (types_of domain d'))
  /\ (forall n, truthy note = Some n ->
        In n (notes_of domain d')
        /\ (~ In n old -> (length old < 20)%nat -> notes_of domain d' = (old ++ [n])%list)
        /\ (~ In n old -> length old = 20%nat -> notes_of domain d' = (tl old ++ [n])%list)
        /\ (In n old -> notes_of domain d' = old))
  /\ (truthy note = None -> notes_of domain d' = old)
  /\ (forall other, other <> domain -> profile_of other d' = profile_of other d).
Proof.
  intros d' old.
  destruct (updateSiteProfile_profile domain pageType note now d) as (Ht & Hn & Ho).
  fold d' in Ht, Hn, Ho. fold old in Hn.
  split; [| split; [| split; [| split; [| exact Ho]]]].
  - rewrite Ht. destruct (includes _ _) eqn:E; [apply includes_In; exact E |].
    apply List.in_or_app. right. left. reflexivity.
  - intros t H. rewrite Ht. destruct (includes _ _); [exact H |].
    apply List.in_or_app. left. exact H.
  - intros n Hnote. rewrite Hnote in Hn. rewrite Hn.
    destruct (includes old n) eqn:E.
    + apply includes_In in E. repeat split; try tauto.
    + apply includes_not_In in E. rewrite List.length_app. simpl.
      destruct (20 <? length old + 1)%nat eqn:L.
      * apply Nat.ltb_lt in L.
        destruct old as [| o rest]; [simpl in L; lia |].
        split; [apply List.in_or_app; right; left; reflexivity |].
        split; [intros _ Hl; simpl in *; lia |].
        split; [reflexivity | intros Hin; contradiction].
      * apply Nat.ltb_ge in L.
        split; [apply List.in_or_app; right; left; reflexivity |].
        split; [reflexivity |].
        split; [intros _ Hl; lia | intros Hin; contradiction].
  - intros Hnote. rewrite Hnote in Hn. exact Hn.
Qed.

Lemma updateSiteProfile_unfold (domain pageType : string) (note : option string)
    (now : Z) (d : db) :
  updateSiteProfile domain pageType note now d =
  {| site_knowledge := site_knowledge d; page_model_cache := page_model_cache d;
     selector_library := selector_library d;
     site_profiles :=
       upsert_profile domain (types_of domain (updateSiteProfile domain pageType note now d))
         (notes_of domain (updateSiteProfile domain pageType note now d)) now
         (site_profiles d) |}.
Proof.
  destruct (updateSiteProfile_profile domain pageType note now d) as (-> & -> & _).
  unfold updateSiteProfile, types_of, notes_of, profile_of.
  destruct (List.find _ _); reflexivity.
Qed.

Lemma upsert_profile_twice (domain : string) (types notes' : list string) (now : Z)
    (rows : list profile_row) :
  upsert_profile domain types notes' now (upsert_profile domain types notes' now rows)
  = upsert_profile domain types notes' now rows.
Proof.
  induction rows as [| r rest IH]; simpl.
  - rewrite String.eqb_refl. reflexivity.
  - destruct (String.eqb (p_domain r) domain) eqn:E; simpl.
    + rewrite String.eqb_refl. reflexivity.
    + rewrite E, IH. reflexivity.
Qed.

(** X10. A profile update is idempotent: repeating it with the same
    arguments at the same clock changes nothing further, whether or not
    the first call had to drop a note. *)
Theorem updateSiteProfile_idempotent (domain pageType : string) (note : option string)
    (now : Z) (d : db) :
  updateSiteProfile domain pageType note now (updateSiteProfile domain pageType note now d)
  = updateSiteProfile domain pageType note now d.
Proof.
  set (d' := updateSiteProfile domain pageType note now d).
  pose proof (updateSiteProfile_files_type domain pageType note now d) as Hin.
  pose proof (updateSiteProfile_files_note domain pageType note now d) as Hnote.
  fold d' in Hin, Hnote.
  destruct (updateSiteProfile_profile domain pageType note now d') as (Ht & Hn & _).
  rewrite (proj2 (includes_In _ _) Hin) in Ht.
  assert (notes_of domain (updateSiteProfile domain pageType note now d')
          = notes_of domain d') as Hn'.
  { rewrite Hn. destruct (truthy note) as [n |] eqn:E; [| reflexivity].
    rewrite (proj2 (includes_In _ _) (Hnote n eq_refl)). reflexivity. }
  pose proof (updateSiteProfile_unfold domain pageType note now d) as Hd. fold d' in Hd.
  rewrite (updateSiteProfile_unfold domain pageType note now d'). rewrite Ht, Hn'.
  assert (site_profiles d' =
          upsert_profile domain (types_of domain d') (notes_of domain d') now
            (site_profiles d)) as -> by (rewrite Hd at 1; reflexivity).
  rewrite upsert_profile_twice.
  change (site_knowledge d') with (site_knowledge d).
  change (page_model_cache d') with (page_model_cache d).
  change (selector_library d') with (selector_library d).
  symmetry. exact Hd.
Qed.

Lemma notes_step_ok (notes0 : list string) (n : string) :
  (length notes0 <= 20)%nat -> List.NoDup notes0 -> ~ In n notes0 ->
  let pushed := (notes0 ++ [n])%list in
  let kept := if (20 <? length pushed)%nat then tl pushed else pushed in
  (length kept <= 20)%nat /\ List.NoDup kept.
Proof.
  intros Hl Hd Hn pushed kept.
  assert (List.NoDup pushed) as Hp.
  { apply List.NoDup_app; [exact Hd | repeat constructor; intros [] |].
    intros a Ha [<- | []]. contradiction. }
  assert (length pushed = S (length notes0)) as Hlen
    by (unfold pushed; rewrite List.length_app; simpl; lia).
  unfold kept. destruct (20 <? length pushed)%nat eqn:L.
  - destruct pushed as [| a rest]; [simpl in Hlen; lia |].
    simpl in *. split; [lia |]. apply List.NoDup_cons_iff in Hp. tauto.
  - apply Nat.ltb_ge in L. split; [exact L | exact Hp].
Qed.

Lemma upsert_profile_ok (domain : string) (types notes' : list string) (now : Z)
    (rows : list profile_row) :
  profiles_ok rows ->
  profile_ok {| p_domain := domain; page_types := types; notes := notes';
                p_last_updated := now |} ->
  profiles_ok (upsert_profile domain types notes' now rows).
Proof.
  unfold profiles_ok. intros [HF HD] Hfresh. revert HF HD.
  induction rows as [| r rest IH]; simpl; intros HF HD.
  - split; [constructor; [exact Hfresh | constructor] |].
    constructor; [intros [] | constructor].
  - apply Forall_cons in HF as [Hr HF].
    apply List.NoDup_cons_iff in HD as [Hnr HD].
    destruct (String.eqb (p_domain r) domain) eqn:E; simpl.
    + apply String.eqb_eq in E. subst domain.
      split; [constructor; assumption | constructor; assumption].
    + destruct (IH HF HD) as [IF ID].
      split; [constructor; assumption |].
      constructor; [| exact ID].
      intros Hin. apply Hnr.
      clear - Hin E.
      induction rest as [| x rest IHr]; simpl in *.
      * destruct Hin as [H | []]. apply String.eqb_neq in E. congruence.
      * destruct (String.eqb (p_domain x) domain) eqn:Ex; simpl in *.
        -- apply String.eqb_eq in Ex. destruct Hin as [H | H]; [| tauto].
           apply String.eqb_neq in E. congruence.
        -- destruct Hin as [H | H]; [tauto | right; apply IHr; exact H].
Qed.

(** X11. The bound on notes is an invariant: from a profile table with
    one row a domain, at most twenty notes a row and no note or page
    type twice, [updateSiteProfile] leads to such a table again; the
    empty table is one. *)
Theorem updateSiteProfile_keeps_profiles_ok (domain pageType : string)
    (note : option string) (now : Z) (d : db) :
  profiles_ok (site_profiles d) ->
  profiles_ok (site_profiles (updateSiteProfile domain pageType note now d))
  /\ profiles_ok (site_profiles empty_db).
Proof.
  intros Hok. split; [| split; constructor].
  assert (Hold : (length (notes_of domain d) <= 20)%nat
                 /\ List.NoDup (notes_of domain d) /\ List.NoDup (types_of domain d)).
  { unfold notes_of, types_of, profile_of.
    destruct (List.find _ _) as [r |] eqn:F.
    - apply List.find_some in F as [Hin _].
      destruct Hok as [HF _]. rewrite List.Forall_forall in HF. apply (HF r Hin).
    - simpl. repeat split; try constructor. lia. }
  destruct Hold as (Hl & Hn & Ht).
  rewrite updateSiteProfile_unfold. simpl.
  apply upsert_profile_ok; [exact Hok |].
  destruct (updateSiteProfile_profile domain pageType note now d) as (-> & -> & _).
  unfold profile_ok. simpl. split; [| split].
  - destruct (truthy note) as [n |]; [| exact Hl].
    destruct (includes _ n) eqn:E; [exact Hl |].
    apply includes_not_In in E. apply (notes_step_ok _ n Hl Hn E).
  - destruct (truthy note) as [n |]; [| exact Hn].
    destruct (includes _ n) eqn:E; [exact Hn |].
    apply includes_not_In in E. apply (notes_step_ok _ n Hl Hn E).
  - destruct (includes _ pageType) eqn:E; [exact Ht |].
    apply includes_not_In in E.
    apply List.NoDup_app; [exact Ht | repeat constructor; intros [] |].
    intros a Ha [<- | []]. contradiction.
Qed.

(** *** Visit counts *)

Lemma visits_of_incrementVisitCount (domain : string) (now : Z) (d : db) :
  visits_of domain (incrementVisitCount domain now d) = visits_of domain d + 1.
Proof.
  unfold visits_of, incrementVisitCount. simpl.
  induction (site_knowledge d) as [| r rest IH]; simpl.
  - rewrite String.eqb_refl. reflexivity.
  - destruct (String.eqb (k_domain r) domain) eqn:E; simpl; rewrite E; [reflexivity | exact IH].
Qed.

(** X12. Visits are counted per domain: [incrementVisitCount] raises the
    domain's count by one, from zero for an unknown domain, and leaves
    every other domain's count and the rest of the database alone. *)
Theorem incrementVisitCount_counts (domain : string) (now : Z) (d : db) :
  let d' := incrementVisitCount domain now d in
  visits_of domain d' = visits_of domain d + 1
  /\ (forall other, other <> domain -> visits_of other d' = visits_of other d)
  /\ page_model_cache d' = page_model_cache d
  /\ selector_library d' = selector_library d
  /\ site_profiles d' = site_profiles d.
Proof.
  simpl. unfold visits_of, incrementVisitCount. simpl. repeat split.
  - induction (site_knowledge d) as [| r rest IH]; simpl.
    + rewrite String.eqb_refl. reflexivity.
    + destruct (String.eqb (k_domain r) domain) eqn:E; simpl; rewrite E; [reflexivity | exact IH].
  - intros other Ho. induction (site_knowledge d) as [| r rest IH]; simpl.
    + destruct (String.eqb domain other) eqn:E; [| reflexivity].
      apply String.eqb_eq in E. congruence.
    + destruct (String.eqb (k_domain r) domain) eqn:E; simpl.
      * destruct (String.eqb (k_domain r) other) eqn:E'; [| reflexivity].
        apply String.eqb_eq in E, E'. congruence.
      * destruct (String.eqb (k_domain r) other); [reflexivity | exact IH].
Qed.

End StoreUpkeep.

(** ** More of the store: digest, sessions, statistics *)

Section DigestFacts.
Import SiteMemoryStore.

Context (knownSelectors : list selector_row -> string -> list (string * string)).
Context (visit_count_in : string -> Z).
Context (show_number : Z -> string).

Abbreviation digest := (SiteMemoryStore.buildLLMContext knownSelectors visit_count_in show_number).

Lemma known_visits_incrementVisitCount (domain other : string) (now : Z) (d : db) :
  visit_count_in "{}" = 0 ->
  known_visits visit_count_in other (incrementVisitCount domain now d)
  = known_visits visit_count_in other d.
Proof.
  intros H0. unfold known_visits, incrementVisitCount. simpl.
  induction (site_knowledge d) as [| r rest IH]; simpl.
  - destruct (String.eqb domain other); [exact H0 | reflexivity].
  - destruct (String.eqb (k_domain r) domain) eqn:E; simpl.
    + destruct (String.eqb (k_domain r) other); reflexivity.
    + destruct (String.eqb (k_domain r) other); [reflexivity | exact IH].
Qed.

(** X13. The visits the executor counts never reach the digest:
    [incrementVisitCount] writes the [visit_count] column, the digest
    reads [visit_count] out of the stored [data] text, which
    [incrementVisitCount] creates as ["{}"] and never rewrites; so the
    digest of every domain is the same before and after. *)
Theorem visit_counts_never_reach_the_digest (domain other : string) (now : Z) (d : db) :
  visit_count_in "{}" = 0 ->
  digest other (incrementVisitCount domain now d) = digest other d
  /\ visits_of domain (incrementVisitCount domain now d) = visits_of domain d + 1.
Proof.
  intros H0. split.
  - unfold SiteMemoryStore.buildLLMContext, digest_lines.
    rewrite !known_visits_incrementVisitCount by exact H0. reflexivity.
  - apply visits_of_incrementVisitCount.
Qed.

(** X14. Absent means nothing known, and one profile update is enough to
    be known: with no profile, no visits on file and no known selector
    the digest is absent; after [updateSiteProfile] for the domain it is
    present. *)
Theorem digest_absent_or_present (domain pageType : string) (note : option string)
    (now : Z) (d : db) :
  (profile_of domain d = None -> known_visits visit_count_in domain d = 0 ->
   knownSelectors (selector_library d) domain = [] -> digest domain d = None)
  /\ digest domain (updateSiteProfile domain pageType note now d) <> None.
Proof.
  split.
  - intros Hp Hv Hk. unfold SiteMemoryStore.buildLLMContext. rewrite Hp, Hv, Hk. reflexivity.
  - pose proof (updateSiteProfile_files_type domain pageType note now d) as Hin.
    unfold SiteMemoryStore.buildLLMContext, digest_lines.
    unfold types_of in Hin.
    destruct (profile_of domain (updateSiteProfile domain pageType note now d))
      as [row |]; [| destruct Hin].
    simpl.
    destruct (page_types row) as [| t ts]; [destruct Hin |]. simpl.
    destruct (0 <? known_visits _ _ _); simpl; discriminate.
Qed.

End DigestFacts.

Section SessionFacts.
Import SiteMemoryStore.

Context (stringify_session : AgentSession -> string).
Context (parse_session : string -> AgentSession).

Abbreviation save := (SiteMemoryStore.saveSession stringify_session).
Abbreviation get := (SiteMemoryStore.getSession parse_session).

Lemma find_upsert_session (i data : string) (created active : Z) (rows : list session_row) :
  List.find (has_id i) (upsert_session i data created active rows) =
  Some match List.find (has_id i) rows with
       | Some r => {| sess_id := sess_id r; sess_data := data;
                      sess_created_at := sess_created_at r; sess_last_active := active |}
       | None => {| sess_id := i; sess_data := data; sess_created_at := created;
                    sess_last_active := active |}
       end.
Proof.
  unfold has_id. induction rows as [| r rest IH]; simpl.
  - rewrite String.eqb_refl. reflexivity.
  - destruct (String.eqb (sess_id r) i) eqn:E; simpl; rewrite E; [reflexivity | exact IH].
Qed.

Lemma find_upsert_session_other (i other data : string) (created active : Z)
    (rows : list session_row) :
  other <> i ->
  List.find (has_id other) (upsert_session i data created active rows)
  = List.find (has_id other) rows.
Proof.
  unfold has_id. intros Ho. induction rows as [| r rest IH]; simpl.
  - destruct (String.eqb i other) eqn:E; [| reflexivity].
    apply String.eqb_eq in E. congruence.
  - destruct (String.eqb (sess_id r) i) eqn:E; simpl.
    + destruct (String.eqb (sess_id r) other) eqn:E'; [| reflexivity].
      apply String.eqb_eq in E, E'. congruence.
    + destruct (String.eqb (sess_id r) other); [reflexivity | exact IH].
Qed.

(** X15. Saved sessions: a session that survives the JSON codec is read
    back under its id after [saveSession], replacing what was saved
    there; other ids are unaffected; the [created_at] column of a row
    that existed is the one of its first save; and after
    [deleteSession] the id reads absent while other ids read as before. *)
Theorem session_save_get_delete (session : AgentSession) (rows : list session_row) :
  parse_session (stringify_session session) = session ->
  get (session_id session) (save session rows) = Some session
  /\ (forall other, other <> session_id session ->
        get other (save session rows) = get other rows)
  /\ (forall r, List.find (has_id (session_id session)) rows = Some r ->
        option_map sess_created_at
          (List.find (has_id (session_id session)) (save session rows))
        = Some (sess_created_at r))
  /\ (forall i, get i (deleteSession i rows) = None)
  /\ (forall i other, other <> i -> get other (deleteSession i rows) = get other rows).
Proof.
  intros RT. unfold SiteMemoryStore.getSession, SiteMemoryStore.saveSession.
  split; [| split; [| split; [| split]]].
  - change (fun r => String.eqb (sess_id r) (session_id session))
      with (has_id (session_id session)).
    rewrite find_upsert_session.
    destruct (List.find _ rows); simpl; rewrite RT; reflexivity.
  - intros other Ho.
    change (fun r => String.eqb (sess_id r) other) with (has_id other).
    rewrite find_upsert_session_other by exact Ho. reflexivity.
  - intros r Hr. rewrite find_upsert_session, Hr. reflexivity.
  - intros i. unfold deleteSession.
    induction rows as [| r rest IH]; simpl; [reflexivity |].
    destruct (String.eqb (sess_id r) i) eqn:E; simpl; [exact IH |].
    rewrite E. exact IH.
  - intros i other Ho. unfold deleteSession.
    induction rows as [| r rest IH]; simpl; [reflexivity |].
    destruct (String.eqb (sess_id r) i) eqn:E; simpl.
    + destruct (String.eqb (sess_id r) other) eqn:E'; [| exact IH].
      apply String.eqb_eq in E, E'. congruence.
    + destruct (String.eqb (sess_id r) other); [reflexivity | exact IH].
Qed.

Lemma place_by_last_active_perm (r : session_row) (ordered : list session_row) :
  Permutation (r :: ordered) (place_by_last_active r ordered).
Proof.
  induction ordered as [| x rest IH]; simpl; [reflexivity |].
  destruct (sess_last_active x <? sess_last_active r); [reflexivity |].
  transitivity (x :: r :: rest); [apply perm_swap | apply perm_skip; exact IH].
Qed.

Lemma place_by_last_active_sorted (r : session_row) (ordered : list session_row) :
  latest_first ordered -> latest_first (place_by_last_active r ordered).
Proof.
  unfold latest_first.
  induction ordered as [| x rest IH]; simpl; intros H.
  - repeat constructor.
  - apply StronglySorted_inv in H as [Hrest Hx].
    destruct (sess_last_active x <? sess_last_active r) eqn:E.
    + apply Z.ltb_lt in E. constructor; [constructor; assumption |].
      constructor; [lia |].
      rewrite List.Forall_forall in Hx |- *. intros y Hy. specialize (Hx y Hy). lia.
    + apply Z.ltb_ge in E. constructor; [apply IH; exact Hrest |].
      rewrite List.Forall_forall in Hx |- *. intros y Hy.
      apply (Permutation_in _ (Permutation_sym (place_by_last_active_perm r rest))) in Hy.
      destruct Hy as [<- | Hy]; [exact E | apply Hx; exact Hy].
Qed.


End SessionFacts.

Section StatsFacts.
Import SiteMemoryStore.

(** X17. What the statistics count: recording an outcome for a
    non-empty selector raises [actions] by one exactly when the key is
    new, and raises [known_selectors] by one exactly when the key had
    one attempt on record, its second attempt making it known; a first
    outcome never makes a selector known. *)
Theorem getStats_after_outcome (D A S : string) (ok : bool) (now : Z) (d : db)
    (sessions : list session_row) :
  S <> "" ->
  let old := List.find (same_key D A S) (selector_library d) in
  let before := getStats d sessions in
  let after := getStats (recordSelectorOutcome D A S ok now d) sessions in
  stat_actions after =
    (stat_actions before + match old with None => 1 | Some _ => 0 end)%nat
  /\ stat_known_selectors after =
    (stat_known_selectors before
     + match old with
       | Some r => if (attempts r =? 1)%Z then 1 else 0
       | None => 0
       end)%nat
  /\ stat_cached_pages after = stat_cached_pages before
  /\ stat_domains after = stat_domains before.
Proof.
  intros HS. apply String.eqb_neq in HS. simpl.
  unfold recordSelectorOutcome. rewrite HS. simpl.
  split; [| split; [| split; reflexivity]].
  - induction (selector_library d) as [| r rest IH]; simpl; [reflexivity |].
    destruct (same_key D A S r); simpl; [lia | rewrite IH; lia].
  - induction (selector_library d) as [| r rest IH]; simpl.
    + unfold attempts. simpl. destruct ok; reflexivity.
    + destruct (same_key D A S r) eqn:K; simpl.
      * unfold attempts. simpl.
        destruct (Z.eqb_spec (success_count r + fail_count r) 1) as [E | E].
        -- rewrite E.
           assert ((2 <=? success_count r + (if ok then 1 else 0)
                          + (fail_count r + (if ok then 0 else 1))) = true) as ->
             by (apply Z.leb_le; destruct ok; lia).
           simpl. lia.
        -- destruct (2 <=? success_count r + fail_count r) eqn:L.
           ++ apply Z.leb_le in L.
              assert ((2 <=? success_count r + (if ok then 1 else 0)
                             + (fail_count r + (if ok then 0 else 1))) = true) as ->
                by (apply Z.leb_le; destruct ok; lia).
              simpl. lia.
           ++ apply Z.leb_gt in L.
              assert ((2 <=? success_count r + (if ok then 1 else 0)
                             + (fail_count r + (if ok then 0 else 1))) = false) as ->
                by (apply Z.leb_gt; destruct ok; lia).
              lia.
      * destruct (2 <=? attempts r); simpl; rewrite IH; lia.
Qed.

End StatsFacts.

(** ** More of the executor *)

Section ExecutorUpkeep.
Import SiteMemoryStore TaskExecutor.

Context {W : Type}.
Context (engine : BrowserEngine.t W).
Context (analyzer : SemanticAnalyzer.t W).
Context (runtime : Runtime.t W).
Context (new_URL : string -> option URLRecord).
Context (JSON_stringify : SemanticPageModel -> string).
Context (JSON_parse : string -> SemanticPageModel).
Context (buildLLMContext : db -> string -> option string).
Context (toLowerCase : string -> string).

Abbreviation refreshModel :=
  (TaskExecutor.refreshModel engine analyzer runtime new_URL JSON_stringify JSON_parse
     buildLLMContext).
Abbreviation getPageState :=
  (TaskExecutor.getPageState engine analyzer runtime new_URL JSON_stringify JSON_parse
     buildLLMContext).
Abbreviation executeAction :=
  (TaskExecutor.executeAction engine analyzer runtime new_URL JSON_stringify JSON_parse
     buildLLMContext).
Abbreviation fillForm :=
  (TaskExecutor.fillForm engine analyzer runtime new_URL JSON_stringify JSON_parse
     buildLLMContext toLowerCase).
Abbreviation extract :=
  (TaskExecutor.extract engine analyzer runtime new_URL JSON_stringify JSON_parse
     buildLLMContext toLowerCase).
Abbreviation fill_form_fields := (TaskExecutor.fill_form_fields engine runtime toLowerCase).
Abbreviation performAction := (TaskExecutor.performAction engine).
Abbreviation learnFromAction := (TaskExecutor.learnFromAction runtime).
Abbreviation getDomain := (TaskExecutor.getDomain new_URL).
Abbreviation slept s := (with_world s (Runtime.setTimeout runtime 500 (world s))).

#[local] Existing Instance same_memory_preorder.

Lemma getPageState_stored (sessionId : string) (s : state) (model : SemanticPageModel) :
  pageModels s !! sessionId = Some model -> getPageState sessionId s = (Returned model, s).
Proof. intros H. unfold TaskExecutor.getPageState. rewrite H. reflexivity. Qed.

Lemma call_same_memory {A : Type} (op : W -> outcome A * W) :
  preserves same_memory (call op).
Proof.
  intros s r s'. unfold call. destruct (op (world s)) as [o w].
  intros [= _ <-]. repeat split.
Qed.

(** X18. An action the page does not offer is refused without a trace:
    [executeAction] returns the failure that lists the actions on offer
    and does nothing beyond obtaining the page state; with a model on
    file for the session nothing changes at all, the driver included. *)
Theorem unknown_action_changes_nothing (sessionId actionName : string)
    (params : list (string * JSON)) (s s1 : state) (model : SemanticPageModel) :
  getPageState sessionId s = (Returned model, s1) ->
  List.find (fun a => String.eqb (name a) actionName) (available_actions model) = None ->
  executeAction sessionId actionName params s
  = (Returned (errorResult ("Action '" +:+ actionName +:+ "' not available. Available: "
                            +:+ String.concat ", " (action_names model)) model), s1)
  /\ (pageModels s !! sessionId = Some model -> s1 = s).
Proof.
  intros Hstate Hfind. split.
  - unfold TaskExecutor.executeAction.
    rewrite (bind_returned _ _ _ _ _ Hstate). rewrite Hfind. reflexivity.
  - intros Hs. rewrite (getPageState_stored _ _ _ Hs) in Hstate. congruence.
Qed.

(** X19. A challenge that shows up after the action was carried out
    teaches nothing: [executeAction] returns the failure "CAPTCHA
    appeared after action." built on the model from before the action,
    and neither a success nor a failure is recorded; the database and
    the models on file are as they were before the action. *)
Theorem captcha_after_action_learns_nothing (sessionId actionName : string)
    (params : list (string * JSON)) (s s1 s2 s3 s4 : state) (model : SemanticPageModel)
    (action : ActionDefinition) (urlBefore : string) :
  getPageState sessionId s = (Returned model, s1) ->
  List.find (fun a => String.eqb (name a) actionName) (available_actions model)
    = Some action ->
  call (BrowserEngine.getCurrentUrl engine sessionId) s1 = (Returned urlBefore, s2) ->
  performAction sessionId action params (getDomain urlBefore) s2 = (Returned tt, s3) ->
  call (BrowserEngine.checkForCaptcha engine sessionId) (slept s3) = (Returned true, s4) ->
  executeAction sessionId actionName params s
  = (Returned (errorResult "CAPTCHA appeared after action." model), s4)
  /\ memory s4 = memory s2
  /\ pageModels s4 = pageModels s2.
Proof.
  intros Hstate Hfind Hurl Hact Hcap.
  assert (same_memory s2 s4) as (Hmem & Hmodels & _).
  { transitivity s3; [apply (performAction_same_memory _ _ _ _ _ _ _ _ Hact) |].
    transitivity (slept s3); [repeat split |].
    apply (call_same_memory _ _ _ _ Hcap). }
  split; [| split; assumption].
  unfold TaskExecutor.executeAction.
  rewrite (bind_returned _ _ _ _ _ Hstate). rewrite Hfind.
  rewrite (bind_returned _ _ _ _ _ Hurl).
  apply try_catch_returned. unfold TaskExecutor.attempt.
  rewrite (bind_returned _ _ _ _ _ Hact).
  rewrite (bind_returned _ _ s3 (slept s3) tt eq_refl).
  rewrite (bind_returned _ _ _ _ _ Hcap). reflexivity.
Qed.

Lemma counters_recordSelectorOutcome_any (domain q sel q' sel' : string) (ok : bool)
    (now : Z) (d : db) :
  sel' <> "" ->
  counters domain q sel (recordSelectorOutcome domain q' sel' ok now d) =
  if String.eqb q' q && String.eqb sel' sel
  then (fst (counters domain q sel d) + (if ok then 1 else 0),
        snd (counters domain q sel d) + (if ok then 0 else 1))
  else counters domain q sel d.
Proof.
  intros H. apply String.eqb_neq in H.
  apply (counters_upsert domain q sel q' sel' _ _ now (selector_library d) d);
    [reflexivity |].
  unfold recordSelectorOutcome. rewrite H. reflexivity.
Qed.

Lemma counters_recordAll_any (domain q sel : string) (ok : bool) (now : Z)
    (targets : list (string * string)) (d : db) :
  Forall (fun t => snd t <> "") targets ->
  counters domain q sel (recordAll domain ok now targets d) =
  (fst (counters domain q sel d)
     + (if ok then Z.of_nat (occurrences q sel targets) else 0),
   snd (counters domain q sel d)
     + (if ok then 0 else Z.of_nat (occurrences q sel targets))).
Proof.
  unfold recordAll, occurrences. revert d.
  induction targets as [| t rest IH]; intros d HF; simpl.
  - destruct ok; rewrite !Z.add_0_r; destruct (counters domain q sel d); reflexivity.
  - apply Forall_cons in HF as [Ht HF]. rewrite (IH _ HF).
    rewrite counters_recordSelectorOutcome_any by exact Ht.
    destruct (String.eqb (fst t) q && String.eqb (snd t) sel); destruct ok; simpl;
      f_equal; lia.
Qed.

Lemma counters_updateSiteProfile (domain q sel D pageType : string) (note : option string)
    (now : Z) (d : db) :
  counters domain q sel (updateSiteProfile D pageType note now d) = counters domain q sel d.
Proof. reflexivity. Qed.

(** X20. What a successful action teaches: when the action is carried
    out, no challenge shows and the page is read again, [executeAction]
    returns success with the state change between the two models; the
    page cache of the domain is emptied first exactly when the address
    changed; one success is recorded for every key the hint carries;
    and the page type reached and a note on the transition are on the
    domain's profile. *)
Theorem executeAction_success_path (sessionId actionName : string)
    (params : list (string * JSON)) (s s1 s2 s3 s4 s5 s6 : state)
    (model newModel : SemanticPageModel) (action : ActionDefinition)
    (urlBefore urlAfter : string) :
  getPageState sessionId s = (Returned model, s1) ->
  List.find (fun a => String.eqb (name a) actionName) (available_actions model)
    = Some action ->
  call (BrowserEngine.getCurrentUrl engine sessionId) s1 = (Returned urlBefore, s2) ->
  let domain := getDomain urlBefore in
  performAction sessionId action params domain s2 = (Returned tt, s3) ->
  call (BrowserEngine.checkForCaptcha engine sessionId) (slept s3) = (Returned false, s4) ->
  call (BrowserEngine.getCurrentUrl engine sessionId) s4 = (Returned urlAfter, s5) ->
  refreshModel sessionId
    (if String.eqb urlAfter urlBefore then s5
     else with_memory s5 (invalidateCache domain (memory s5)))
    = (Returned newModel, s6) ->
  let now := Runtime.Date_now runtime (world s6) in
  let targets := hint_selectors actionName action in
  let note := "action '" +:+ actionName +:+ "' on " +:+ page_type model
              +:+ " leads to " +:+ page_type newModel in
  let final :=
    updateSiteProfile domain (page_type newModel) (Some note) now
      (recordAll domain true now targets (memory s6)) in
  executeAction sessionId actionName params s
  = (Returned {| success := true;
                 state_change := buildStateChange urlBefore urlAfter model newModel;
                 error := None;
                 next_available_actions := action_names newModel |},
     with_memory s6 final)
  /\ (forall q sel,
        counters domain q sel final
        = (fst (counters domain q sel (memory s6)) + Z.of_nat (occurrences q sel targets),
           snd (counters domain q sel (memory s6))))
  /\ In note (notes_of domain final)
  /\ In (page_type newModel) (types_of domain final).
Proof.
  intros Hstate Hfind Hurl domain Hact Hcap Hafter Hrefresh now targets note final.
  split; [| split; [| split]].
  - unfold TaskExecutor.executeAction.
    rewrite (bind_returned _ _ _ _ _ Hstate). rewrite Hfind.
    rewrite (bind_returned _ _ _ _ _ Hurl). fold domain.
    apply try_catch_returned. unfold TaskExecutor.attempt.
    rewrite (bind_returned _ _ _ _ _ Hact).
    rewrite (bind_returned _ _ s3 (slept s3) tt eq_refl).
    rewrite (bind_returned _ _ _ _ _ Hcap). cbv beta iota.
    rewrite (bind_returned _ _ _ _ _ Hafter).
    rewrite (bind_returned _ _ s5
               (if String.eqb urlAfter urlBefore then s5
                else with_memory s5 (invalidateCache domain (memory s5))) tt).
    + rewrite (bind_returned _ _ _ _ _ Hrefresh).
      rewrite (bind_returned _ _ _ _ _ (learnFromAction_run _ _ _ _ _ _)).
      reflexivity.
    + destruct (String.eqb urlAfter urlBefore); reflexivity.
  - intros q sel. unfold final. rewrite counters_updateSiteProfile.
    rewrite (counters_recordAll_any domain q sel true now targets (memory s6)
               (hint_selectors_nonempty new_URL JSON_stringify JSON_parse actionName action)).
    rewrite Z.add_0_r. reflexivity.
  - apply updateSiteProfile_files_note. reflexivity.
  - apply updateSiteProfile_files_type.
Qed.

(** X21. A page served from the cache is not a visit: when the cache
    holds a live entry for the address, [refreshModel] returns the
    cached model and files it for the session without reading the page
    or asking the translator (the result is the same for every
    translator and digest); no visit is counted and no profile or
    selector record is touched. *)
Theorem cached_refresh_is_not_a_visit (sessionId : string) (s : state) (u : string)
    (w1 w2 : W) (model : SemanticPageModel) (d' : db) :
  BrowserEngine.getCurrentUrl engine sessionId (world s) = (Returned u, w1) ->
  BrowserEngine.checkForCaptcha engine sessionId w1 = (Returned false, w2) ->
  getCachedModel new_URL JSON_parse u (Runtime.Date_now runtime w2) (memory s)
    = (Some model, d') ->
  (forall (analyzer' : SemanticAnalyzer.t W) (digest' : db -> string -> option string),
     TaskExecutor.refreshModel engine analyzer' runtime new_URL JSON_stringify JSON_parse
       digest' sessionId s
     = (Returned model,
        {| world := w2; memory := d';
           pageModels := <[sessionId := model]> (pageModels s);
           sessions := sessions s |}))
  /\ site_knowledge d' = site_knowledge (memory s)
  /\ site_profiles d' = site_profiles (memory s)
  /\ selector_library d' = selector_library (memory s).
Proof.
  intros H1 H2 H3. split.
  - intros analyzer' digest'.
    unfold TaskExecutor.refreshModel, bind, call, lookup_cache, pageModels_set, ret.
    rewrite H1. simpl. rewrite H2. simpl. rewrite H3. reflexivity.
  - revert H3. unfold getCachedModel.
    destruct (List.find _ _) as [row |]; [| discriminate].
    destruct (CACHE_TTL_MS <? _); intros [= _ <-]; repeat split.
Qed.

(** X22. A page that has to be analysed is a visit: when the cache
    misses and the page is read and translated, [refreshModel] counts
    one visit for the page's domain, puts the page type on the domain's
    profile, and leaves the profile's notes and the selector library as
    they were. *)
Theorem analysed_refresh_is_a_visit (sessionId : string) (s : state) (u html tree : string)
    (w1 w2 w3 w4 w5 : W) (model : SemanticPageModel) :
  BrowserEngine.getCurrentUrl engine sessionId (world s) = (Returned u, w1) ->
  BrowserEngine.checkForCaptcha engine sessionId w1 = (Returned false, w2) ->
  fst (getCachedModel new_URL JSON_parse u (Runtime.Date_now runtime w2) (memory s)) = None ->
  BrowserEngine.getPageHTML engine sessionId w2 = (Returned html, w3) ->
  BrowserEngine.getAccessibilityTree engine sessionId w3 = (Returned tree, w4) ->
  SemanticAnalyzer.analyze analyzer u html tree (buildLLMContext (memory s) (getDomain u)) w4
    = (Returned model, w5) ->
  exists s', refreshModel sessionId s = (Returned model, s')
    /\ visits_of (getDomain u) (memory s') = visits_of (getDomain u) (memory s) + 1
    /\ In (page_type model) (types_of (getDomain u) (memory s'))
    /\ notes_of (getDomain u) (memory s') = notes_of (getDomain u) (memory s)
    /\ selector_library (memory s') = selector_library (memory s).
Proof.
  intros H1 H2 H3 H4 H5 H6. apply getCachedModel_miss in H3.
  eexists. split; [| split; [| split; [| split]]].
  - unfold TaskExecutor.refreshModel, bind, call, lookup_cache, read, write,
      pageModels_set, ret.
    rewrite H1. simpl. rewrite H2. simpl. rewrite H3. simpl.
    rewrite H4. simpl. rewrite H5. simpl. rewrite H6. simpl. reflexivity.
  - cbn [memory with_memory].
    change (visits_of (getDomain u)
              (incrementVisitCount (getDomain u) (Runtime.Date_now runtime w5) (memory s))
            = visits_of (getDomain u) (memory s) + 1).
    apply visits_of_incrementVisitCount.
  - cbn [memory with_memory].
    match goal with
    | |- In _ (types_of _ (cacheModel _ _ _ _ _ ?d)) =>
        change (In (page_type model) (types_of (getDomain u) d))
    end.
    apply updateSiteProfile_files_type.
  - cbn [memory with_memory].
    match goal with
    | |- notes_of _ (cacheModel _ _ _ _ _ (updateSiteProfile ?D ?T ?N ?t ?d)) = _ =>
        change (notes_of (getDomain u) (updateSiteProfile D T N t d)
                = notes_of (getDomain u) (memory s));
        destruct (updateSiteProfile_profile D T N t d) as (_ & Hn & _)
    end.
    rewrite Hn. reflexivity.
  - reflexivity.
Qed.

(** *** Hints the executor does not use *)

Lemma occurrences_selector (actionName sel : string) (action : ActionDefinition)
    (internal : ActionInternal) :
  _internal action = Some internal -> truthy (selector internal) = Some sel ->
  (1 <= occurrences actionName sel (hint_selectors actionName action))%nat.
Proof.
  intros Hi Hs. unfold hint_selectors, occurrences. rewrite Hi, Hs. simpl.
  rewrite !String.eqb_refl. simpl. lia.
Qed.

(** X23. A hint of type [select], [scroll] or [custom] is never used to
    carry out its action, which goes through the learned selector
    instead; the hint's own selector is graded all the same: whatever
    the action's fate, [learnFromAction] books it on the selector the
    hint names. *)
Theorem unused_hint_is_still_graded (sessionId actionName sel domain : string)
    (action : ActionDefinition) (internal : ActionInternal)
    (params : list (string * JSON)) (ok : bool) (s : state) :
  _internal action = Some internal ->
  type internal = select \/ type internal = scroll \/ type internal = custom ->
  truthy (selector internal) = Some sel ->
  let booked := Z.of_nat (occurrences actionName sel (hint_selectors actionName action)) in
  let before := counters domain actionName sel (memory s) in
  performAction sessionId action params domain s
  = clickRemembered engine sessionId action domain s
  /\ counters domain actionName sel
       (memory (snd (learnFromAction domain actionName action ok s)))
     = (fst before + (if ok then booked else 0), snd before + (if ok then 0 else booked))
  /\ 1 <= booked.
Proof.
  intros Hint Htype Hsel booked before. split; [| split].
  - unfold TaskExecutor.performAction. rewrite Hint.
    destruct Htype as [-> | [-> | ->]]; reflexivity.
  - rewrite learnFromAction_run. cbn [snd memory with_memory].
    apply counters_recordAll_any.
    apply (hint_selectors_nonempty new_URL JSON_stringify JSON_parse).
  - pose proof (occurrences_selector actionName sel action internal Hint Hsel).
    unfold booked. lia.
Qed.

Lemma fill_fields_same_memory (sessionId : string) (entries : list (string * string))
    (params : list (string * JSON)) :
  preserves same_memory (fill_fields engine sessionId entries params).
Proof.
  apply preserves_fill_fields; [typeclasses eauto |].
  intros s w. repeat split.
Qed.


(** *** The state change reported *)

(** X25. The fields of a reported state change agree with one another:
    [navigated_to] is absent exactly when the address did not change
    and [page_type_changed] exactly when the page type did not; a
    changed authentication state implies a page type change away from
    [login]; a submitted form implies a navigation from a page with a
    form; and with neither a navigation nor a type change the summary
    is "Action completed." with the new status. *)
Theorem buildStateChange_consistent (urlBefore urlAfter : string)
    (before after : SemanticPageModel) :
  let change := buildStateChange urlBefore urlAfter before after in
  (navigated_to change = None <-> urlBefore = urlAfter)
  /\ (page_type_changed change = None <-> page_type before = page_type after)
  /\ (auth_state_changed change = Some true ->
        page_type before = "login"
        /\ page_type_changed change = Some {| from := "login"; to := page_type after |})
  /\ (form_submitted change = Some true ->
        navigated_to change = Some urlAfter /\ forms before <> [])
  /\ (navigated_to change = None -> page_type_changed change = None ->
        summary change = "Action completed. Page: " +:+ task_status after).
Proof.
  unfold buildStateChange, buildSummary.
  cbn [navigated_to page_type_changed auth_state_changed form_submitted summary].
  split; [| split; [| split; [| split]]].
  - destruct (String.eqb_spec urlBefore urlAfter); cbn [negb]; split; congruence.
  - destruct (String.eqb_spec (page_type before) (page_type after)); cbn [negb];
      split; congruence.
  - intros [= H]. apply andb_true_iff in H as [H1 H2].
    apply String.eqb_eq in H1. apply negb_true_iff, String.eqb_neq in H2.
    split; [exact H1 |].
    destruct (String.eqb_spec (page_type before) (page_type after)) as [E | E];
      cbn [negb]; [congruence | rewrite H1; reflexivity].
  - intros [= H]. apply andb_true_iff in H as [H1 H2]. rewrite H2.
    split; [reflexivity |]. intros E. rewrite E in H1. simpl in H1. discriminate.
  - destruct (String.eqb urlBefore urlAfter); cbn [negb]; [| discriminate].
    intros _.
    destruct (String.eqb (page_type before) (page_type after)); cbn [negb];
      [reflexivity | discriminate].
Qed.

(** *** The fallback model *)

(** X26. The one action of the fallback model cannot be run before a
    selector was learned for it: the model offers [extract_raw] without
    a hint, so with nothing remembered for the domain
    [executeAction] returns the "Cannot execute" failure, and since the
    action carries no hint the attempt records nothing. *)
Theorem fallback_action_needs_a_learned_selector (sessionId u urlBefore : string)
    (t : Z) (params : list (string * JSON)) (s : state) (w : W) :
  pageModels s !! sessionId = Some (SemanticAnalyzer.fallbackModel u t) ->
  BrowserEngine.getCurrentUrl engine sessionId (world s) = (Returned urlBefore, w) ->
  truthy (getBestSelector (getDomain urlBefore) "extract_raw" (memory s)) = None ->
  executeAction sessionId "extract_raw" params s
  = (Returned
       (errorResult
          ("Action 'extract_raw' failed: "
           +:+ "Cannot execute 'extract_raw' — no selector available. "
           +:+ "This action needs to be executed at least once with explicit selectors to learn from.")
          (SemanticAnalyzer.fallbackModel u t)),
     with_world s w).
Proof.
  intros Hs Hurl Hnone.
  unfold TaskExecutor.executeAction.
  rewrite (bind_returned _ _ _ _ _ (getPageState_stored _ _ _ Hs)).
  cbn [SemanticAnalyzer.fallbackModel available_actions List.find name].
  rewrite String.eqb_refl.
  rewrite (bind_returned _ _ s (with_world s w) urlBefore)
    by (unfold call; rewrite Hurl; reflexivity).
  rewrite (try_catch_thrown _ _ (with_world s w) (with_world s w)
             ("Cannot execute 'extract_raw' — no selector available. "
              +:+ "This action needs to be executed at least once with explicit selectors to learn from.")).
  - reflexivity.
  - unfold TaskExecutor.attempt. apply bind_thrown.
    unfold TaskExecutor.performAction, clickRemembered, bind, read.
    cbn [_internal name memory with_world]. fold getDomain. rewrite Hnone. reflexivity.
Qed.

(** *** Filling a form *)

Lemma recordSelectorOutcome_frame (domain q sel : string) (ok : bool) (now : Z) (d : db) :
  site_profiles (recordSelectorOutcome domain q sel ok now d) = site_profiles d
  /\ page_model_cache (recordSelectorOutcome domain q sel ok now d) = page_model_cache d
  /\ site_knowledge (recordSelectorOutcome domain q sel ok now d) = site_knowledge d.
Proof. unfold recordSelectorOutcome. destruct (String.eqb sel ""); repeat split. Qed.

Lemma fill_field_returned (sessionId domain fieldName sel value : string)
    (errors : list string) (s : state) (w : W) :
  BrowserEngine.fill engine sessionId sel value (world s) = (Returned tt, w) ->
  fill_field engine runtime sessionId domain fieldName sel value errors s
  = (Returned errors,
     with_memory (with_world s w)
       (recordSelectorOutcome domain ("fill_" +:+ fieldName) sel true
          (Runtime.Date_now runtime w) (memory s))).
Proof.
  intros H. unfold fill_field, try_catch, bind, call, recordOutcome, write, ret.
  rewrite H. reflexivity.
Qed.

Lemma fill_field_thrown (sessionId domain fieldName sel value message : string)
    (errors : list string) (s : state) (w : W) :
  BrowserEngine.fill engine sessionId sel value (world s) = (Thrown message, w) ->
  fill_field engine runtime sessionId domain fieldName sel value errors s
  = (Returned (errors ++ ["Could not fill '" +:+ fieldName +:+ "'"])%list,
     with_memory (with_world s w)
       (recordSelectorOutcome domain ("fill_" +:+ fieldName) sel false
          (Runtime.Date_now runtime w) (memory s))).
Proof.
  intros H. unfold fill_field, try_catch, bind, call, recordOutcome, write, ret.
  rewrite H. reflexivity.
Qed.

Lemma fill_field_run (sessionId domain fieldName sel value : string)
    (errors : list string) (s : state) :
  exists more s',
    fill_field engine runtime sessionId domain fieldName sel value errors s
    = (Returned (errors ++ more)%list, s')
    /\ (length more <= 1)%nat /\ only_selectors s s'.
Proof.
  destruct (BrowserEngine.fill engine sessionId sel value (world s))
    as [[[] | message] w] eqn:F.
  - exists [], (with_memory (with_world s w)
                  (recordSelectorOutcome domain ("fill_" +:+ fieldName) sel true
                     (Runtime.Date_now runtime w) (memory s))).
    rewrite app_nil_r. split; [apply fill_field_returned; exact F |].
    split; [simpl; lia |].
    destruct (recordSelectorOutcome_frame domain ("fill_" +:+ fieldName) sel true
                (Runtime.Date_now runtime w) (memory s)) as (H1 & H2 & H3).
    repeat split; assumption.
  - exists ["Could not fill '" +:+ fieldName +:+ "'"],
      (with_memory (with_world s w)
         (recordSelectorOutcome domain ("fill_" +:+ fieldName) sel false
            (Runtime.Date_now runtime w) (memory s))).
    split; [apply (fill_field_thrown _ _ _ _ _ message); exact F |].
    split; [simpl; lia |].
    destruct (recordSelectorOutcome_frame domain ("fill_" +:+ fieldName) sel false
                (Runtime.Date_now runtime w) (memory s)) as (H1 & H2 & H3).
    repeat split; assumption.
Qed.

Lemma field_selector_or_remembered_run (domain fieldName : string) (field : FormField)
    (s : @state W) :
  exists chosen, field_selector_or_remembered domain fieldName field s = (Returned chosen, s).
Proof.
  unfold field_selector_or_remembered.
  destruct (truthy (Some (field_selector field))); eexists; reflexivity.
Qed.

(** The loop of [fillForm] runs to its end whatever the driver does. *)
Lemma fill_form_fields_run (sessionId domain : string) (target : FormDefinition)
    (entries : list (string * string)) (errors : list string) (s : state) :
  exists more s',
    fill_form_fields sessionId domain target entries errors s
    = (Returned (errors ++ more)%list, s')
    /\ (length more <= length entries)%nat /\ only_selectors s s'.
Proof.
  revert errors s. induction entries as [| [fieldName value] rest IH]; intros errors s.
  - exists [], s. rewrite app_nil_r. repeat split. simpl. lia.
  - cbn [TaskExecutor.fill_form_fields].
    destruct (find_field toLowerCase target fieldName) as [field |].
    + destruct (field_selector_or_remembered_run domain fieldName field s) as [chosen Hc].
      rewrite (bind_returned _ _ _ _ _ Hc). destruct chosen as [sel |].
      * destruct (fill_field_run sessionId domain fieldName sel value errors s)
          as (more1 & s1 & H1 & L1 & F1).
        rewrite (bind_returned _ _ _ _ _ H1).
        destruct (IH (errors ++ more1)%list s1) as (more2 & s2 & H2 & L2 & F2).
        exists (more1 ++ more2)%list, s2. rewrite app_assoc.
        split; [exact H2 |]. split; [rewrite List.length_app; simpl; lia |].
        destruct F1 as (? & ? & ? & ? & ?), F2 as (? & ? & ? & ? & ?).
        repeat split; congruence.
      * destruct (IH (errors ++ ["No selector for '" +:+ fieldName +:+ "'"])%list s)
          as (more2 & s2 & H2 & L2 & F2).
        exists (["No selector for '" +:+ fieldName +:+ "'"] ++ more2)%list, s2.
        rewrite app_assoc. split; [exact H2 |]. split; [simpl; lia | exact F2].
    + destruct (IH (errors ++ ["Field '" +:+ fieldName +:+ "' not found"])%list s)
        as (more2 & s2 & H2 & L2 & F2).
      exists (["Field '" +:+ fieldName +:+ "' not found"] ++ more2)%list, s2.
      rewrite app_assoc. split; [exact H2 |]. split; [simpl; lia | exact F2].
Qed.

(** X27. A field that cannot be filled is reported, not thrown: when
    the driver fails to fill a field, the loop of [fillForm] goes on
    with the error "Could not fill" added and one failure booked on the
    selector under [fill_<field>]; when the driver fills it, one
    success is booked and no error added. *)
Theorem unfillable_field_is_reported (sessionId domain fieldName sel value : string)
    (errors : list string) (s : state) (w : W) (filled : outcome unit) :
  sel <> "" ->
  BrowserEngine.fill engine sessionId sel value (world s) = (filled, w) ->
  let before := counters domain ("fill_" +:+ fieldName) sel (memory s) in
  exists s',
    fill_field engine runtime sessionId domain fieldName sel value errors s
    = (Returned match filled with
                | Returned _ => errors
                | Thrown _ => (errors ++ ["Could not fill '" +:+ fieldName +:+ "'"])%list
                end, s')
    /\ counters domain ("fill_" +:+ fieldName) sel (memory s')
       = match filled with
         | Returned _ => (fst before + 1, snd before)
         | Thrown _ => (fst before, snd before + 1)
         end
    /\ only_selectors s s'.
Proof.
  intros Hsel Hfill before.
  destruct filled as [[] | message]; eexists; (split; [| split]).
  - apply fill_field_returned. exact Hfill.
  - cbn [memory with_memory]. rewrite counters_recordSelectorOutcome_any by exact Hsel.
    rewrite !String.eqb_refl. cbn [andb]. rewrite Z.add_0_r. reflexivity.
  - destruct (recordSelectorOutcome_frame domain ("fill_" +:+ fieldName) sel true
                (Runtime.Date_now runtime w) (memory s)) as (H1 & H2 & H3).
    repeat split; assumption.
  - apply (fill_field_thrown _ _ _ _ _ message). exact Hfill.
  - cbn [memory with_memory]. rewrite counters_recordSelectorOutcome_any by exact Hsel.
    rewrite !String.eqb_refl. cbn [andb]. rewrite Z.add_0_r. reflexivity.
  - destruct (recordSelectorOutcome_frame domain ("fill_" +:+ fieldName) sel false
                (Runtime.Date_now runtime w) (memory s)) as (H1 & H2 & H3).
    repeat split; assumption.
Qed.

(** X28. What [fillForm] answers.  For a form the page has, the loop
    over the data always runs to its end, collecting at most one error
    per entry and writing to nothing but the selector library; when the
    page can then be read again, the result is a success exactly when
    no error was collected, carries the errors as its data otherwise,
    and reports the state change between the two models.  For a form
    the page does not have, the result is the failure listing the forms
    on offer, and nothing is done. *)
Theorem fillForm_reports_field_errors (sessionId formName : string)
    (data : list (string * string)) (s s1 : state) (model : SemanticPageModel) :
  getPageState sessionId s = (Returned model, s1) ->
  (forall target urlBefore s2,
     List.find (fun f => same_name toLowerCase (form_name f) formName) (forms model)
       = Some target ->
     call (BrowserEngine.getCurrentUrl engine sessionId) s1 = (Returned urlBefore, s2) ->
     exists errors s3,
       fill_form_fields sessionId (getDomain urlBefore) target data [] s2
         = (Returned errors, s3)
       /\ (length errors <= length data)%nat
       /\ only_selectors s2 s3
       /\ forall newModel s4 urlAfter s5,
            refreshModel sessionId s3 = (Returned newModel, s4) ->
            call (BrowserEngine.getCurrentUrl engine sessionId) s4
              = (Returned urlAfter, s5) ->
            exists result,
              fillForm sessionId formName data s = (Returned result, s5)
              /\ (success (form_result result) = true <-> errors = [])
              /\ form_errors result = match errors with [] => None | _ => Some errors end
              /\ state_change (form_result result)
                 = buildStateChange urlBefore urlAfter model newModel
              /\ next_available_actions (form_result result) = action_names newModel)
  /\ (List.find (fun f => same_name toLowerCase (form_name f) formName) (forms model)
        = None ->
      fillForm sessionId formName data s
      = (Returned
           {| form_result :=
                errorResult
                  ("Form '" +:+ formName +:+ "' not found. Available: "
                   +:+ String.concat ", " (List.map form_name (forms model)))
                  model;
              form_errors := None |},
         s1)).
Proof.
  intros Hstate. split.
  - intros target urlBefore s2 Hfind Hurl.
    destruct (fill_form_fields_run sessionId (getDomain urlBefore) target data [] s2)
      as (errors & s3 & Hloop & Hlen & Hframe).
    cbn [app] in Hloop.
    exists errors, s3. split; [exact Hloop |]. split; [exact Hlen |].
    split; [exact Hframe |].
    intros newModel s4 urlAfter s5 Hrefresh Hafter.
    eexists. split.
    + unfold TaskExecutor.fillForm.
      rewrite (bind_returned _ _ _ _ _ Hstate). rewrite Hfind.
      rewrite (bind_returned _ _ _ _ _ Hurl). cbv zeta.
      rewrite (bind_returned _ _ _ _ _ Hloop).
      rewrite (bind_returned _ _ _ _ _ Hrefresh).
      rewrite (bind_returned _ _ _ _ _ Hafter). reflexivity.
    + cbn [form_result form_errors success state_change next_available_actions].
      destruct errors; simpl; repeat split; congruence.
  - intros Hfind. unfold TaskExecutor.fillForm.
    rewrite (bind_returned _ _ _ _ _ Hstate). rewrite Hfind. reflexivity.
Qed.

(** *** Extracting data *)

Lemma In_assign {A : Type} (key : string) (v : A) (entries : list (string * A))
    (k : string) (x : A) :
  In (k, x) (assign key v entries) -> (k = key /\ x = v) \/ In (k, x) entries.
Proof.
  induction entries as [| [k0 x0] rest IH]; simpl.
  - intros [H | []]. injection H as <- <-. left. split; reflexivity.
  - destruct (String.eqb k0 key) eqn:E; simpl.
    + apply String.eqb_eq in E. subst k0.
      intros [H | H]; [injection H as <- <-; left; split; reflexivity | right; right; exact H].
    + intros [H | H]; [right; left; exact H |].
      destruct (IH H) as [H' | H']; [left | right; right]; exact H'.
Qed.

Lemma property_assign_same {A : Type} (key : string) (v : A) (entries : list (string * A)) :
  property key (assign key v entries) = Some v.
Proof.
  induction entries as [| [k0 x0] rest IH]; simpl.
  - rewrite String.eqb_refl. reflexivity.
  - destruct (String.eqb k0 key) eqn:E; simpl; rewrite E; [reflexivity | exact IH].
Qed.

Lemma property_assign_other {A : Type} (key key' : string) (v : A)
    (entries : list (string * A)) :
  key' <> key -> property key' (assign key v entries) = property key' entries.
Proof.
  intros Hk. induction entries as [| [k0 x0] rest IH]; simpl.
  - destruct (String.eqb_spec key key'); [congruence | reflexivity].
  - destruct (String.eqb_spec k0 key) as [-> | Hne]; simpl.
    + destruct (String.eqb_spec key key'); [congruence | reflexivity].
    + destruct (String.eqb k0 key'); [reflexivity | exact IH].
Qed.

Lemma property_set_property_other {A : Type} (key key' : string) (v : A)
    (entries : list (string * A)) :
  key' <> key -> property key' (set_property key v entries) = property key' entries.
Proof.
  intros Hk. unfold set_property.
  destruct (String.eqb key "__proto__"); [reflexivity |].
  apply property_assign_other. exact Hk.
Qed.

Lemma extract_value_found (facts : list (string * JSON)) (key description : string) :
  extract_value toLowerCase facts key description = JNull
  \/ In (extract_value toLowerCase facts key description) (List.map snd facts).
Proof.
  unfold extract_value.
  destruct (List.find _ facts) as [e |] eqn:F.
  - right. apply List.find_some in F as [Hin _]. apply List.in_map. exact Hin.
  - destruct (List.find (fun e => described_by toLowerCase description (fst e)) facts)
      as [e |] eqn:G; [| left; reflexivity].
    right. apply List.find_some in G as [Hin _]. apply List.in_map. exact Hin.
Qed.

Abbreviation extract_step facts :=
  (fun (result : list (string * JSON)) (e : string * string) =>
     set_property (fst e) (extract_value toLowerCase facts (fst e) (snd e)) result).

Lemma extract_fold_entries (facts : list (string * JSON)) (schema : list (string * string))
    (acc : list (string * JSON)) (k : string) (v : JSON) :
  In (k, v) (fold_left (extract_step facts) schema acc) ->
  In (k, v) acc
  \/ exists description,
       In (k, description) schema /\ v = extract_value toLowerCase facts k description.
Proof.
  revert acc. induction schema as [| [key d] rest IH]; intros acc H; simpl in H.
  - left. exact H.
  - apply IH in H as [H | (description & Hin & Hv)].
    + unfold set_property in H. cbn [fst snd] in H.
      destruct (String.eqb key "__proto__"); [left; exact H |].
      apply In_assign in H as [[-> ->] | H]; [| left; exact H].
      right. exists d. split; [left; reflexivity | reflexivity].
    + right. exists description. split; [right; exact Hin | exact Hv].
Qed.

Lemma extract_fold_keeps (facts : list (string * JSON)) (schema : list (string * string))
    (acc : list (string * JSON)) (key : string) :
  ~ In key (List.map fst schema) ->
  property key (fold_left (extract_step facts) schema acc) = property key acc.
Proof.
  revert acc. induction schema as [| [k d] rest IH]; intros acc Hk; simpl; [reflexivity |].
  simpl in Hk. rewrite IH by tauto.
  apply property_set_property_other. intros E. apply Hk. left. symmetry. exact E.
Qed.

Lemma extract_fold_lookup (facts : list (string * JSON)) (schema : list (string * string))
    (acc : list (string * JSON)) (key description : string) :
  List.NoDup (List.map fst schema) -> In (key, description) schema ->
  key <> "__proto__" ->
  property key (fold_left (extract_step facts) schema acc)
  = Some (extract_value toLowerCase facts key description).
Proof.
  intros Hd Hin Hp. revert acc Hd Hin.
  induction schema as [| [k d] rest IH]; intros acc Hd Hin; [destruct Hin |].
  simpl in Hd. apply List.NoDup_cons_iff in Hd as [Hk Hd].
  destruct Hin as [E | Hin].
  - injection E as -> ->. simpl. rewrite extract_fold_keeps by exact Hk.
    unfold set_property. cbn [fst snd].
    destruct (String.eqb_spec key "__proto__"); [contradiction |].
    apply property_assign_same.
  - simpl. apply IH; assumption.
Qed.


(** *** The selector library under learning *)

(** X30. The [UNIQUE(domain, action_name, selector)] constraint is kept
    by everything that writes to the selector library: from a table
    with one row a key, a learning step (any number of
    [recordSelectorOutcome] calls) leads to such a table again; the
    empty table is one. *)
Theorem selector_library_stays_unique (domain : string) (ok : bool) (now : Z)
    (targets : list (string * string)) (d : db) :
  unique_keys (selector_library d) ->
  unique_keys (selector_library (recordAll domain ok now targets d))
  /\ (forall actionName action (s : @state W),
        memory s = d ->
        unique_keys
          (selector_library (memory (snd (learnFromAction domain actionName action ok s)))))
  /\ unique_keys (selector_library empty_db).
Proof.
  intros U.
  assert (forall targets d, unique_keys (selector_library d) ->
            unique_keys (selector_library (recordAll domain ok now targets d))) as H.
  { clear. intros targets. unfold recordAll.
    induction targets as [| t rest IH]; intros d U; simpl; [exact U |].
    apply IH. apply recordSelectorOutcome_unique. exact U. }
  split; [apply H; exact U |]. split; [| constructor].
  intros actionName action s <-. rewrite learnFromAction_run. cbn [snd memory with_memory].
  clear H.
  unfold recordAll. generalize (Runtime.Date_now runtime (world s)). intros t.
  generalize (hint_selectors actionName action). intros l. revert U.
  generalize (memory s). induction l as [| x rest IH]; intros d0 U; simpl; [exact U |].
  apply IH. apply recordSelectorOutcome_unique. exact U.
Qed.

End ExecutorUpkeep.

(** ** The additional properties on the sample data *)

Section UpkeepExamples.
Import SiteMemoryStore TaskExecutor Samples.

Abbreviation toy_with cfg A :=
  (A toy_world (toy_engine cfg) toy_analyzer toy_runtime URL.new_URL toy_stringify
     toy_parse (fun _ _ => None)).
Abbreviation toy A := (toy_with calm A).

Ltac distinct :=
  repeat (apply List.NoDup_cons; [simpl; intuition discriminate |]); apply List.NoDup_nil.

(** The hypothesis of [invalidateCache_by_domain] on two cached pages:
    invalidating the first page's domain removes it and leaves the
    other. *)
Lemma invalidateCache_by_domain_witness :
  unique_patterns (page_model_cache two_pages)
  /\ fst (getCachedModel URL.new_URL toy_parse "https://x.com/a?x=1" 5
            (invalidateCache "x.com" two_pages)) = None
  /\ fst (getCachedModel URL.new_URL toy_parse "https://y.org/b" 5
            (invalidateCache "x.com" two_pages)) = Some (login_page "https://y.org/b").
Proof.
  assert (unique_patterns (page_model_cache two_pages)) as U.
  { unfold unique_patterns. vm_compute. distinct. }
  split; [exact U |].
  destruct (invalidateCache_by_domain URL.new_URL toy_parse two_pages "x.com"
              "https://x.com/a?x=1" 5 U) as (H1 & _ & _).
  destruct (invalidateCache_by_domain URL.new_URL toy_parse two_pages "x.com"
              "https://y.org/b" 5 U) as (_ & H2 & _).
  split.
  - eapply H1; reflexivity.
  - erewrite H2; [reflexivity | reflexivity | vm_compute; discriminate].
Defined.

(** The hypotheses of [stale_domain_survives_invalidation]: the page was
    first cached under an address without a scheme. *)
Lemma stale_domain_survives_invalidation_witness :
  let m := login_page "https://x.com/a" in
  getDomain URL.new_URL "https://x.com/a" = "x.com"
  /\ fst (getCachedModel URL.new_URL toy_parse "https://x.com/a" 20
            (invalidateCache "x.com"
               (cacheModel URL.new_URL toy_stringify "https://x.com/a" m 10 cached_unparsed)))
     = Some m.
Proof.
  intros m. split; [reflexivity |].
  apply (stale_domain_survives_invalidation URL.new_URL toy_stringify toy_parse
           cached_unparsed "https://x.com/a" m 10 20
           {| url_pattern := "x.com/a"; c_domain := "x.com/a"; model_json := "x.com/a";
              hit_count := 0; c_last_updated := 0 |}).
  - reflexivity.
  - reflexivity.
  - vm_compute. discriminate.
  - unfold CACHE_TTL_MS. lia.
Defined.

(** The hypothesis of [fresh_entry_is_invalidated] on an empty cache. *)
Lemma fresh_entry_is_invalidated_witness :
  fst (getCachedModel URL.new_URL toy_parse "https://x.com/a" 20
         (invalidateCache "x.com"
            (cacheModel URL.new_URL toy_stringify "https://x.com/a"
               (login_page "https://x.com/a") 10 empty_db))) = None.
Proof.
  apply (fresh_entry_is_invalidated URL.new_URL toy_stringify toy_parse empty_db
           "https://x.com/a" (login_page "https://x.com/a") 10 20).
  reflexivity.
Defined.

(** The hypothesis of [cache_keeps_unique_patterns] on two cached pages. *)
Lemma cache_keeps_unique_patterns_witness :
  unique_patterns (page_model_cache two_pages)
  /\ unique_patterns
       (page_model_cache
          (cacheModel URL.new_URL toy_stringify "https://x.com/a/"
             (login_page "https://x.com/a/") 7 two_pages)).
Proof.
  assert (unique_patterns (page_model_cache two_pages)) as U.
  { unfold unique_patterns. vm_compute. distinct. }
  split; [exact U |].
  apply (cache_keeps_unique_patterns URL.new_URL toy_stringify toy_parse two_pages
           "https://x.com/a/" (login_page "https://x.com/a/") 7 "x.com" U).
Defined.

(** The hypothesis of [getBestSelector_other_key]: an outcome for another
    action does not change the answer for [login]. *)
Lemma getBestSelector_other_key_witness :
  ("x.com", "signup") <> ("x.com", "login")
  /\ getBestSelector "x.com" "login"
       (recordSelectorOutcome "x.com" "signup" "#c" true 12 two_selectors) = Some "#a".
Proof.
  assert (("x.com", "signup") <> ("x.com", "login")) as H by discriminate.
  split; [exact H |].
  rewrite (getBestSelector_other_key "x.com" "login" "x.com" "signup" "#c" true 12
             two_selectors H).
  reflexivity.
Defined.

(** The hypotheses of [getBestSelector_needs_more_successes]: a selector
    with one success in four attempts is not the answer. *)
Lemma getBestSelector_needs_more_successes_witness :
  unique_keys (selector_library flaky)
  /\ In old_selector (selector_library flaky)
  /\ getBestSelector "x.com" "login" flaky <> Some "#old".
Proof.
  assert (unique_keys (selector_library flaky)) as U.
  { unfold unique_keys. simpl. distinct. }
  assert (In old_selector (selector_library flaky)) as Hin by (left; reflexivity).
  split; [exact U |]. split; [exact Hin |].
  destruct (getBestSelector_needs_more_successes flaky old_selector U Hin) as [H _].
  apply H. simpl. lia.
Defined.

(** The hypothesis of [updateSiteProfile_keeps_profiles_ok] on the empty
    table. *)
Lemma updateSiteProfile_keeps_profiles_ok_witness :
  profiles_ok (site_profiles empty_db)
  /\ profiles_ok
       (site_profiles (updateSiteProfile "x.com" "login" (Some "first") 1 empty_db)).
Proof.
  assert (profiles_ok (site_profiles empty_db)) as H by (split; constructor).
  split; [exact H |].
  apply (updateSiteProfile_keeps_profiles_ok "x.com" "login" (Some "first") 1 empty_db H).
Defined.

(** The hypothesis of [visit_counts_never_reach_the_digest]: after a
    first visit is counted the domain still has no digest. *)
Lemma visit_counts_never_reach_the_digest_witness :
  toy_visit_count_in "{}" = 0
  /\ SiteMemoryStore.buildLLMContext (fun _ _ => []) toy_visit_count_in (fun _ => "n")
       "x.com" (incrementVisitCount "x.com" 5 empty_db) = None
  /\ visits_of "x.com" (incrementVisitCount "x.com" 5 empty_db) = 1.
Proof.
  split; [reflexivity |].
  destruct (visit_counts_never_reach_the_digest (fun _ _ => []) toy_visit_count_in
              (fun _ => "n") "x.com" "x.com" 5 empty_db eq_refl) as [H1 H2].
  rewrite H1, H2. split; reflexivity.
Defined.

(** The hypothesis of [session_save_get_delete] on the sample codec. *)
Lemma session_save_get_delete_witness :
  let session := toy_parse_session "session-0" in
  toy_parse_session (toy_stringify_session session) = session
  /\ getSession toy_parse_session "session-0"
       (saveSession toy_stringify_session session []) = Some session
  /\ getSession toy_parse_session "session-0"
       (deleteSession "session-0" (saveSession toy_stringify_session session [])) = None.
Proof.
  intros session. split; [reflexivity |].
  destruct (session_save_get_delete toy_stringify_session toy_parse_session session []
              eq_refl) as (H1 & _ & _ & _ & _).
  split; [exact H1 | reflexivity].
Defined.

(** The hypothesis of [getStats_after_outcome]: the second attempt of
    ["#b"] makes it a known selector. *)
Lemma getStats_after_outcome_witness :
  "#b" <> ""
  /\ stat_known_selectors
       (getStats (recordSelectorOutcome "x.com" "login" "#b" true 12 two_selectors) [])
     = 2%nat
  /\ stat_actions
       (getStats (recordSelectorOutcome "x.com" "login" "#b" true 12 two_selectors) [])
     = 2%nat.
Proof.
  assert ("#b" <> "") as H by discriminate.
  split; [exact H |].
  destruct (getStats_after_outcome "x.com" "login" "#b" true 12 two_selectors [] H)
    as (H1 & H2 & _).
  rewrite H1, H2. split; reflexivity.
Defined.

(** The hypotheses of [unknown_action_changes_nothing]: the signup page
    offers no [log_out]. *)
Lemma unknown_action_changes_nothing_witness :
  let run := toy (@TaskExecutor.executeAction) "session-0" "log_out" [] browsing in
  fst (toy (@TaskExecutor.getPageState) "session-0" browsing)
    = Returned (signup_page "https://x.com/signup")
  /\ snd run = browsing
  /\ exists result, fst run = Returned result /\ success result = false.
Proof.
  intros run. split; [reflexivity |].
  destruct (unknown_action_changes_nothing (toy_engine calm) toy_analyzer toy_runtime
              URL.new_URL toy_stringify toy_parse (fun _ _ => None)
              "session-0" "log_out" [] browsing browsing
              (signup_page "https://x.com/signup") eq_refl eq_refl) as [H _].
  unfold run. rewrite H. split; [reflexivity | eexists; split; reflexivity].
Defined.

(** The hypotheses of [captcha_after_action_learns_nothing]: the link
    leads to a challenge. *)
Lemma captcha_after_action_learns_nothing_witness :
  let run := toy (@TaskExecutor.executeAction) "session-0" "go_challenge" [] browsing in
  TaskExecutor.performAction (toy_engine calm) "session-0" go_challenge [] "x.com" browsing
    = (Returned tt,
       with_world browsing {| created := 1; location := "https://x.com/challenge" |})
  /\ fst run = Returned (errorResult "CAPTCHA appeared after action."
                           (signup_page "https://x.com/signup"))
  /\ memory (snd run) = memory browsing.
Proof.
  intros run. split; [reflexivity |].
  destruct (captcha_after_action_learns_nothing (toy_engine calm) toy_analyzer toy_runtime
              URL.new_URL toy_stringify toy_parse (fun _ _ => None)
              "session-0" "go_challenge" [] browsing browsing browsing
              (with_world browsing {| created := 1; location := "https://x.com/challenge" |})
              (with_world browsing {| created := 1; location := "https://x.com/challenge" |})
              (signup_page "https://x.com/signup") go_challenge "https://x.com/signup"
              eq_refl eq_refl eq_refl eq_refl eq_refl) as (H & Hm & _).
  unfold run. rewrite H. split; [reflexivity | exact Hm].
Defined.

(** The hypotheses of [executeAction_success_path]: the link leads to
    the home page, which is analysed. *)
Lemma executeAction_success_path_witness :
  let run := toy (@TaskExecutor.executeAction) "session-0" "go_home" [] browsing in
  (exists result,
     fst run = Returned result /\ success result = true
     /\ navigated_to (state_change result) = Some "https://x.com/home")
  /\ counters "x.com" "go_home" "https://x.com/home" (memory (snd run)) = (1, 0)
  /\ In "action 'go_home' on signup leads to login" (notes_of "x.com" (memory (snd run))).
Proof.
  intros run.
  pose (home := with_world browsing {| created := 1; location := "https://x.com/home" |}).
  destruct (toy (@TaskExecutor.refreshModel) "session-0"
              (with_memory home (invalidateCache "x.com" (memory home))))
    as [o s6] eqn:R.
  assert (o = Returned (login_page "https://x.com/home")) as ->
    by (apply (f_equal fst) in R; symmetry; exact R).
  destruct (executeAction_success_path (toy_engine calm) toy_analyzer toy_runtime
              URL.new_URL toy_stringify toy_parse (fun _ _ => None)
              "session-0" "go_home" [] browsing browsing browsing home home home s6
              (signup_page "https://x.com/signup") (login_page "https://x.com/home")
              go_home "https://x.com/signup" "https://x.com/home"
              eq_refl eq_refl eq_refl eq_refl eq_refl eq_refl R) as (H & Hc & Hn & _).
  unfold run. rewrite H. cbn [fst snd memory with_memory].
  split; [eexists; repeat split |]. split.
  - refine (eq_trans (Hc "go_home" "https://x.com/home") _).
    apply (f_equal snd) in R. cbn [snd] in R. rewrite <- R. reflexivity.
  - exact Hn.
Defined.

(** The hypotheses of [cached_refresh_is_not_a_visit]: the login page is
    read from the cache ten milliseconds after it was cached. *)
Lemma cached_refresh_is_not_a_visit_witness :
  let run := toy (@TaskExecutor.refreshModel) "session-0" revisiting in
  fst run = Returned (login_page "https://x.com/login")
  /\ visits_of "x.com" (memory (snd run)) = 0.
Proof.
  intros run.
  destruct (getCachedModel URL.new_URL toy_parse "https://x.com/login" 1000
              (memory revisiting)) as [cached d'] eqn:C.
  assert (cached = Some (login_page "https://x.com/login")) as ->
    by (apply (f_equal fst) in C; symmetry; exact C).
  destruct (cached_refresh_is_not_a_visit (toy_engine calm) toy_runtime URL.new_URL
              toy_stringify toy_parse "session-0" revisiting "https://x.com/login"
              (world revisiting) (world revisiting) (login_page "https://x.com/login") d'
              eq_refl eq_refl C) as (H & Hk & _).
  unfold run. rewrite (H toy_analyzer (fun _ _ => None)).
  split; [reflexivity |]. cbn [snd memory]. unfold visits_of. rewrite Hk. reflexivity.
Defined.

(** The hypotheses of [analysed_refresh_is_a_visit] on a first visit of
    the login page. *)
Lemma analysed_refresh_is_a_visit_witness :
  let run := toy (@TaskExecutor.refreshModel) "session-0" learned in
  fst run = Returned (login_page "https://x.com/login")
  /\ visits_of "x.com" (memory (snd run)) = 1
  /\ types_of "x.com" (memory (snd run)) = ["login"].
Proof.
  intros run.
  destruct (analysed_refresh_is_a_visit (toy_engine calm) toy_analyzer toy_runtime
              URL.new_URL toy_stringify toy_parse (fun _ _ => None)
              "session-0" learned "https://x.com/login" "<html></html>" "[]"
              (world learned) (world learned) (world learned) (world learned)
              (world learned) (login_page "https://x.com/login")
              eq_refl eq_refl eq_refl eq_refl eq_refl eq_refl)
    as (s' & H & Hv & _).
  unfold run. rewrite H. cbn [fst snd]. split; [reflexivity |].
  split; [refine (eq_trans Hv _); reflexivity |].
  apply (f_equal snd) in H. cbn [snd] in H. rewrite <- H. reflexivity.
Defined.

(** The hypotheses of [unused_hint_is_still_graded]: [pick_plan] has a
    hint of type [select]; it cannot be carried out, and its selector is
    booked a failure it never had. *)
Lemma unused_hint_is_still_graded_witness :
  fst (TaskExecutor.performAction (toy_engine calm) "session-0" pick_plan [] "x.com" browsing)
    = Thrown ("Cannot execute 'pick_plan' — no selector available. "
              +:+ "This action needs to be executed at least once with explicit selectors to learn from.")
  /\ counters "x.com" "pick_plan" "#plan"
       (memory (snd (TaskExecutor.learnFromAction toy_runtime "x.com" "pick_plan" pick_plan
                       false browsing))) = (0, 1).
Proof.
  destruct (unused_hint_is_still_graded (toy_engine calm) toy_runtime URL.new_URL
              toy_stringify toy_parse "session-0" "pick_plan" "#plan" "x.com" pick_plan
              {| type := select; selector := Some "#plan"; field_map := None;
                 submit_selector := None |}
              [] false browsing eq_refl (or_introl eq_refl) eq_refl) as (H1 & H2 & _).
  rewrite H1, H2. split; reflexivity.
Defined.


(** The hypotheses of [fallback_action_needs_a_learned_selector] on a
    page that could not be analysed. *)
Lemma fallback_action_needs_a_learned_selector_witness :
  let run := toy (@TaskExecutor.executeAction) "session-0" "extract_raw" [] degraded in
  (exists result, fst run = Returned result /\ success result = false)
  /\ snd run = degraded.
Proof.
  intros run.
  pose proof (fallback_action_needs_a_learned_selector (toy_engine calm) toy_analyzer
                toy_runtime URL.new_URL toy_stringify toy_parse (fun _ _ => None)
                "session-0" "https://x.com/odd" "https://x.com/odd" 7 [] degraded
                (world degraded) eq_refl eq_refl eq_refl) as H.
  unfold run. rewrite H. split; [eexists; split; reflexivity | reflexivity].
Defined.

(** The hypotheses of [unfillable_field_is_reported]: the password field
    cannot be filled. *)
Lemma unfillable_field_is_reported_witness :
  "#password" <> ""
  /\ exists s',
       fill_field (toy_engine brittle) toy_runtime "session-0" "x.com" "password"
         "#password" "hunter2" [] browsing
       = (Returned ["Could not fill 'password'"], s')
       /\ counters "x.com" "fill_password" "#password" (memory s') = (0, 1).
Proof.
  assert ("#password" <> "") as H by discriminate.
  split; [exact H |].
  destruct (unfillable_field_is_reported (toy_engine brittle) toy_runtime "session-0"
              "x.com" "password" "#password" "hunter2" [] browsing (world browsing)
              (Thrown "Timeout 10000ms exceeded") H eq_refl) as (s' & H1 & H2 & _).
  exists s'. split; [exact H1 | exact H2].
Defined.

(** The hypothesis of [fillForm_reports_field_errors]: of four entries,
    one is filled, one cannot be filled, one has no selector and one
    names no field of the form. *)
Lemma fillForm_reports_field_errors_witness :
  let data := [("email", "a@b.c"); ("password", "hunter2"); ("coupon", "Z"); ("phone", "1")] in
  let run := TaskExecutor.fillForm (toy_engine brittle) toy_analyzer toy_runtime URL.new_URL
               toy_stringify toy_parse (fun _ _ => None) toy_lower "session-0" "signup"
               data browsing in
  fst (TaskExecutor.getPageState (toy_engine brittle) toy_analyzer toy_runtime URL.new_URL
         toy_stringify toy_parse (fun _ _ => None) "session-0" browsing)
    = Returned (signup_page "https://x.com/signup")
  /\ exists result,
       fst run = Returned result
       /\ success (form_result result) = false
       /\ form_errors result
          = Some ["Could not fill 'password'"; "No selector for 'coupon'";
                  "Field 'phone' not found"].
Proof.
  intros data run. split; [reflexivity |].
  destruct (fillForm_reports_field_errors (toy_engine brittle) toy_analyzer toy_runtime
              URL.new_URL toy_stringify toy_parse (fun _ _ => None) toy_lower
              "session-0" "signup" data browsing browsing
              (signup_page "https://x.com/signup") eq_refl) as [H _].
  destruct (H signup_form "https://x.com/signup" browsing eq_refl eq_refl)
    as (errors & s3 & Hloop & _ & _ & Hres).
  vm_compute in Hloop. injection Hloop as <- <-.
  match type of Hres with
  | forall newModel s4 urlAfter s5, ?refresh = _ -> _ =>
      destruct (Hres (login_page "https://x.com/signup") (snd refresh)
                  "https://x.com/signup" (snd refresh))
        as (result & Hrun & Hok & Herr & _);
        [vm_compute; reflexivity | vm_compute; reflexivity |]
  end.
  exists result. unfold run. rewrite Hrun. split; [reflexivity |].
  split; [| exact Herr].
  destruct (success (form_result result)); [| reflexivity].
  destruct Hok as [Hok _]. specialize (Hok eq_refl). discriminate.
Defined.

(** The hypothesis of [selector_library_stays_unique]: learning from a
    failed login on a table with two selectors. *)
Lemma selector_library_stays_unique_witness :
  unique_keys (selector_library two_selectors)
  /\ unique_keys
       (selector_library
          (recordAll "x.com" false 12 [("login", "#a"); ("login.submit", "#go")]
             two_selectors)).
Proof.
  assert (unique_keys (selector_library two_selectors)) as U.
  { unfold unique_keys. simpl. distinct. }
  split; [exact U |].
  apply (@selector_library_stays_unique toy_world toy_runtime "x.com" false 12
           [("login", "#a"); ("login.submit", "#go")] two_selectors U).
Defined.

End UpkeepExamples.
